(** * Intelligence-Brief: the analytical core, embedded and verified

    A shallow embedding of the clustering, event-extraction, confidence,
    scoring, correlation and briefing code of the repository
    (src/normalization.py, src/event_extraction.py, src/scoring.py,
    src/storage.py, src/correlation.py, src/summarization.py,
    src/pipeline.py, src/models.py, src/config.py).

    Conventions of the embedding.
    - A Python [float] is an exact rational ([Q]); equalities between
      floats are stated with [==].
    - A Python [str] is a [string] of code points below 128; [lower],
      [split], [strip] and [in] are written out for that range.
    - A naive [datetime] is a number of microseconds ([Z]); a [timedelta]
      is a difference of two such numbers.
    - A [dict] is an association list in insertion order, looked up by
      first match.
    - A [set] of strings is a [gset string].
    - The SQLite tables of [Storage] are lists of rows.
    - The clock ([datetime.utcnow]) is an argument [now]; the readings
      taken during one call are taken to coincide.
    - Functions of libraries outside the repository whose definition no
      property depends on ([hashlib.sha256], [datetime.isoformat],
      [datetime.strftime], [urllib.parse.urlparse], the float formats of
      f-strings) are section variables. *)

From Stdlib Require Import ZArith QArith Qminmax Qabs Lqa Ascii String.
From stdpp Require Import base decidable option list sorting gmap strings pretty.

Local Open Scope string_scope.
Local Open Scope list_scope.

(** ** Python built-ins *)

Module Py.

(** [float] *)
Definition float := Q.
Bind Scope Q_scope with float.

(** [datetime] and [timedelta], in microseconds. *)
Definition datetime := Z.
Definition timedelta := Z.

Definition seconds (n : Z) : timedelta := (n * 1000000)%Z.
Definition hours (n : Z) : timedelta := seconds (n * 3600).
Definition days (n : Z) : timedelta := seconds (n * 86400).

(** [abs((t1 - t2).total_seconds())], kept in microseconds. *)
Definition abs_diff (t1 t2 : datetime) : timedelta := Z.abs (t1 - t2).

(** [x or y] on an optional datetime: a datetime is always truthy. *)
Definition or_else {T} (x : option T) (y : T) : T :=
  match x with Some v => v | None => y end.

(** [str.lower], one character. *)
Definition lower_char (c : ascii) : ascii :=
  let n := nat_of_ascii c in
  if (65 <=? n)%nat && (n <=? 90)%nat then ascii_of_nat (n + 32) else c.

(** [str.lower] *)
Fixpoint lower (s : string) : string :=
  match s with
  | EmptyString => EmptyString
  | String c s' => String (lower_char c) (lower s')
  end.

(** [str.isspace], one character: tab to carriage return, the four
    separators 28 to 31, and the space. *)
Definition isspace (c : ascii) : bool :=
  let n := nat_of_ascii c in
  ((9 <=? n)%nat && (n <=? 13)%nat) || ((28 <=? n)%nat && (n <=? 32)%nat).

(** [str.split()] without argument: the maximal runs of characters that
    are not white space. [cur] is the word being read, if any. *)
Fixpoint split_from (cur : option string) (s : string) : list string :=
  match s with
  | EmptyString => match cur with Some w => [w] | None => [] end
  | String c s' =>
      if isspace c then
        match cur with
        | Some w => w :: split_from None s'
        | None => split_from None s'
        end
      else
        split_from (Some (or_else cur EmptyString +:+ String c EmptyString)) s'
  end.

Definition split (s : string) : list string := split_from None s.

(** [s.split('.')[0]]: the text before the first full stop. *)
Fixpoint before_dot (s : string) : string :=
  match s with
  | EmptyString => EmptyString
  | String c s' => if Ascii.eqb c "." then EmptyString else String c (before_dot s')
  end.

(** [str.lstrip], [str.rstrip] and [str.strip]. *)
Fixpoint lstrip (s : string) : string :=
  match s with
  | EmptyString => EmptyString
  | String c s' => if isspace c then lstrip s' else s
  end.

Fixpoint rstrip (s : string) : string :=
  match s with
  | EmptyString => EmptyString
  | String c s' =>
      match rstrip s' with
      | EmptyString => if isspace c then EmptyString else String c EmptyString
      | r => String c r
      end
  end.

Definition strip (s : string) : string := rstrip (lstrip s).

(** [s[:n]] *)
Fixpoint take_prefix (n : nat) (s : string) : string :=
  match n, s with
  | O, _ => EmptyString
  | _, EmptyString => EmptyString
  | S n', String c s' => String c (take_prefix n' s')
  end.

(** [s.startswith(p)] *)
Fixpoint startswith (p s : string) : bool :=
  match p, s with
  | EmptyString, _ => true
  | String _ _, EmptyString => false
  | String a p', String b s' => Ascii.eqb a b && startswith p' s'
  end.

(** [needle in hay] *)
Fixpoint contains (needle hay : string) : bool :=
  startswith needle hay ||
  match hay with
  | EmptyString => false
  | String _ hay' => contains needle hay'
  end.

(** Truthiness of a string: the empty string is falsy. *)
Definition truthy (s : string) : bool :=
  match s with EmptyString => false | String _ _ => true end.

(** [set(words)] *)
Definition set_of (l : list string) : gset string := list_to_set l.

(** [x > y] on floats. *)
Definition Qgtb (x y : float) : bool := negb (Qle_bool x y).

(** [len(x)] as a float. *)
Definition float_of_nat (n : nat) : float := inject_Z (Z.of_nat n).

(** [x < y] on floats. *)
Definition Qltb (x y : float) : bool := negb (Qle_bool y x).

(** [sep.join(l)] *)
Fixpoint join (sep : string) (l : list string) : string :=
  match l with
  | [] => EmptyString
  | x :: l' =>
      match l' with
      | [] => x
      | _ :: _ => x +:+ sep +:+ join sep l'
      end
  end.

(** [d[k].append(v)] on a [defaultdict(list)]. *)
Fixpoint dict_append {V} (d : list (string * list V)) (k : string) (v : V) :
    list (string * list V) :=
  match d with
  | [] => [(k, [v])]
  | (k', vs) :: d' =>
      if String.eqb k' k then (k', vs ++ [v]) :: d' else (k', vs) :: dict_append d' k v
  end.

(** [d.get(k, default)] on a dict with string keys. *)
Fixpoint dict_find {V} (d : list (string * V)) (k : string) : option V :=
  match d with
  | [] => None
  | (k', v) :: d' => if String.eqb k' k then Some v else dict_find d' k
  end.

Definition dict_get {V} (d : list (string * V)) (k : string) (default : V) : V :=
  or_else (dict_find d k) default.

(** [list(d.keys())] *)
Definition dict_keys {V} (d : list (string * V)) : list string := map fst d.

(** [sorted(l, key=key)] for an integer key: a stable sort, so the
    result is the one of insertion from the right. *)
Fixpoint insert_by {T} (key : T -> Z) (x : T) (l : list T) : list T :=
  match l with
  | [] => [x]
  | y :: l' => if (key x <=? key y)%Z then x :: l else y :: insert_by key x l'
  end.

Fixpoint sorted {T} (key : T -> Z) (l : list T) : list T :=
  match l with
  | [] => []
  | x :: l' => insert_by key x (sorted key l')
  end.

(** The order of a list sorted by [key]. *)
Definition key_le {T} (key : T -> Z) (x y : T) : Prop := (key x ≤ key y)%Z.

(** *** [re.search] with [re.IGNORECASE]

    The patterns of the repository use literal characters and [.*]
    only; [.] matches every character except the line feed. *)

Definition eqb_nocase (a b : ascii) : bool := Ascii.eqb (lower_char a) (lower_char b).

Definition newline : ascii := ascii_of_nat 10.

Fixpoint match_here (pat : string) : string -> bool :=
  match pat with
  | EmptyString => fun _ => true
  | String p pat' =>
      match pat' with
      | String q rest =>
          if Ascii.eqb p "." && Ascii.eqb q "*" then
            fix star (text : string) : bool :=
              match_here rest text ||
              match text with
              | EmptyString => false
              | String c text' => if Ascii.eqb c newline then false else star text'
              end
          else
            fun text =>
              match text with
              | EmptyString => false
              | String c text' => eqb_nocase p c && match_here pat' text'
              end
      | EmptyString =>
          fun text =>
            match text with
            | EmptyString => false
            | String c text' => eqb_nocase p c && match_here pat' text'
            end
      end
  end.

Fixpoint re_search (pat text : string) : bool :=
  match_here pat text ||
  match text with
  | EmptyString => false
  | String _ text' => re_search pat text'
  end.

End Py.

(** ** src/models.py *)

Module SourceTier.

Inductive t := A | B | C | D.

Definition value (x : t) : string :=
  match x with A => "A" | B => "B" | C => "C" | D => "D" end.

#[global] Instance eq_dec : EqDecision t.
Proof. solve_decision. Defined.

End SourceTier.

Module EventType.

Inductive t :=
| GOVERNMENT_CHANGE
| ELECTION
| SANCTIONS
| ARMED_CONFLICT
| CEASEFIRE
| TERRORIST_ATTACK
| CIVIL_UNREST
| BORDER_INCIDENT
| TRADE_RESTRICTION
| ECONOMIC_CRISIS
| INFRASTRUCTURE_DISRUPTION
| NATURAL_DISASTER
| DIPLOMATIC_RUPTURE
| MILITARY_MOBILIZATION
| CYBER_INCIDENT
| LEGAL_CHANGE
| STRATEGIC_INVESTMENT.

Definition value (x : t) : string :=
  match x with
  | GOVERNMENT_CHANGE => "government_change"
  | ELECTION => "election"
  | SANCTIONS => "sanctions"
  | ARMED_CONFLICT => "armed_conflict"
  | CEASEFIRE => "ceasefire"
  | TERRORIST_ATTACK => "terrorist_attack"
  | CIVIL_UNREST => "civil_unrest"
  | BORDER_INCIDENT => "border_incident"
  | TRADE_RESTRICTION => "trade_restriction"
  | ECONOMIC_CRISIS => "economic_crisis"
  | INFRASTRUCTURE_DISRUPTION => "infrastructure_disruption"
  | NATURAL_DISASTER => "natural_disaster"
  | DIPLOMATIC_RUPTURE => "diplomatic_rupture"
  | MILITARY_MOBILIZATION => "military_mobilization"
  | CYBER_INCIDENT => "cyber_incident"
  | LEGAL_CHANGE => "legal_change"
  | STRATEGIC_INVESTMENT => "strategic_investment"
  end.

#[global] Instance eq_dec : EqDecision t.
Proof. solve_decision. Defined.

End EventType.

Module ConfidenceLevel.

Inductive t := HIGH | MEDIUM | LOW.

Definition value (l : t) : string :=
  match l with
  | HIGH => "High"
  | MEDIUM => "Medium"
  | LOW => "Low"
  end.

End ConfidenceLevel.

Module Models.

Import Py.

Record SourceCitation := {
  cit_url : string;
  cit_title : string;
  cit_source_name : string;
  cit_tier : SourceTier.t;
  cit_published_at : option datetime;
  cit_retrieved_at : option datetime
}.

Record RawSource := {
  source_id : string;
  url : string;
  title : string;
  content : string;
  source_name : string;
  tier : SourceTier.t;
  language : string;
  published_at : option datetime;
  retrieved_at : datetime;
  metadata : list (string * string)
}.

Definition to_citation (self : RawSource) : SourceCitation :=
  {| cit_url := url self;
     cit_title := title self;
     cit_source_name := source_name self;
     cit_tier := tier self;
     cit_published_at := published_at self;
     cit_retrieved_at := Some (retrieved_at self) |}.

Record Event := {
  event_id : string;
  event_type : EventType.t;
  timestamp : datetime;
  location : string;
  summary : string;
  location_geo : option string;
  entities : list string;
  sources : list SourceCitation;
  confidence : float;
  confidence_label : ConfidenceLevel.t;
  impact_tags : list string;
  evidence_links : list string;
  created_at : datetime;
  updated_at : datetime
}.

(** [Event.update_confidence]; [now] is the clock reading. *)
Definition update_confidence (now : datetime) (self : Event) (new_confidence : float) : Event :=
  let c := Qmax 0 (Qmin 1 new_confidence) in
  let label :=
    if Qle_bool (7 # 10) c then ConfidenceLevel.HIGH
    else if Qle_bool (4 # 10) c then ConfidenceLevel.MEDIUM
    else ConfidenceLevel.LOW in
  {| event_id := event_id self;
     event_type := event_type self;
     timestamp := timestamp self;
     location := location self;
     summary := summary self;
     location_geo := location_geo self;
     entities := entities self;
     sources := sources self;
     confidence := c;
     confidence_label := label;
     impact_tags := impact_tags self;
     evidence_links := evidence_links self;
     created_at := created_at self;
     updated_at := now |}.

Record SubScore := {
  name : string;
  value : float;
  sub_delta_7d : float;
  sub_delta_30d : float;
  sub_delta_90d : float;
  sub_drivers : list string
}.

Record Assessment := {
  assessment_id : string;
  target : string;
  overall_score : float;
  sub_scores : list SubScore;
  delta_7d : float;
  delta_30d : float;
  delta_90d : float;
  drivers : list string;
  assessment_confidence : float;
  generated_at : datetime
}.

(** [Assessment.get_sub_score] *)
Definition get_sub_score (self : Assessment) (n : string) : option SubScore :=
  find (fun score => String.eqb (name score) n) (sub_scores self).

Record Brief := {
  brief_id : string;
  brief_target : string;
  what_changed : string;
  why_it_matters : string;
  what_to_watch : string;
  brief_citations : list SourceCitation;
  confidence_markers : list (string * ConfidenceLevel.t);
  brief_generated_at : datetime;
  brief_type : string
}.

End Models.

(** ** src/config.py

    The YAML file is not part of the sources: a configuration is any
    value of this type. *)

Module Config.

Import Py.

Record ScoringConfig := {
  weights : list (string * float);
  min_confidence : float;
  baseline_days : Z;
  delta_periods : list Z
}.

Record DeduplicationConfig := {
  similarity_threshold : float;
  max_sources_per_cluster : nat;
  time_window_hours : Z
}.

(** One entry of [event_types]; both keys may be absent. *)
Record EventTypeConfig := {
  severity_base : option float;
  sub_score_weights : option (list (string * float))
}.

Record t := {
  scoring : ScoringConfig;
  deduplication : DeduplicationConfig;
  event_types : list (string * EventTypeConfig);
  monitored_countries : list string
}.

(** [Config.get_event_type_config] *)
Definition get_event_type_config (self : t) (event_type : string) : EventTypeConfig :=
  dict_get (event_types self) event_type
    {| severity_base := Some (5 # 10); sub_score_weights := Some [] |}.

End Config.

(** ** src/storage.py

    The three tables the analytical core reads or writes.  A method of
    [Storage] is a computation over the state of the database.  Times
    are stored as ISO-8601 text and compared as text by SQLite; for the
    four-digit years of [datetime] that order is the order of the times
    themselves, which is the one used here. *)

Module Storage.

Import Py Models.

(** A row of [historical_assessments]; the [id] column is the position
    in the list. *)
Record HistoricalRow := {
  row_assessment_id : string;
  row_target : string;
  row_overall_score : float;
  row_sub_scores : list SubScore;
  row_generated_at : datetime
}.

Record t := {
  events : list Event;
  assessments : list Assessment;
  historical_assessments : list HistoricalRow
}.

Definition empty : t :=
  {| events := []; assessments := []; historical_assessments := [] |}.

(** Computations over the database. *)
Definition M (R : Type) : Type := t -> R * t.

Definition ret {R} (r : R) : M R := fun db => (r, db).

Definition bind {R S} (m : M R) (k : R -> M S) : M S :=
  fun db => let '(r, db') := m db in k r db'.

Definition query {R} (q : t -> R) : M R := fun db => (q db, db).

Definition execute (u : t -> t) : M unit := fun db => (tt, u db).

(** A computation that only reads the database. *)
Definition read_only {R} (m : M R) : Prop := ∀ db, snd (m db) = db.

Fixpoint for_each {R S} (f : R -> M S) (l : list R) : M (list S) :=
  match l with
  | [] => ret []
  | x :: l' => bind (f x) (fun y => bind (for_each f l') (fun ys => ret (y :: ys)))
  end.

(** SQL [LIKE]: [%] is any text, [_] any character, letters compare
    without case. *)
Fixpoint like (pat : string) : string -> bool :=
  match pat with
  | EmptyString => fun text => negb (truthy text)
  | String p pat' =>
      if Ascii.eqb p "%" then
        fix any (text : string) : bool :=
          like pat' text ||
          match text with
          | EmptyString => false
          | String _ text' => any text'
          end
      else
        fun text =>
          match text with
          | EmptyString => false
          | String c text' => (Ascii.eqb p "_" || eqb_nocase p c) && like pat' text'
          end
  end.

(** [ORDER BY timestamp DESC]; rows with equal times keep their order. *)
Definition newest_first (l : list Event) : list Event :=
  sorted (fun e => (- timestamp e)%Z) l.

(** [Storage.get_events_by_location] *)
Definition get_events_by_location (loc : string) (limit : nat) : M (list Event) :=
  query (fun db =>
    take limit
      (newest_first
         (filter (fun e => like ("%" +:+ loc +:+ "%") (location e) = true) (events db)))).

(** [Storage.get_events_by_time_range] *)
Definition get_events_by_time_range (start stop : datetime) : M (list Event) :=
  query (fun db =>
    newest_first
      (filter (fun e => (start ≤ timestamp e)%Z ∧ (timestamp e ≤ stop)%Z) (events db))).

Definition historical_row (a : Assessment) : HistoricalRow :=
  {| row_assessment_id := assessment_id a;
     row_target := target a;
     row_overall_score := overall_score a;
     row_sub_scores := sub_scores a;
     row_generated_at := generated_at a |}.

(** [Storage.save_assessment]: [INSERT OR REPLACE] into [assessments],
    whose key is [assessment_id], then [INSERT] into
    [historical_assessments]. *)
Definition save_assessment (a : Assessment) : M unit :=
  execute (fun db =>
    {| events := events db;
       assessments :=
         filter (fun b => assessment_id b ≠ assessment_id a) (assessments db) ++ [a];
       historical_assessments := historical_assessments db ++ [historical_row a] |}).

Definition assessment_of_row (row : HistoricalRow) : Assessment :=
  {| assessment_id := row_assessment_id row;
     target := row_target row;
     overall_score := row_overall_score row;
     sub_scores := row_sub_scores row;
     delta_7d := 0%Q;
     delta_30d := 0%Q;
     delta_90d := 0%Q;
     drivers := [];
     assessment_confidence := 5 # 10;
     generated_at := row_generated_at row |}.

(** [Storage.get_historical_assessments]; [now] is what
    [datetime.utcnow()] returns. *)
Definition get_historical_assessments (now : datetime) (tgt : string) (ndays : Z) :
    M (list Assessment) :=
  let cutoff_date := (now - days ndays)%Z in
  query (fun db =>
    map assessment_of_row
      (sorted row_generated_at
         (filter (fun row => row_target row = tgt ∧ (cutoff_date ≤ row_generated_at row)%Z)
                 (historical_assessments db)))).

(** [Storage.save_event]: [INSERT OR REPLACE] into [events], whose key
    is [event_id]. *)
Definition save_event (event : Event) : M unit :=
  execute (fun db =>
    {| events := filter (fun e => event_id e ≠ event_id event) (events db) ++ [event];
       assessments := assessments db;
       historical_assessments := historical_assessments db |}).

(** [Storage.get_event]: the first row with the identifier, if any. *)
Definition get_event (id : string) : M (option Event) :=
  query (fun db => head (filter (fun e => event_id e = id) (events db))).

(** [Storage.get_assessment]: [ORDER BY generated_at DESC LIMIT 1];
    rows with equal times keep their order. *)
Definition get_assessment (tgt : string) : M (option Assessment) :=
  query (fun db =>
    head (sorted (fun a => (- generated_at a)%Z)
            (filter (fun a => target a = tgt) (assessments db)))).

End Storage.

Notation "'let*' x ':=' m 'in' k" := (Storage.bind m (fun x => k))
  (at level 10, x name, m at level 100, k at level 200, only parsing).

(** ** src/normalization.py: story clustering *)

Module Normalization.

Import Py Models.

Section NormalizationPipeline.

(** [urlparse(url).netloc], or [None] where [urlparse] raises. *)
Variable urlparse_netloc : string -> option string.

Variable config : Config.t.

(** [s.published_at or s.retrieved_at] *)
Definition effective_time (s : RawSource) : datetime :=
  or_else (published_at s) (retrieved_at s).

(** [NormalizationPipeline._text_similarity] *)
Definition _text_similarity (text1 text2 : string) : float :=
  let words1 := set_of (split (lower text1)) in
  let words2 := set_of (split (lower text2)) in
  if bool_decide (words1 = ∅) || bool_decide (words2 = ∅) then 0%Q
  else
    let intersection := words1 ∩ words2 in
    let union := words1 ∪ words2 in
    if bool_decide (union = ∅) then 0%Q
    else (float_of_nat (size intersection) / float_of_nat (size union))%Q.

(** [NormalizationPipeline._same_domain]; the bare [except] turns an
    exception of [urlparse] into [False]. *)
Definition _same_domain (url1 url2 : string) : bool :=
  match urlparse_netloc url1, urlparse_netloc url2 with
  | Some domain1, Some domain2 => String.eqb domain1 domain2
  | _, _ => false
  end.

(** [NormalizationPipeline._are_similar] *)
Definition _are_similar (source1 source2 : RawSource) (time_window : timedelta) : bool :=
  let time1 := effective_time source1 in
  let time2 := effective_time source2 in
  if (time_window <? abs_diff time1 time2)%Z then false
  else
    let title_sim := _text_similarity (title source1) (title source2) in
    if Qgtb title_sim (Config.similarity_threshold (Config.deduplication config)) then true
    else
      let content_sim :=
        _text_similarity (take_prefix 500 (content source1))
                         (take_prefix 500 (content source2)) in
      if Qgtb content_sim (Config.similarity_threshold (Config.deduplication config)) then true
      else if _same_domain (url source1) (url source2) then
        if Qgtb content_sim (5 # 10) then true else false
      else false.

(** The inner loop of [cluster_sources]: the sources not yet processed
    and similar to [source] join its cluster. *)
Fixpoint find_similar (source : RawSource) (time_window : timedelta)
    (others : list RawSource) (cluster : list RawSource) (processed : gset string) :
    list RawSource * gset string :=
  match others with
  | [] => (cluster, processed)
  | other :: others' =>
      if bool_decide (source_id other ∈ processed) then
        find_similar source time_window others' cluster processed
      else if _are_similar source other time_window then
        find_similar source time_window others'
          (cluster ++ [other]) (processed ∪ {[source_id other]})
      else
        find_similar source time_window others' cluster processed
  end.

(** The outer loop of [cluster_sources] over [todo], the rest of
    [sorted_sources]. *)
Fixpoint cluster_loop (time_window : timedelta) (sorted_sources todo : list RawSource)
    (clusters : list (list RawSource)) (processed : gset string) :
    list (list RawSource) :=
  match todo with
  | [] => clusters
  | source :: todo' =>
      if bool_decide (source_id source ∈ processed) then
        cluster_loop time_window sorted_sources todo' clusters processed
      else
        let '(cluster, processed') :=
          find_similar source time_window sorted_sources
            [source] (processed ∪ {[source_id source]}) in
        cluster_loop time_window sorted_sources todo' (clusters ++ [cluster]) processed'
  end.

(** [NormalizationPipeline.cluster_sources] *)
Definition cluster_sources (sources : list RawSource) : list (list RawSource) :=
  let time_window := hours (Config.time_window_hours (Config.deduplication config)) in
  let sorted_sources := sorted effective_time sources in
  cluster_loop time_window sorted_sources sorted_sources [] ∅.

End NormalizationPipeline.

End Normalization.

(** ** src/event_extraction.py *)

Module EventExtraction.

Import Py Models.

(** What indexing an empty list raises. *)
Inductive exn := IndexError.

Section EventExtractor.

(** [hashlib.sha256(text.encode()).hexdigest()] *)
Variable sha256_hexdigest : string -> string.

(** [datetime.isoformat] *)
Variable isoformat : datetime -> string.

Variable config : Config.t.

(** The table of [_detect_event_type], in the order of its declaration,
    which is the order in which a dict is iterated. *)
Definition patterns : list (EventType.t * list string) :=
  [ (EventType.GOVERNMENT_CHANGE,
      ["government.*change"; "leadership.*transition"; "new.*prime minister";
       "president.*resign"; "coup"; "overthrow"]);
    (EventType.ELECTION,
      ["election"; "vote"; "ballot"; "referendum"; "polling"]);
    (EventType.SANCTIONS,
      ["sanction"; "embargo"; "trade ban"; "economic.*penalty"]);
    (EventType.ARMED_CONFLICT,
      ["armed conflict"; "war"; "battle"; "military.*attack";
       "airstrike"; "bombing"; "combat"]);
    (EventType.CEASEFIRE,
      ["ceasefire"; "truce"; "peace.*agreement"; "armistice"]);
    (EventType.TERRORIST_ATTACK,
      ["terrorist.*attack"; "bombing"; "assassination"; "insurgent"]);
    (EventType.CIVIL_UNREST,
      ["protest"; "demonstration"; "riot"; "civil.*unrest";
       "strike"; "uprising"]);
    (EventType.BORDER_INCIDENT,
      ["border.*incident"; "territorial.*dispute"; "border.*clash"]);
    (EventType.TRADE_RESTRICTION,
      ["trade.*restriction"; "tariff"; "import.*ban"; "export.*ban"]);
    (EventType.ECONOMIC_CRISIS,
      ["economic.*crisis"; "recession"; "inflation.*surge";
       "currency.*collapse"; "default"]);
    (EventType.INFRASTRUCTURE_DISRUPTION,
      ["infrastructure.*disruption"; "pipeline.*attack"; "port.*closure";
       "power.*outage"; "grid.*failure"]);
    (EventType.NATURAL_DISASTER,
      ["earthquake"; "flood"; "tsunami"; "natural.*disaster"]);
    (EventType.DIPLOMATIC_RUPTURE,
      ["diplomatic.*rupture"; "recall.*envoy"; "expel.*diplomat";
       "break.*relations"]);
    (EventType.MILITARY_MOBILIZATION,
      ["military.*mobilization"; "troop.*movement"; "military.*exercise";
       "deployment"]);
    (EventType.CYBER_INCIDENT,
      ["cyber.*attack"; "hack"; "data.*breach"; "cyber.*incident"]);
    (EventType.LEGAL_CHANGE,
      ["law.*change"; "regulation.*change"; "legal.*reform";
       "constitutional.*change"]);
    (EventType.STRATEGIC_INVESTMENT,
      ["strategic.*investment"; "nationalization"; "state.*takeover"]) ].

(** [f"{source.title} {source.content}"] *)
Definition combined_text (source : RawSource) : string :=
  title source +:+ " " +:+ content source.

(** The inner loop of [_detect_event_type]: does the loop over
    [type_patterns] return? *)
Fixpoint any_pattern (type_patterns : list string) (text : string) : bool :=
  match type_patterns with
  | [] => false
  | pattern :: rest => if re_search pattern text then true else any_pattern rest text
  end.

(** The outer loop of [_detect_event_type]. *)
Fixpoint first_type (table : list (EventType.t * list string)) (text : string) :
    option EventType.t :=
  match table with
  | [] => None
  | (event_type, type_patterns) :: rest =>
      if any_pattern type_patterns text then Some event_type else first_type rest text
  end.

(** [EventExtractor._detect_event_type] *)
Definition _detect_event_type (source : RawSource) : option EventType.t :=
  let text := lower (combined_text source) in
  first_type patterns text.

(** A loop [for country in countries: if country.lower() in text: return country]. *)
Fixpoint first_country (countries : list string) (text : string) : option string :=
  match countries with
  | [] => None
  | country :: rest =>
      if contains (lower country) text then Some country else first_country rest text
  end.

(** [EventExtractor._extract_location] *)
Definition _extract_location (source : RawSource) : option string :=
  let text := combined_text source in
  match first_country (Config.monitored_countries config) (lower text) with
  | Some country => Some country
  | None =>
      let title_lower := lower (title source) in
      first_country (Config.monitored_countries config) title_lower
  end.

(** [EventExtractor._build_summary] *)
Definition _build_summary (source : RawSource) (event_type : EventType.t) : string :=
  let summary := title source in
  let first_sentence := strip (before_dot (content source)) in
  let summary :=
    if truthy first_sentence then
      if negb (contains (lower first_sentence) (lower summary))
      then summary +:+ ". " +:+ first_sentence
      else summary
    else summary in
  take_prefix 500 summary.

Definition tier_weights : list (string * float) :=
  [("A", 9 # 10); ("B", 7 # 10); ("C", 5 # 10); ("D", 3 # 10)].

(** [EventExtractor._calculate_confidence] *)
Definition _calculate_confidence (sources : list RawSource) : float :=
  match sources with
  | [] => 0%Q
  | primary :: _ =>
      let primary_tier := tier primary in
      let base_confidence := dict_get tier_weights (SourceTier.value primary_tier) (5 # 10) in
      let unique_sources := size (set_of (map source_name sources)) in
      let base_confidence :=
        if (2 <=? unique_sources)%nat then Qmin 1 (base_confidence + (1 # 10)) else base_confidence in
      let base_confidence :=
        if (3 <=? unique_sources)%nat then Qmin 1 (base_confidence + (1 # 10)) else base_confidence in
      let base_confidence :=
        if forallb (fun s => String.eqb (SourceTier.value (tier s)) "D") sources
        then Qmin base_confidence (3 # 10) else base_confidence in
      base_confidence
  end.

Definition type_tags : list (string * list string) :=
  [ (EventType.value EventType.SANCTIONS, ["trade"; "economic"]);
    (EventType.value EventType.TRADE_RESTRICTION, ["trade"; "economic"]);
    (EventType.value EventType.ARMED_CONFLICT, ["security"; "infrastructure"]);
    (EventType.value EventType.INFRASTRUCTURE_DISRUPTION, ["infrastructure"; "economic"]);
    (EventType.value EventType.CYBER_INCIDENT, ["infrastructure"; "security"]) ].

(** [EventExtractor._extract_impact_tags]; the order in which the final
    set is listed is the one of [elements]. *)
Definition _extract_impact_tags (source : RawSource) (event_type : EventType.t) : list string :=
  let text := lower (content source) in
  let tags := dict_get type_tags (EventType.value event_type) [] in
  let tags :=
    if existsb (fun word => contains word text) ["trade"; "export"; "import"]
    then tags ++ ["trade"] else tags in
  let tags :=
    if existsb (fun word => contains word text) ["security"; "military"; "defense"]
    then tags ++ ["security"] else tags in
  let tags :=
    if existsb (fun word => contains word text) ["infrastructure"; "port"; "pipeline"]
    then tags ++ ["infrastructure"] else tags in
  elements (set_of tags).

(** [EventExtractor._generate_event_id] *)
Definition _generate_event_id (event_type : EventType.t) (loc : string)
    (ts : datetime) (sid : string) : string :=
  let combined :=
    EventType.value event_type +:+ "|" +:+ loc +:+ "|" +:+ isoformat ts +:+ "|" +:+ sid in
  take_prefix 16 (sha256_hexdigest combined).

(** [EventExtractor.extract_events]; [now] is the clock reading taken
    for [created_at] and [updated_at]. *)
Definition extract_events (now : datetime) (source_cluster : list RawSource) :
    exn + list Event :=
  match source_cluster with
  | [] => inl IndexError
  | primary_source :: _ =>
      match _detect_event_type primary_source with
      | None => inr []
      | Some event_type =>
          match _extract_location primary_source with
          | None => inr []
          | Some loc =>
              if negb (truthy loc) then inr []
              else
                let ts := or_else (published_at primary_source) (retrieved_at primary_source) in
                let summary := _build_summary primary_source event_type in
                let confidence := _calculate_confidence source_cluster in
                let citations :=
                  map to_citation
                    (take (Config.max_sources_per_cluster (Config.deduplication config))
                       source_cluster) in
                let event_id :=
                  _generate_event_id event_type loc ts (source_id primary_source) in
                let impact_tags := _extract_impact_tags primary_source event_type in
                let event :=
                  {| event_id := event_id;
                     event_type := event_type;
                     timestamp := ts;
                     location := loc;
                     summary := summary;
                     location_geo := None;
                     entities := [];
                     sources := citations;
                     confidence := confidence;
                     confidence_label := ConfidenceLevel.MEDIUM;
                     impact_tags := impact_tags;
                     evidence_links := map url source_cluster;
                     created_at := now;
                     updated_at := now |} in
                inr [update_confidence now event confidence]
          end
      end
  end.

End EventExtractor.

End EventExtraction.

(** ** src/scoring.py *)

Module Scoring.

Import Py Models.

(** The dict [{'7d': _, '30d': _, '90d': _}] of the delta functions. *)
Record Deltas := {
  d7 : float;
  d30 : float;
  d90 : float
}.

(** [a < b] on tuples [(impact_score, event_id)]. *)
Definition tuple_ltb (a b : float * string) : bool :=
  match fst a ?= fst b with
  | Lt => true
  | Gt => false
  | Eq => String.ltb (snd a) (snd b)
  end%Q.

(** [l.sort(reverse=True)]: descending, equal elements keep their order. *)
Fixpoint insert_desc (x : float * string) (l : list (float * string)) : list (float * string) :=
  match l with
  | [] => [x]
  | y :: l' => if tuple_ltb x y then y :: insert_desc x l' else x :: l
  end.

Fixpoint sort_reverse (l : list (float * string)) : list (float * string) :=
  match l with
  | [] => []
  | x :: l' => insert_desc x (sort_reverse l')
  end.

Section ScoringEngine.

(** [datetime.isoformat] *)
Variable isoformat : datetime -> string.

Variable config : Config.t.

(** [event_config.get('severity_base', 0.5)] for the configuration of
    the event's type. *)
Definition severity_of (event : Event) : float :=
  let event_config := Config.get_event_type_config config (EventType.value (event_type event)) in
  or_else (Config.severity_base event_config) (5 # 10).

(** [event_config.get('sub_score_weights', {}).get(dimension, 0.0)] *)
Definition dimension_weight_of (event : Event) (dimension : string) : float :=
  let event_config := Config.get_event_type_config config (EventType.value (event_type event)) in
  let sub_score_weights := or_else (Config.sub_score_weights event_config) [] in
  dict_get sub_score_weights dimension 0%Q.

(** The loop of [_calculate_dimension_impact], [total_impact] being the
    accumulator. *)
Fixpoint impact_loop (dimension : string) (events : list Event) (total_impact : float) : float :=
  match events with
  | [] => total_impact
  | event :: rest =>
      let severity := severity_of event in
      let dimension_weight := dimension_weight_of event dimension in
      if Qeq_bool dimension_weight 0 then impact_loop dimension rest total_impact
      else
        let impact := (severity * dimension_weight * confidence event * 20)%Q in
        impact_loop dimension rest (total_impact + impact)%Q
  end.

(** [ScoringEngine._calculate_dimension_impact] *)
Definition _calculate_dimension_impact (dimension : string) (events : list Event) : float :=
  impact_loop dimension events 0%Q.

(** The loop of [_calculate_overall_score] with its two accumulators. *)
Fixpoint overall_loop (sub_scores : list SubScore) (total total_weight : float) : float * float :=
  match sub_scores with
  | [] => (total, total_weight)
  | sub_score :: rest =>
      let weight := dict_get (Config.weights (Config.scoring config)) (name sub_score) 0%Q in
      overall_loop rest (total + value sub_score * weight)%Q (total_weight + weight)%Q
  end.

(** [ScoringEngine._calculate_overall_score] *)
Definition _calculate_overall_score (sub_scores : list SubScore) : float :=
  let '(total, total_weight) := overall_loop sub_scores 0%Q 0%Q in
  if Qeq_bool total_weight 0 then 70%Q else (total / total_weight)%Q.

(** The loop shared by [find_closest_score] and [find_closest_sub_score];
    [min_diff = None] is [float('inf')]. *)
Fixpoint closest_loop (target_date : datetime) (historical_assessments : list Assessment)
    (closest : option Assessment) (min_diff : option timedelta) : option Assessment :=
  match historical_assessments with
  | [] => closest
  | assessment :: rest =>
      let diff := abs_diff (generated_at assessment) target_date in
      let smaller :=
        match min_diff with
        | None => true
        | Some m => (diff <? m)%Z
        end in
      if smaller then closest_loop target_date rest (Some assessment) (Some diff)
      else closest_loop target_date rest closest min_diff
  end.

(** [find_closest_score] inside [_calculate_deltas] *)
Definition find_closest_score (historical_assessments : list Assessment)
    (current_score : float) (target_date : datetime) : float :=
  match closest_loop target_date historical_assessments None None with
  | Some closest => overall_score closest
  | None => current_score
  end.

(** [ScoringEngine._calculate_deltas] *)
Definition _calculate_deltas (now : datetime) (tgt : string) (current_score : float) :
    Storage.M Deltas :=
  let* historical_assessments := Storage.get_historical_assessments now tgt 90 in
  match historical_assessments with
  | [] => Storage.ret {| d7 := 0; d30 := 0; d90 := 0 |}
  | _ =>
      let date_7d := (now - days 7)%Z in
      let date_30d := (now - days 30)%Z in
      let date_90d := (now - days 90)%Z in
      let score_7d := find_closest_score historical_assessments current_score date_7d in
      let score_30d := find_closest_score historical_assessments current_score date_30d in
      let score_90d := find_closest_score historical_assessments current_score date_90d in
      Storage.ret {| d7 := current_score - score_7d;
                     d30 := current_score - score_30d;
                     d90 := current_score - score_90d |}
  end.

(** [find_closest_sub_score] inside [_calculate_sub_score_deltas] *)
Definition find_closest_sub_score (historical_assessments : list Assessment)
    (dimension : string) (current_value : float) (target_date : datetime) : float :=
  match closest_loop target_date historical_assessments None None with
  | Some closest =>
      match get_sub_score closest dimension with
      | Some sub_score => value sub_score
      | None => current_value
      end
  | None => current_value
  end.

(** [ScoringEngine._calculate_sub_score_deltas] *)
Definition _calculate_sub_score_deltas (now : datetime) (tgt dimension : string)
    (current_value : float) : Storage.M Deltas :=
  let* historical_assessments := Storage.get_historical_assessments now tgt 90 in
  match historical_assessments with
  | [] => Storage.ret {| d7 := 0; d30 := 0; d90 := 0 |}
  | _ =>
      let date_7d := (now - days 7)%Z in
      let date_30d := (now - days 30)%Z in
      let date_90d := (now - days 90)%Z in
      let value_7d := find_closest_sub_score historical_assessments dimension current_value date_7d in
      let value_30d := find_closest_sub_score historical_assessments dimension current_value date_30d in
      let value_90d := find_closest_sub_score historical_assessments dimension current_value date_90d in
      Storage.ret {| d7 := current_value - value_7d;
                     d30 := current_value - value_30d;
                     d90 := current_value - value_90d |}
  end.

(** [ScoringEngine._get_top_drivers] *)
Definition _get_top_drivers (events : list Event) (limit : nat) : list string :=
  let scored_events :=
    map (fun event => ((severity_of event * confidence event)%Q, event_id event)) events in
  map snd (take limit (sort_reverse scored_events)).

(** [ScoringEngine._get_dimension_drivers] *)
Definition _get_dimension_drivers (dimension : string) (events : list Event) (limit : nat) :
    list string :=
  let scored_events :=
    map (fun event =>
           ((severity_of event * dimension_weight_of event dimension * confidence event)%Q,
            event_id event))
        (filter (fun event => Qeq_bool (dimension_weight_of event dimension) 0 = false) events) in
  map snd (take limit (sort_reverse scored_events)).

(** [ScoringEngine._calculate_assessment_confidence] *)
Definition _calculate_assessment_confidence (events : list Event) : float :=
  match events with
  | [] => 3 # 10
  | _ =>
      let avg_confidence :=
        (fold_left Qplus (map confidence events) 0 / float_of_nat (length events))%Q in
      if (5 <=? length events)%nat then Qmin 1 (avg_confidence + (1 # 10)) else avg_confidence
  end.

(** The body of the loop of [_calculate_sub_scores] for one dimension. *)
Definition sub_score_for (now : datetime) (tgt : string) (events : list Event)
    (dimension : string) : Storage.M SubScore :=
  let baseline := 70%Q in
  let impact := _calculate_dimension_impact dimension events in
  let score_value := Qmax 0 (Qmin 100 (baseline - impact)) in
  let* deltas := _calculate_sub_score_deltas now tgt dimension score_value in
  let drivers := _get_dimension_drivers dimension events 3 in
  Storage.ret {| name := dimension;
                 value := score_value;
                 sub_delta_7d := d7 deltas;
                 sub_delta_30d := d30 deltas;
                 sub_delta_90d := d90 deltas;
                 sub_drivers := drivers |}.

(** [ScoringEngine._calculate_sub_scores] *)
Definition _calculate_sub_scores (now : datetime) (tgt : string) (events : list Event) :
    Storage.M (list SubScore) :=
  let sub_score_names := dict_keys (Config.weights (Config.scoring config)) in
  Storage.for_each (sub_score_for now tgt events) sub_score_names.

(** [ScoringEngine.calculate_assessment]; [now] is the reading of the
    clock during the call. *)
Definition calculate_assessment (now : datetime) (tgt : string)
    (events : option (list Event)) : Storage.M Assessment :=
  let* events :=
    match events with
    | None => Storage.get_events_by_location tgt 100
    | Some events => Storage.ret events
    end in
  let valid_events :=
    filter (fun e => Qle_bool (Config.min_confidence (Config.scoring config)) (confidence e) = true)
           events in
  let* sub_scores := _calculate_sub_scores now tgt valid_events in
  let overall_score := _calculate_overall_score sub_scores in
  let* deltas := _calculate_deltas now tgt overall_score in
  let drivers := _get_top_drivers valid_events 5 in
  let confidence := _calculate_assessment_confidence valid_events in
  Storage.ret {| assessment_id := "assess_" +:+ tgt +:+ "_" +:+ isoformat now;
                 target := tgt;
                 overall_score := overall_score;
                 sub_scores := sub_scores;
                 delta_7d := d7 deltas;
                 delta_30d := d30 deltas;
                 delta_90d := d90 deltas;
                 drivers := drivers;
                 assessment_confidence := confidence;
                 generated_at := now |}.

End ScoringEngine.

End Scoring.

(** ** src/correlation.py *)

Module Correlation.

Import Py Models.

(** [EventCorrelator._calculate_correlation] *)
Definition _calculate_correlation (event1 event2 : Event) : float :=
  let score := 0%Q in
  let score :=
    if String.eqb (lower (location event1)) (lower (location event2))
    then (score + (3 # 10))%Q else score in
  let score :=
    if bool_decide (event_type event1 = event_type event2)
    then (score + (3 # 10))%Q else score in
  let time_diff := abs_diff (timestamp event1) (timestamp event2) in
  let score :=
    if (time_diff <? seconds 86400)%Z then (score + (2 # 10))%Q
    else if (time_diff <? seconds 604800)%Z then (score + (1 # 10))%Q
    else score in
  let shared_entities := set_of (entities event1) ∩ set_of (entities event2) in
  let score :=
    if bool_decide (shared_entities ≠ ∅) then (score + (2 # 10))%Q else score in
  Qmin score 1.

(** The loop of [find_correlated_events] over [all_events]. *)
Fixpoint correlated_loop (event : Event) (all_events : list Event) (correlated : list Event) :
    list Event :=
  match all_events with
  | [] => correlated
  | other_event :: rest =>
      if String.eqb (event_id other_event) (event_id event) then
        correlated_loop event rest correlated
      else
        let correlation_score := _calculate_correlation event other_event in
        if Qgtb correlation_score (5 # 10)
        then correlated_loop event rest (correlated ++ [other_event])
        else correlated_loop event rest correlated
  end.

(** [EventCorrelator.find_correlated_events] *)
Definition find_correlated_events (event : Event) (time_window_days : Z) :
    Storage.M (list Event) :=
  let window_start := (timestamp event - days time_window_days)%Z in
  let window_end := (timestamp event + days time_window_days)%Z in
  let* all_events := Storage.get_events_by_time_range window_start window_end in
  Storage.ret (correlated_loop event all_events []).

(** An entry of the list returned by [detect_patterns]. *)
Record Pattern := {
  pattern_type : string;
  pattern_location : string;
  pattern_sequence : list string;
  timeframe_days : Z;
  pattern_events : list string
}.

(** The first loop of [detect_patterns]: [location_events], keyed by
    location in the order of first appearance. *)
Definition group_by_location (events : list Event) : list (string * list Event) :=
  fold_left (fun location_events event => dict_append location_events (location event) event)
            events [].

(** [timedelta.days]: whole days, rounded down. *)
Definition timedelta_days (d : timedelta) : Z := (d / days 1)%Z.

(** The loop over [range(len(sorted_events) - 1)]: the pairs of
    neighbours of [sorted_events]. *)
Fixpoint escalations (loc : string) (sorted_events : list Event) : list Pattern :=
  match sorted_events with
  | [] => []
  | event1 :: rest =>
      match rest with
      | [] => []
      | event2 :: _ =>
          let found :=
            if bool_decide (event_type event1 = EventType.CIVIL_UNREST)
               && bool_decide (event_type event2 = EventType.ARMED_CONFLICT)
            then
              let time_diff := timedelta_days (timestamp event2 - timestamp event1)%Z in
              if (time_diff <? 30)%Z then
                [ {| pattern_type := "escalation";
                     pattern_location := loc;
                     pattern_sequence := ["civil_unrest"; "armed_conflict"];
                     timeframe_days := time_diff;
                     pattern_events := [event_id event1; event_id event2] |} ]
              else []
            else [] in
          found ++ escalations loc rest
      end
  end.

(** [EventCorrelator.detect_patterns] *)
Definition detect_patterns (events : list Event) : list Pattern :=
  flat_map (fun '(loc, loc_events) => escalations loc (sorted timestamp loc_events))
           (group_by_location events).

End Correlation.

(** ** src/summarization.py *)

Module Summarization.

Import Py Models.

(** The exception of [_generate_what_to_watch]. *)
Inductive exn := TypeError.

Section SummarizationEngine.

(** [datetime.strftime('%Y-%m-%d')], [datetime.isoformat] and the
    float formats [:.1f] and [:+.1f]. *)
Variable strftime_date : datetime -> string.
Variable isoformat : datetime -> string.
Variable format_1f : float -> string.
Variable format_signed_1f : float -> string.

(** The body of the loop of [_generate_what_changed]. *)
Definition fact_of (event : Event) : string :=
  let fact := "On " +:+ strftime_date (timestamp event) +:+ ", " +:+ summary event in
  let fact :=
    if truthy (location event) then fact +:+ " (Location: " +:+ location event +:+ ")"
    else fact in
  let fact :=
    fact +:+ " [Confidence: " +:+ ConfidenceLevel.value (confidence_label event) +:+ "]" in
  let source_count := length (sources event) in
  fact +:+ " (Sources: " +:+ pretty source_count +:+ ")".

(** [SummarizationEngine._generate_what_changed] *)
Definition _generate_what_changed (events : list Event) (brief_type : string) : string :=
  match events with
  | [] => "No significant events reported in the recent period."
  | _ :: _ =>
      let sorted_events := sorted (fun e => (- timestamp e)%Z) events in
      let top_events :=
        take (if String.eqb brief_type "analyst" then 5 else 3)%nat sorted_events in
      let facts := map fact_of top_events in
      join ". " facts +:+ "."
  end.

(** The entry of [key_scores] for a sub-score; the character before the
    signed delta is the Greek capital delta. *)
Definition key_score_of (sub_score : SubScore) : string :=
  let trend_indicator :=
    if Qltb (sub_delta_7d sub_score) 0 then "declining" else "improving" in
  name sub_score +:+ " (" +:+ format_1f (value sub_score) +:+ ", " +:+ trend_indicator
    +:+ " Δ" +:+ format_signed_1f (sub_delta_7d sub_score) +:+ ")".

(** [SummarizationEngine._generate_why_it_matters]; [now] is the clock
    reading of the history lookup. *)
Definition _generate_why_it_matters (now : datetime) (assessment : Assessment)
    (events : list Event) (brief_type : string) : Storage.M string :=
  let* historical_assessments :=
    Storage.get_historical_assessments now (target assessment) 90 in
  let d7 := delta_7d assessment in
  let '(trend_desc, trend_strength) :=
    if Qltb d7 (-10) then ("declining", "significant")
    else if Qltb d7 (-5) then ("declining", "moderate")
    else if Qgtb d7 10 then ("improving", "significant")
    else if Qgtb d7 5 then ("improving", "moderate")
    else ("stable", "moderate") in
  let historical_context :=
    match historical_assessments with
    | oldest :: _ :: _ =>
        let oldest_score := overall_score oldest in
        if Qgtb (Qabs (overall_score assessment - oldest_score)) 10 then
          if Qltb (overall_score assessment) oldest_score then
            "Score has declined " +:+ format_1f (oldest_score - overall_score assessment)
              +:+ " points over the past 90 days. "
          else
            "Score has improved " +:+ format_1f (overall_score assessment - oldest_score)
              +:+ " points over the past 90 days. "
        else EmptyString
    | _ => EmptyString
    end in
  let key_scores :=
    map key_score_of
        (filter (fun s => Qgtb (Qabs (sub_delta_7d s)) 3 = true) (sub_scores assessment)) in
  let assessment_text :=
    "Overall stability score: " +:+ format_1f (overall_score assessment) +:+ "/100 " in
  let assessment_text :=
    assessment_text +:+ "(trend: " +:+ trend_strength +:+ " " +:+ trend_desc +:+ "). " in
  let assessment_text :=
    if truthy historical_context then assessment_text +:+ historical_context
    else assessment_text in
  let assessment_text :=
    match key_scores with
    | [] => assessment_text
    | _ :: _ =>
        assessment_text +:+ "Notable changes in: " +:+ join ", " (take 3 key_scores) +:+ ". "
    end in
  let high_impact_events :=
    filter (fun e => Qgtb (confidence e) (7 # 10) = true
                     ∧ EventType.value (event_type e)
                       ∈ ["armed_conflict"; "sanctions"; "government_change"])
           events in
  let assessment_text :=
    match high_impact_events with
    | [] => assessment_text
    | _ :: _ =>
        assessment_text +:+ "Recent high-impact events ("
          +:+ pretty (length high_impact_events) +:+ ") suggest ongoing volatility. "
    end in
  let assessment_text :=
    if Qltb (overall_score assessment) 50 then
      assessment_text
        +:+ "Current conditions suggest elevated risk levels requiring close monitoring. "
    else if Qgtb (overall_score assessment) 80 then
      assessment_text
        +:+ "Current conditions indicate relative stability, though continued monitoring is advised. "
    else assessment_text in
  Storage.ret assessment_text.

(** [SummarizationEngine._generate_what_to_watch]. The set of event
    types is sliced with [event_types[:3]] when it is not empty; a set
    cannot be sliced, so the slice raises [TypeError] and the text of
    the types is never built. *)
Definition _generate_what_to_watch (assessment : Assessment) (events : list Event)
    (brief_type : string) : exn + string :=
  let watch_items := [] in
  let watch_items :=
    match drivers assessment with
    | [] => watch_items
    | _ :: _ =>
        watch_items
          ++ ["Monitor developments related to recent events that are driving score changes."]
    end in
  let watch_items :=
    watch_items
      ++ map (fun sub_score =>
                "Watch for changes in " +:+ name sub_score +:+ " indicators (current: "
                  +:+ format_1f (value sub_score) +:+ "/100).")
             (filter (fun sub_score => Qltb (value sub_score) 60 = true)
                     (sub_scores assessment)) in
  let event_types := remove_dups (map event_type events) in
  if (0 <? length event_types)%nat then inl TypeError
  else
    let watch_items :=
      match watch_items with
      | [] => ["Continue standard monitoring protocols."]
      | _ :: _ => watch_items
      end in
    inr (join " " watch_items).

(** The inner loop of [_collect_citations], over the sources of one
    event; [citations_dict] is keyed by URL. *)
Fixpoint collect_sources (event_sources : list SourceCitation)
    (citations_dict : list (string * SourceCitation)) : list (string * SourceCitation) :=
  match event_sources with
  | [] => citations_dict
  | citation :: rest =>
      match dict_find citations_dict (cit_url citation) with
      | Some _ => collect_sources rest citations_dict
      | None => collect_sources rest (citations_dict ++ [(cit_url citation, citation)])
      end
  end.

(** The outer loop of [_collect_citations], over the events. *)
Fixpoint collect_events (events : list Event)
    (citations_dict : list (string * SourceCitation)) : list (string * SourceCitation) :=
  match events with
  | [] => citations_dict
  | event :: rest => collect_events rest (collect_sources (sources event) citations_dict)
  end.

(** [SummarizationEngine._collect_citations] *)
Definition _collect_citations (events : list Event) : list SourceCitation :=
  take 10 (map snd (collect_events events [])).

(** The label of a confidence in the markers. *)
Definition marker_of (c : float) : ConfidenceLevel.t :=
  if Qle_bool (7 # 10) c then ConfidenceLevel.HIGH
  else if Qle_bool (4 # 10) c then ConfidenceLevel.MEDIUM
  else ConfidenceLevel.LOW.

(** [SummarizationEngine._generate_confidence_markers] *)
Definition _generate_confidence_markers (events : list Event) (assessment : Assessment) :
    list (string * ConfidenceLevel.t) :=
  let markers := [("overall_assessment", marker_of (assessment_confidence assessment))] in
  match events with
  | [] => markers
  | _ :: _ =>
      let avg_event_confidence :=
        (fold_left Qplus (map confidence events) 0 / float_of_nat (length events))%Q in
      markers ++ [("events", marker_of avg_event_confidence)]
  end.

(** [SummarizationEngine._create_empty_brief] *)
Definition _create_empty_brief (now : datetime) (tgt : string) (brief_type : string) : Brief :=
  {| brief_id := "brief_" +:+ tgt +:+ "_" +:+ isoformat now;
     brief_target := tgt;
     what_changed := "No data available for this region at this time.";
     why_it_matters := "Insufficient data to assess current conditions.";
     what_to_watch := "Continue monitoring for new information.";
     brief_citations := [];
     confidence_markers := [("overall_assessment", ConfidenceLevel.LOW)];
     brief_generated_at := now;
     brief_type := brief_type |}.

(** [SummarizationEngine.generate_brief]; [now] is the reading of the
    clock during the call. *)
Definition generate_brief (now : datetime) (tgt : string) (brief_type : string) :
    Storage.M (exn + Brief) :=
  let* assessment := Storage.get_assessment tgt in
  match assessment with
  | None => Storage.ret (inr (_create_empty_brief now tgt brief_type))
  | Some assessment =>
      let* events := Storage.get_events_by_location tgt 10 in
      let what_changed := _generate_what_changed events brief_type in
      let* why_it_matters := _generate_why_it_matters now assessment events brief_type in
      match _generate_what_to_watch assessment events brief_type with
      | inl e => Storage.ret (inl e)
      | inr what_to_watch =>
          let citations := _collect_citations events in
          let confidence_markers := _generate_confidence_markers events assessment in
          Storage.ret (inr {| brief_id := "brief_" +:+ tgt +:+ "_" +:+ isoformat now;
                              brief_target := tgt;
                              what_changed := what_changed;
                              why_it_matters := why_it_matters;
                              what_to_watch := what_to_watch;
                              brief_citations := citations;
                              confidence_markers := confidence_markers;
                              brief_generated_at := now;
                              brief_type := brief_type |})
      end
  end.

End SummarizationEngine.

End Summarization.

(** ** src/pipeline.py: clustering, extraction and scoring steps *)

Module Pipeline.

Import Py Models.

Section IntelligencePipeline.

Variable isoformat : datetime -> string.

Variable config : Config.t.

(** The body of the loop of step 5 of [run_full_pipeline] for one
    monitored country. *)
Definition score_country (now : datetime) (all_events : list Event) (country : string) :
    Storage.M Assessment :=
  let country_events :=
    filter (fun e => contains (lower country) (lower (location e)) = true) all_events in
  let* assessment := Scoring.calculate_assessment isoformat config now country (Some country_events) in
  let* _ := Storage.save_assessment assessment in
  Storage.ret assessment.

(** [hashlib.sha256(..).hexdigest()] and [urlparse(url).netloc] *)
Variable sha256_hexdigest : string -> string.
Variable urlparse_netloc : string -> option string.

(** The loop of step 4 of [run_full_pipeline]: the events of each
    cluster are extracted and saved; [clock i] is the clock reading of
    the extraction of the [i]-th remaining cluster. An exception of
    [extract_events] ends the run. *)
Fixpoint extract_step (clock : nat -> datetime) (clusters : list (list RawSource))
    (all_events : list Event) : Storage.M (EventExtraction.exn + list Event) :=
  match clusters with
  | [] => Storage.ret (inr all_events)
  | cluster :: rest =>
      match EventExtraction.extract_events sha256_hexdigest isoformat config (clock 0%nat)
              cluster with
      | inl e => Storage.ret (inl e)
      | inr events =>
          let* _ := Storage.for_each Storage.save_event events in
          extract_step (fun i => clock (S i)) rest (all_events ++ events)
      end
  end.

(** Steps 3 and 4 of [run_full_pipeline], from the normalized sources. *)
Definition cluster_and_extract (clock : nat -> datetime) (normalized_sources : list RawSource) :
    Storage.M (EventExtraction.exn + list Event) :=
  let clusters := Normalization.cluster_sources urlparse_netloc config normalized_sources in
  extract_step clock clusters [].

(** The loop of step 5 of [run_full_pipeline]; [clock i] is the clock
    reading of the assessment of the [i]-th remaining country, and
    [assessments_created] the counter. *)
Fixpoint score_step (clock : nat -> datetime) (all_events : list Event)
    (countries : list string) (assessments_created : nat) : Storage.M nat :=
  match countries with
  | [] => Storage.ret assessments_created
  | country :: rest =>
      let* _ := score_country (clock 0%nat) all_events country in
      score_step (fun i => clock (S i)) all_events rest (assessments_created + 1)
  end.

(** [IntelligencePipeline.get_assessment] *)
Definition get_assessment (tgt : string) : Storage.M (option Assessment) :=
  Storage.get_assessment tgt.

(** [IntelligencePipeline.get_events] *)
Definition get_events (tgt : string) (limit : nat) : Storage.M (list Event) :=
  Storage.get_events_by_location tgt limit.

End IntelligencePipeline.

End Pipeline.

(** * The specification, in its own words

    The definitions of this part follow the prose of the specification;
    the theorems below compare them with the code above. *)

Module Spec.

Import Py Models.

(** ** Confidence calculus (4.3) *)

(** A→0.9, B→0.7, C→0.5, D→0.3. *)
Definition base_confidence (t : SourceTier.t) : Q :=
  match t with
  | SourceTier.A => 9 # 10
  | SourceTier.B => 7 # 10
  | SourceTier.C => 5 # 10
  | SourceTier.D => 3 # 10
  end.

(** The number of distinct source names present in a cluster. *)
Definition distinct_source_names (cluster : list RawSource) : nat :=
  length (remove_dups (map source_name cluster)).

(** Every item of the cluster is tier D. *)
Definition all_tier_D (cluster : list RawSource) : Prop :=
  Forall (fun s => tier s = SourceTier.D) cluster.

(** An addition capped at 1.0. *)
Definition plus_capped (c bonus : Q) : Q := Qmin 1 (c + bonus).

Definition cluster_confidence (anchor : RawSource) (rest : list RawSource) : Q :=
  let cluster := anchor :: rest in
  let n := distinct_source_names cluster in
  let c := base_confidence (tier anchor) in
  let c := if decide (2 ≤ n)%nat then plus_capped c (1 # 10) else c in
  let c := if decide (3 ≤ n)%nat then plus_capped c (1 # 10) else c in
  if decide (all_tier_D cluster) then Qmin c (3 # 10) else c.

(** ** Similarity clustering (4.1) *)

(** The word set of a text. *)
Definition word_set (text : string) : gset string := list_to_set (split (lower text)).

(** The Jaccard similarity of two sets: the size of the intersection
    over the size of the union, 0 for two empty sets. *)
Definition jaccard (a b : gset string) : Q :=
  if decide (a ∪ b = ∅) then 0%Q
  else (inject_Z (Z.of_nat (size (a ∩ b))) / inject_Z (Z.of_nat (size (a ∪ b))))%Q.

Definition title_similarity (x y : RawSource) : Q :=
  jaccard (word_set (title x)) (word_set (title y)).

(** The title word-set Jaccard similarity exceeds the configured threshold. *)
Definition title_similar (config : Config.t) (x y : RawSource) : Prop :=
  (Config.similarity_threshold (Config.deduplication config) < title_similarity x y)%Q.

(** The effective timestamps differ by less than the configured window. *)
Definition within_window (config : Config.t) (x y : RawSource) : Prop :=
  (Z.abs (Normalization.effective_time x - Normalization.effective_time y)
   < hours (Config.time_window_hours (Config.deduplication config)))%Z.

(** Both items are in the same output cluster. *)
Definition same_cluster (clusters : list (list RawSource)) (x y : RawSource) : Prop :=
  ∃ c, c ∈ clusters ∧ x ∈ c ∧ y ∈ c.

(** The clustering run judges the second item similar to the first. *)
Definition judged_similar (urlparse_netloc : string -> option string) (config : Config.t)
    (x y : RawSource) : Prop :=
  Normalization._are_similar urlparse_netloc config x y
    (hours (Config.time_window_hours (Config.deduplication config))) = true.

(** The identifiers of a list of items. *)
Definition ids (l : list RawSource) : gset string := list_to_set (map source_id l).

(** The items of the batch that an anchor admits: those not assigned
    and judged similar to it. *)
Definition admitted (similar : RawSource -> RawSource -> bool) (batch : list RawSource)
    (anchor : RawSource) (assigned : gset string) : list RawSource :=
  filter (fun o => (source_id o ∉ assigned) ∧ similar anchor o = true) batch.

(** The greedy pass: each cluster is an unassigned item of the batch,
    its anchor, followed by the items the anchor admits; its items are
    assigned from then on. *)
Fixpoint greedy_from (similar : RawSource -> RawSource -> bool) (batch : list RawSource)
    (assigned : gset string) (clusters : list (list RawSource)) : Prop :=
  match clusters with
  | [] => True
  | c :: clusters' =>
      (∃ anchor,
         anchor ∈ batch ∧ (source_id anchor ∉ assigned)
         ∧ c = anchor :: admitted similar batch anchor (assigned ∪ {[source_id anchor]}))
      ∧ greedy_from similar batch (assigned ∪ ids c) clusters'
  end.

(** ** Event classification (4.2) *)

(** Some pattern of the list matches the text. *)
Definition kind_matches (kind_patterns : list string) (text : string) : Prop :=
  ∃ pattern, pattern ∈ kind_patterns ∧ re_search pattern text = true.

(** [kind] is the first kind of the table, in the order of its
    declaration, one of whose patterns matches. *)
Definition first_matching_kind (table : list (EventType.t * list string)) (text : string)
    (kind : EventType.t) : Prop :=
  ∃ before kind_patterns after,
    table = before ++ (kind, kind_patterns) :: after
    ∧ kind_matches kind_patterns text
    ∧ ∀ entry, entry ∈ before → ¬ kind_matches entry.2 text.

(** No kind of the table has a matching pattern. *)
Definition no_kind_matches (table : list (EventType.t * list string)) (text : string) : Prop :=
  ∀ entry, entry ∈ table → ¬ kind_matches entry.2 text.

(** The monitored name occurs in the text, letters compared without case. *)
Definition name_occurs (country text : string) : Prop :=
  contains (lower country) (lower text) = true.

(** The first monitored name, in the order of the configuration, that
    occurs in the text. *)
Definition first_occurring (countries : list string) (text : string) : option string :=
  find (fun country => contains (lower country) (lower text)) countries.

(** The identifiers of the events of a result. *)
Definition event_ids (r : EventExtraction.exn + list Event) :
    EventExtraction.exn + list string :=
  match r with
  | inl e => inl e
  | inr events => inr (map event_id events)
  end.

(** ** Correlation (4.5) *)

Definition same_location_signal (e1 e2 : Event) : Q :=
  if decide (lower (location e1) = lower (location e2)) then 3 # 10 else 0.

Definition same_kind_signal (e1 e2 : Event) : Q :=
  if decide (event_type e1 = event_type e2) then 3 # 10 else 0.

Definition proximity_signal (e1 e2 : Event) : Q :=
  if decide (Z.abs (timestamp e1 - timestamp e2) < hours 24)%Z then 2 # 10
  else if decide (Z.abs (timestamp e1 - timestamp e2) < days 7)%Z then 1 # 10
  else 0.

Definition shared_entity_signal (e1 e2 : Event) : Q :=
  if decide (Exists (fun x => x ∈ entities e2) (entities e1)) then 2 # 10 else 0.

(** The sum of the four signals, capped at 1.0. *)
Definition correlation_score (e1 e2 : Event) : Q :=
  Qmin 1 (same_location_signal e1 e2 + same_kind_signal e1 e2
          + proximity_signal e1 e2 + shared_entity_signal e1 e2)%Q.

(** The candidate pool: the stored events within the given number of
    days of the reference event. *)
Definition candidate_pool (db : Storage.t) (event : Event) (ndays : Z) : list Event :=
  filter (fun o => (timestamp event - days ndays ≤ timestamp o)%Z
                   ∧ (timestamp o ≤ timestamp event + days ndays)%Z)
         (Storage.events db).

(** ** Scoring (4.4) *)

Definition Qsum (l : list Q) : Q := fold_right Qplus 0%Q l.

Definition clamp (lo hi x : Q) : Q := Qmax lo (Qmin hi x).

(** severity_base(kind): the configured base severity of an event kind,
    0.5 where none is configured. *)
Definition severity_base (config : Config.t) (kind : EventType.t) : Q :=
  match dict_find (Config.event_types config) (EventType.value kind) with
  | Some event_config => or_else (Config.severity_base event_config) (5 # 10)
  | None => 5 # 10
  end.

(** dimension_weight(kind, d): the configured weight of an event kind on
    a dimension, 0 where none is configured. *)
Definition dimension_weight (config : Config.t) (kind : EventType.t) (d : string) : Q :=
  match dict_find (Config.event_types config) (EventType.value kind) with
  | Some event_config =>
      match Config.sub_score_weights event_config with
      | Some w => or_else (dict_find w d) 0%Q
      | None => 0%Q
      end
  | None => 0%Q
  end.

(** Σ over the events of severity_base × dimension_weight × confidence × 20. *)
Definition dimension_impact (config : Config.t) (d : string) (events : list Event) : Q :=
  Qsum (map (fun e => (severity_base config (event_type e)
                       * dimension_weight config (event_type e) d
                       * confidence e * 20)%Q) events).

(** clamp(0, 100, 70 − impact). *)
Definition dimension_value (config : Config.t) (d : string) (events : list Event) : Q :=
  clamp 0 100 (70 - dimension_impact config d events)%Q.

(** The configured weight of a dimension. *)
Definition configured_weight (config : Config.t) (d : string) : Q :=
  or_else (dict_find (Config.weights (Config.scoring config)) d) 0%Q.

Definition weight_sum (config : Config.t) (sub_scores : list SubScore) : Q :=
  Qsum (map (fun s => configured_weight config (name s)) sub_scores).

(** Σ(value × weight) / Σ(weight), and 70 when the weight sum is zero. *)
Definition overall (config : Config.t) (sub_scores : list SubScore) : Q :=
  if Qeq_dec (weight_sum config sub_scores) 0 then 70%Q
  else (Qsum (map (fun s => value s * configured_weight config (name s)) sub_scores)
        / weight_sum config sub_scores)%Q.

(** The qualifying events of an assessment (step 1): those given, or
    else those stored for the target, whose confidence reaches the
    configured minimum. *)
Definition qualifying_events (config : Config.t) (db : Storage.t) (tgt : string)
    (events : option (list Event)) : list Event :=
  filter (fun e => Qle_bool (Config.min_confidence (Config.scoring config)) (confidence e) = true)
    match events with
    | None => (Storage.get_events_by_location tgt 100 db).1
    | Some events => events
    end.

(** ** Deltas against history (4.4, step 4) *)

(** The historical snapshot log of a target. *)
Definition snapshot_log (db : Storage.t) (tgt : string) : list Storage.HistoricalRow :=
  filter (fun row => Storage.row_target row = tgt) (Storage.historical_assessments db).

(** The snapshots of the log generated no earlier than 90 days before [now]. *)
Definition recent_log (db : Storage.t) (now : datetime) (tgt : string) :
    list Storage.HistoricalRow :=
  filter (fun row => (now - days 90 ≤ Storage.row_generated_at row)%Z) (snapshot_log db tgt).

(** The absolute distance of a snapshot's generation time to [t]. *)
Definition distance (t : datetime) (row : Storage.HistoricalRow) : Z :=
  Z.abs (Storage.row_generated_at row - t).

(** [row] is a snapshot of [log] whose generation time is closest to [t]. *)
Definition nearest (log : list Storage.HistoricalRow) (t : datetime)
    (row : Storage.HistoricalRow) : Prop :=
  row ∈ log ∧ ∀ row', row' ∈ log → (distance t row ≤ distance t row')%Z.

(** Among the closest snapshots, one generated earliest. *)
Definition earliest_nearest (log : list Storage.HistoricalRow) (t : datetime)
    (row : Storage.HistoricalRow) : Prop :=
  nearest log t row
  ∧ ∀ row', nearest log t row' →
      (Storage.row_generated_at row ≤ Storage.row_generated_at row')%Z.

(** The value a snapshot records for a dimension, if any. *)
Definition recorded_value (row : Storage.HistoricalRow) (d : string) : option Q :=
  value <$> find (fun s => bool_decide (name s = d)) (Storage.row_sub_scores row).

(** The three horizons, with the fields that hold their deltas. *)
Definition horizons : list (Z * (Assessment -> Q) * (SubScore -> Q)) :=
  [ (7%Z, delta_7d, sub_delta_7d);
    (30%Z, delta_30d, sub_delta_30d);
    (90%Z, delta_90d, sub_delta_90d) ].

(** The delta of an overall score against the closest snapshot of [log]. *)
Definition overall_delta_against (log : list Storage.HistoricalRow) (now : datetime) (h : Z)
    (current delta : Q) : Prop :=
  ∃ row, nearest log (now - days h)%Z row
         ∧ (delta == current - Storage.row_overall_score row)%Q.

End Spec.

(** * Concrete inputs

    A configuration in the shape of the repository's [config.yaml],
    stand-ins for the library functions, and the inputs at which the
    theorems are evaluated. *)

Module Examples.

Import Py Models.

(** A stand-in for [datetime.isoformat]: the microsecond count in decimal. *)
Definition isoformat (t : datetime) : string := pretty t.

(** A stand-in for [hashlib.sha256(..).hexdigest()]: the text itself. *)
Definition sha256_hexdigest (s : string) : string := s.

(** A stand-in for [urlparse(url).netloc]: the text between [//] and
    the next [/]. *)
Fixpoint until_slash (s : string) : string :=
  match s with
  | EmptyString => EmptyString
  | String c s' => if Ascii.eqb c "/" then EmptyString else String c (until_slash s')
  end.

Fixpoint urlparse_netloc_from (s : string) : string :=
  match s with
  | EmptyString => EmptyString
  | String c s' =>
      if startswith "//" s then
        match s' with
        | String _ rest => until_slash rest
        | EmptyString => EmptyString
        end
      else urlparse_netloc_from s'
  end.

Definition urlparse_netloc (s : string) : option string := Some (urlparse_netloc_from s).

Definition config : Config.t :=
  {| Config.scoring :=
       {| Config.weights := [("political", 3 # 10); ("security", 4 # 10); ("economic", 3 # 10)];
          Config.min_confidence := 4 # 10;
          Config.baseline_days := 90;
          Config.delta_periods := [7; 30; 90]%Z |};
     Config.deduplication :=
       {| Config.similarity_threshold := 5 # 10;
          Config.max_sources_per_cluster := 10;
          Config.time_window_hours := 24 |};
     Config.event_types :=
       [ ("armed_conflict",
           {| Config.severity_base := Some (9 # 10);
              Config.sub_score_weights := Some [("security", 1%Q); ("political", 3 # 10)] |});
         ("election",
           {| Config.severity_base := Some (4 # 10);
              Config.sub_score_weights := Some [("political", 8 # 10)] |}) ];
     Config.monitored_countries := ["Country A"; "Country B"] |}.

(** 2023-11-14T22:13:20, in microseconds. *)
Definition now : datetime := 1700000000000000%Z.

(** ** Two tier-B items from different sources *)

Definition source_b1 : RawSource :=
  {| source_id := "1";
     url := "https://example.com/news";
     title := "Test";
     content := "Test content";
     source_name := "Source1";
     tier := SourceTier.B;
     language := "en";
     published_at := Some now;
     retrieved_at := now;
     metadata := [] |}.

Definition source_b2 : RawSource :=
  {| source_id := "2";
     url := "https://other.com/news";
     title := "Test";
     content := "Test content";
     source_name := "Source2";
     tier := SourceTier.B;
     language := "en";
     published_at := Some now;
     retrieved_at := now;
     metadata := [] |}.

(** ** The batch of the repository's clustering test *)

Definition item (id u t c n : string) (at_time : datetime) : RawSource :=
  {| source_id := id;
     url := u;
     title := t;
     content := c;
     source_name := n;
     tier := SourceTier.B;
     language := "en";
     published_at := Some at_time;
     retrieved_at := at_time;
     metadata := [] |}.

Definition item1 : RawSource :=
  item "1" "https://example.com/news1" "Major event in Country A"
    "A significant event occurred in Country A today." "Test Source" now.

Definition item2 : RawSource :=
  item "2" "https://example.com/news2" "Major event in Country A"
    "A significant event occurred in Country A today." "Test Source"
    (now + seconds 600)%Z.

Definition item3 : RawSource :=
  item "3" "https://other.com/news" "Completely different story"
    "This is about something else entirely." "Other Source" now.

(** ** Three reports, each similar to the next only *)

Definition report_a : RawSource :=
  item "a" "https://one.example/a" "Protest erupts in capital city"
    "First report." "Source One" now.

Definition report_b : RawSource :=
  item "b" "https://two.example/b" "Protest erupts in capital square"
    "Second bulletin." "Source Two" (now + seconds 600)%Z.

Definition report_c : RawSource :=
  item "c" "https://three.example/c" "Violence erupts in capital square"
    "Third dispatch." "Source Three" (now + seconds 1200)%Z.

(** ** Two reports of an election, ten minutes apart *)

Definition election1 : RawSource :=
  item "e1" "https://example.com/election" "Election held in Country A"
    "Voters went to the polls on Sunday. Turnout was high." "Source1" now.

Definition election2 : RawSource :=
  item "e2" "https://other.com/election" "Election held in Country A"
    "Voters went to the polls on Sunday. Turnout was high." "Source2"
    (now + seconds 600)%Z.

(** The configuration with an empty name at the head of the monitored
    countries. *)
Definition config_blank_name : Config.t :=
  {| Config.scoring := Config.scoring config;
     Config.deduplication := Config.deduplication config;
     Config.event_types := Config.event_types config;
     Config.monitored_countries := EmptyString :: Config.monitored_countries config |}.

(** ** Two stored events of the same kind in the same country *)

Definition stored_event (id : string) (kind : EventType.t) (at_time : datetime)
    (ents : list string) : Event :=
  {| event_id := id;
     event_type := kind;
     timestamp := at_time;
     location := "Country A";
     summary := "Protest in the capital";
     location_geo := None;
     entities := ents;
     sources := [];
     confidence := 7 # 10;
     confidence_label := ConfidenceLevel.HIGH;
     impact_tags := [];
     evidence_links := [];
     created_at := at_time;
     updated_at := at_time |}.

Definition unrest1 : Event := stored_event "ev1" EventType.CIVIL_UNREST now ["ent1"].

Definition unrest2 : Event :=
  stored_event "ev2" EventType.CIVIL_UNREST (now + days 2)%Z [].

Definition db_events : Storage.t :=
  {| Storage.events := [unrest1; unrest2];
     Storage.assessments := [];
     Storage.historical_assessments := [] |}.

(** The third item of the clustering test, its title in capitals. *)
Definition item3_capitals : RawSource :=
  item "3" "https://other.com/news" "COMPLETELY DIFFERENT STORY"
    "This is about something else entirely." "Other Source" now.

(** ** The items of the repository's event-type test *)

Definition conflict_item : RawSource :=
  item "1" "https://example.com/news" "Military conflict escalates in Region X"
    "Armed forces engaged in battle today. Airstrikes reported." "Test" now.

Definition sanctions_item : RawSource :=
  item "2" "https://example.com/news2" "New sanctions imposed"
    "Economic sanctions were announced today." "Test" now.

(** ** The event of the repository's scoring test *)

Definition conflict_event (c : float) : Event :=
  {| event_id := "1";
     event_type := EventType.ARMED_CONFLICT;
     timestamp := now;
     location := "Test Country";
     summary := "Conflict event";
     location_geo := None;
     entities := [];
     sources := [];
     confidence := c;
     confidence_label := ConfidenceLevel.HIGH;
     impact_tags := [];
     evidence_links := [];
     created_at := now;
     updated_at := now |}.

(** ** The batch of the repository's time-window test *)

Definition far1 : RawSource :=
  item "1" "https://example.com/news1" "Same story" "Same content" "Test" now.

Definition far2 : RawSource :=
  item "2" "https://example.com/news2" "Same story" "Same content" "Test"
    (now + days 2)%Z.

(** An item whose body begins with the words of its title. *)
Definition far1_echo : RawSource :=
  item "4" "https://example.com/news4" "Same story, told again"
    "SAME STORY. And more of it." "Test" now.

(** An item with the identifier of [item1] and another title. *)
Definition item1_again : RawSource :=
  item "1" "https://example.com/news1b" "Unrelated headline"
    "Nothing in common." "Test Source" (now + seconds 60)%Z.

(** ** Two unverified posts *)

Definition rumour1 : RawSource :=
  {| source_id := "r1";
     url := "https://social.example/1";
     title := "Protest reported in Country B";
     content := "Crowds gather near the port. More to follow";
     source_name := "Poster One";
     tier := SourceTier.D;
     language := "en";
     published_at := None;
     retrieved_at := now;
     metadata := [] |}.

Definition rumour2 : RawSource :=
  {| source_id := "r2";
     url := "https://social.example/2";
     title := "Protest reported in Country B";
     content := "Crowds gather near the port. More to follow";
     source_name := "Poster Two";
     tier := SourceTier.D;
     language := "en";
     published_at := None;
     retrieved_at := (now + seconds 60)%Z;
     metadata := [] |}.

(** ** A log whose only snapshot is older than 90 days *)

Definition old_row : Storage.HistoricalRow :=
  {| Storage.row_assessment_id := "assess_Country A_old";
     Storage.row_target := "Country A";
     Storage.row_overall_score := 50;
     Storage.row_sub_scores := [];
     Storage.row_generated_at := (now - days 100)%Z |}.

Definition db_old : Storage.t :=
  {| Storage.events := [];
     Storage.assessments := [];
     Storage.historical_assessments := [old_row] |}.

(** ** A log with two recent snapshots *)

Definition db_recent : Storage.t :=
  {| Storage.events := [];
     Storage.assessments := [];
     Storage.historical_assessments :=
       [ {| Storage.row_assessment_id := "assess_Country A_1";
            Storage.row_target := "Country A";
            Storage.row_overall_score := 50;
            Storage.row_sub_scores := [];
            Storage.row_generated_at := (now - days 40)%Z |};
         {| Storage.row_assessment_id := "assess_Country A_2";
            Storage.row_target := "Country A";
            Storage.row_overall_score := 60;
            Storage.row_sub_scores := [];
            Storage.row_generated_at := (now - days 6)%Z |} ] |}.

(** ** An item whose body names a port and the military *)

Definition port_item : RawSource :=
  item "5" "https://example.com/news5" "Harbour closed in Country B"
    "The port was closed after a military exercise." "Test" now.

(** ** An armed conflict in Country A three days after the first protest *)

Definition conflict_after_unrest : Event :=
  stored_event "ev3" EventType.ARMED_CONFLICT (now + days 3)%Z [].

(** ** A database with one assessment of Country A, a day old *)

Definition baseline_assessment (id : string) (t : datetime) : Assessment :=
  {| assessment_id := id;
     target := "Country A";
     overall_score := 70;
     sub_scores := [];
     delta_7d := 0;
     delta_30d := 0;
     delta_90d := 0;
     drivers := [];
     assessment_confidence := 3 # 10;
     generated_at := t |}.

Definition db_assessed : Storage.t :=
  {| Storage.events := [];
     Storage.assessments := [baseline_assessment "assess_Country A_1" (now - days 1)%Z];
     Storage.historical_assessments := [] |}.

End Examples.

(** * Predicates of the further properties *)

Module Props.

Import Py Models.

(** A cluster with an anchor: it is not empty, each item after the
    first is judged similar to the first and is not earlier than it. *)
Definition anchored (judged : RawSource -> RawSource -> Prop) (c : list RawSource) : Prop :=
  match c with
  | [] => False
  | a :: members =>
      Forall (fun m => judged a m
                       ∧ (Normalization.effective_time a ≤ Normalization.effective_time m)%Z)
             members
  end.

(** The four impact tags. *)
Definition impact_tag_names : list string :=
  ["trade"; "economic"; "security"; "infrastructure"].

(** [ranked] lists events by non-increasing [score]. *)
Definition ranked_by (score : Event -> Q) (ranked : list Event) : Prop :=
  StronglySorted (fun e1 e2 => (score e2 <= score e1)%Q) ranked.

(** The severity, the weight on [d] and the confidence of [e] are not
    negative. *)
Definition nonnegative_impact (config : Config.t) (d : string) (e : Event) : Prop :=
  (0 <= Scoring.severity_of config e)%Q
  ∧ (0 <= Scoring.dimension_weight_of config e d)%Q
  ∧ (0 <= confidence e)%Q.


(** [d] groups the events [seen] by location: its keys are distinct,
    each entry holds the events of its location in their order, and
    every location of an event is a key. *)
Definition groups_of (seen : list Event) (d : list (string * list Event)) : Prop :=
  NoDup (map fst d)
  ∧ Forall (fun entry => entry.2 = filter (fun e => location e = entry.1) seen) d
  ∧ ∀ e, e ∈ seen → location e ∈ map fst d.


(** [k] is the first citation of [cited] with its URL. *)
Definition first_with_url (cited : list SourceCitation) (k : SourceCitation) : Prop :=
  ∃ before after,
    cited = before ++ k :: after ∧ ∀ b, b ∈ before → cit_url b ≠ cit_url k.

(** [d] is the dict built by [_collect_citations] from the citations
    [seen]: keyed by the URL of its values, which are, in their order,
    the first citations of [seen] with each URL. *)
Definition collected_from (seen : list SourceCitation) (d : list (string * SourceCitation)) :
    Prop :=
  map fst d = map cit_url (map snd d)
  ∧ NoDup (map fst d)
  ∧ sublist (map snd d) seen
  ∧ (∀ k, k ∈ map snd d → first_with_url seen k)
  ∧ (∀ c, c ∈ seen → cit_url c ∈ map fst d).

(** The first items of the clusters. *)
Definition anchors (clusters : list (list RawSource)) : list RawSource :=
  omap head clusters.

(** The confidence as a function of the anchor's tier, the number of
    distinct names and whether every item is tier D. *)
Definition confidence_of (t : SourceTier.t) (n : nat) (all_D : bool) : Q :=
  let c := Spec.base_confidence t in
  let c := if decide (2 ≤ n)%nat then Spec.plus_capped c (1 # 10) else c in
  let c := if decide (3 ≤ n)%nat then Spec.plus_capped c (1 # 10) else c in
  if all_D then Qmin c (3 # 10) else c.

End Props.

(** * Theorems *)

Import Py Models.

#[local] Set Warnings "-clear-no-such-hyp".

(** ** Python built-ins *)

Section Sorted.

Context {T : Type} (key : T → Z).

Lemma insert_by_perm (x : T) (l : list T) : insert_by key x l ≡ₚ x :: l.
Proof.
  induction l as [|y l IH]; [done|]. simpl.
  destruct (key x <=? key y)%Z; [done|].
  rewrite IH. apply Permutation_swap.
Qed.

(** [sorted] rearranges its argument. *)
Lemma sorted_perm (l : list T) : sorted key l ≡ₚ l.
Proof.
  induction l as [|x l IH]; [done|]. simpl.
  rewrite insert_by_perm. by rewrite IH.
Qed.

Lemma elem_of_sorted (x : T) (l : list T) : x ∈ sorted key l ↔ x ∈ l.
Proof. by rewrite sorted_perm. Qed.

Lemma insert_by_sorted (x : T) (l : list T) :
  StronglySorted (key_le key) l → StronglySorted (key_le key) (insert_by key x l).
Proof.
  induction 1 as [|y l Hl IH Hy]; simpl.
  - repeat constructor.
  - destruct (Z.leb_spec (key x) (key y)) as [Hxy|Hxy].
    + constructor; [by constructor|].
      constructor; [done|].
      eapply Forall_impl; [exact Hy|]. unfold key_le. intros; lia.
    + constructor; [done|].
      rewrite insert_by_perm. constructor; [unfold key_le; lia | done].
Qed.

(** [sorted] is ascending in the key. *)
Lemma sorted_sorted (l : list T) : StronglySorted (key_le key) (sorted key l).
Proof.
  induction l as [|x l IH]; simpl; [constructor|]. by apply insert_by_sorted.
Qed.

Lemma sorted_nil_inv (l : list T) : sorted key l = [] → l = [].
Proof. intros H. apply Permutation_nil_r. rewrite <- H. by rewrite sorted_perm. Qed.

End Sorted.

(** ** Confidence calculus *)

Section Confidence.

Local Open Scope Q_scope.

Lemma size_set_of (l : list string) : size (set_of l) = length (remove_dups l).
Proof.
  unfold set_of.
  rewrite <- (size_list_to_set (C := gset string) (remove_dups l)) by apply NoDup_remove_dups.
  f_equal. apply set_eq. intros x.
  rewrite !elem_of_list_to_set. symmetry. apply elem_of_remove_dups.
Qed.

Lemma tier_weights_base (t : SourceTier.t) :
  dict_get EventExtraction.tier_weights (SourceTier.value t) (5 # 10) = Spec.base_confidence t.
Proof. by destruct t. Qed.

Lemma forallb_tier_D (cluster : list RawSource) :
  forallb (fun s => String.eqb (SourceTier.value (tier s)) "D") cluster = true
  ↔ Spec.all_tier_D cluster.
Proof.
  unfold Spec.all_tier_D. rewrite forallb_forall, Forall_forall.
  split; intros H s Hs.
  - apply list_elem_of_In in Hs. specialize (H s Hs). by destruct (tier s).
  - apply list_elem_of_In in Hs. rewrite (H s Hs). done.
Qed.

Lemma calculate_confidence_spec (anchor : RawSource) (rest : list RawSource) :
  EventExtraction._calculate_confidence (anchor :: rest) = Spec.cluster_confidence anchor rest.
Proof.
  unfold EventExtraction._calculate_confidence, Spec.cluster_confidence, Spec.distinct_source_names,
    Spec.plus_capped.
  rewrite size_set_of, tier_weights_base.
  set (n := length _).
  destruct (forallb _ (anchor :: rest)) eqn:HD.
  - apply forallb_tier_D in HD.
    destruct (decide (Spec.all_tier_D _)) as [_|[]]; [|done].
    destruct (decide (2 ≤ n)%nat), (decide (3 ≤ n)%nat);
      repeat match goal with
      | |- context [(?a <=? ?b)%nat] => destruct (Nat.leb_spec a b); try lia
      end; done.
  - destruct (decide (Spec.all_tier_D _)) as [HA|_].
    { apply forallb_tier_D in HA. congruence. }
    destruct (decide (2 ≤ n)%nat), (decide (3 ≤ n)%nat);
      repeat match goal with
      | |- context [(?a <=? ?b)%nat] => destruct (Nat.leb_spec a b); try lia
      end; done.
Qed.

Lemma distinct_names_single (s : RawSource) : Spec.distinct_source_names [s] = 1%nat.
Proof. reflexivity. Qed.

Lemma distinct_names_pair (s s' : RawSource) :
  source_name s' ≠ source_name s → Spec.distinct_source_names [s; s'] = 2%nat.
Proof.
  intros Hne. unfold Spec.distinct_source_names. cbn [map remove_dups].
  destruct (decide_rel _ _ _) as [Hin|]; [|done].
  apply list_elem_of_singleton in Hin. congruence.
Qed.

(** C1. For a non-empty cluster the computed confidence is the base value
    of the anchor's tier, plus 0.1 (capped at 1.0) for at least two
    distinct source names and again for at least three, capped at 0.3
    when every item is tier D; a single tier-B item gives a value in
    [0.6, 0.8], and adding an item with another source name gives a
    strictly greater one. *)
Theorem C1_calculate_confidence :
  (∀ anchor rest,
     EventExtraction._calculate_confidence (anchor :: rest) == Spec.cluster_confidence anchor rest)
  ∧ (∀ s s', tier s = SourceTier.B → source_name s' ≠ source_name s →
       (6 # 10 <= EventExtraction._calculate_confidence [s]
        ∧ EventExtraction._calculate_confidence [s] <= 8 # 10)
       ∧ EventExtraction._calculate_confidence [s]
         < EventExtraction._calculate_confidence [s; s']).
Proof.
  split.
  - intros anchor rest. by rewrite calculate_confidence_spec.
  - intros s s' HB Hne.
    rewrite !calculate_confidence_spec. unfold Spec.cluster_confidence.
    rewrite distinct_names_single, (distinct_names_pair _ _ Hne), HB.
    assert (¬ Spec.all_tier_D [s]) as H1.
    { intros H. apply Forall_cons in H as [H _]. congruence. }
    assert (¬ Spec.all_tier_D [s; s']) as H2.
    { intros H. apply Forall_cons in H as [H _]. congruence. }
    rewrite !(decide_False (P := Spec.all_tier_D _)) by done.
    repeat split; vm_compute; congruence.
Qed.

End Confidence.

(** C1 at the two items of the repository's own test. *)
Lemma C1_witness :
  tier Examples.source_b1 = SourceTier.B
  ∧ source_name Examples.source_b2 ≠ source_name Examples.source_b1
  ∧ ((6 # 10 <= EventExtraction._calculate_confidence [Examples.source_b1]
      ∧ EventExtraction._calculate_confidence [Examples.source_b1] <= 8 # 10)
     ∧ EventExtraction._calculate_confidence [Examples.source_b1]
       < EventExtraction._calculate_confidence [Examples.source_b1; Examples.source_b2])%Q.
Proof.
  assert (tier Examples.source_b1 = SourceTier.B) as H1 by reflexivity.
  assert (source_name Examples.source_b2 ≠ source_name Examples.source_b1) as H2
    by (vm_compute; discriminate).
  split; [exact H1|]. split; [exact H2|].
  exact (proj2 C1_calculate_confidence Examples.source_b1 Examples.source_b2 H1 H2).
Defined.

Example confidence_values :
  (EventExtraction._calculate_confidence [Examples.source_b1] == 7 # 10
   ∧ EventExtraction._calculate_confidence [Examples.source_b1; Examples.source_b2] == 8 # 10)%Q.
Proof. vm_compute. done. Qed.

(** ** The database monad *)

Section StorageMonad.

Lemma read_only_ret {R} (r : R) : Storage.read_only (Storage.ret r).
Proof. done. Qed.

Lemma read_only_query {R} (q : Storage.t → R) : Storage.read_only (Storage.query q).
Proof. done. Qed.

Lemma read_only_bind {R S} (m : Storage.M R) (k : R → Storage.M S) :
  Storage.read_only m → (∀ r, Storage.read_only (k r)) → Storage.read_only (Storage.bind m k).
Proof.
  intros Hm Hk db. unfold Storage.bind.
  specialize (Hm db). destruct (m db) as [r db']. simpl in Hm. subst db'. apply Hk.
Qed.

Lemma bind_read_only {R S} (m : Storage.M R) (k : R → Storage.M S) db :
  Storage.read_only m → Storage.bind m k db = k (m db).1 db.
Proof.
  intros Hm. unfold Storage.bind. specialize (Hm db).
  destruct (m db) as [r db']. simpl in *. by subst.
Qed.

Lemma for_each_read_only {R S} (f : R → Storage.M S) (l : list R) :
  (∀ x, Storage.read_only (f x)) →
  ∀ db, Storage.for_each f l db = (map (fun x => (f x db).1) l, db).
Proof.
  intros Hf. induction l as [|x l IH]; intros db; [done|].
  cbn [Storage.for_each map].
  rewrite bind_read_only by done. cbv beta.
  rewrite bind_read_only.
  - rewrite IH. done.
  - intros db'. rewrite IH. done.
Qed.

End StorageMonad.


(** ** Scoring: dimension values and overall score *)

Section ScoringValues.

Local Open Scope Q_scope.

Variable isoformat : datetime → string.
Variable config : Config.t.

Lemma severity_of_spec (e : Event) :
  Scoring.severity_of config e = Spec.severity_base config (event_type e).
Proof.
  unfold Scoring.severity_of, Spec.severity_base, Config.get_event_type_config, dict_get.
  by destruct (dict_find _ _).
Qed.

Lemma dimension_weight_of_spec (e : Event) (d : string) :
  Scoring.dimension_weight_of config e d = Spec.dimension_weight config (event_type e) d.
Proof.
  unfold Scoring.dimension_weight_of, Spec.dimension_weight, Config.get_event_type_config, dict_get.
  destruct (dict_find (Config.event_types config) _) as [ec|]; simpl; [|reflexivity].
  destruct (Config.sub_score_weights ec); reflexivity.
Qed.

Lemma Qsum_cons (x : Q) (l : list Q) : Spec.Qsum (x :: l) = x + Spec.Qsum l.
Proof. reflexivity. Qed.

(** The accumulating loop adds the sum of the impacts; an event whose
    weight on the dimension is zero contributes a zero term. *)
Lemma impact_loop_sum (d : string) (events : list Event) (acc : Q) :
  Scoring.impact_loop config d events acc == acc + Spec.dimension_impact config d events.
Proof.
  revert acc. induction events as [|e events IH]; intros acc.
  - unfold Spec.dimension_impact. simpl. ring.
  - cbn [Scoring.impact_loop].
    unfold Spec.dimension_impact in *. cbn [map]. rewrite Qsum_cons.
    rewrite severity_of_spec, dimension_weight_of_spec.
    set (w := Spec.dimension_weight config (event_type e) d).
    set (c := confidence e). set (sv := Spec.severity_base config (event_type e)).
    destruct (Qeq_bool w 0) eqn:Hz.
    + apply Qeq_bool_eq in Hz. rewrite IH. rewrite Hz. ring.
    + rewrite IH. ring.
Qed.

Lemma calculate_dimension_impact_spec (d : string) (events : list Event) :
  Scoring._calculate_dimension_impact config d events == Spec.dimension_impact config d events.
Proof. unfold Scoring._calculate_dimension_impact. rewrite impact_loop_sum. ring. Qed.

Lemma read_only_sub_score_deltas now tgt d v :
  Storage.read_only (Scoring._calculate_sub_score_deltas now tgt d v).
Proof.
  unfold Scoring._calculate_sub_score_deltas.
  apply read_only_bind; [apply read_only_query|].
  intros [|a l]; apply read_only_ret.
Qed.

Lemma read_only_deltas now tgt v : Storage.read_only (Scoring._calculate_deltas now tgt v).
Proof.
  unfold Scoring._calculate_deltas.
  apply read_only_bind; [apply read_only_query|].
  intros [|a l]; apply read_only_ret.
Qed.

Lemma read_only_sub_score_for now tgt events d :
  Storage.read_only (Scoring.sub_score_for config now tgt events d).
Proof.
  unfold Scoring.sub_score_for.
  apply read_only_bind; [apply read_only_sub_score_deltas|].
  intros; apply read_only_ret.
Qed.

Lemma sub_score_for_name now tgt events d db :
  name (Scoring.sub_score_for config now tgt events d db).1 = d.
Proof.
  unfold Scoring.sub_score_for.
  rewrite bind_read_only by apply read_only_sub_score_deltas. done.
Qed.

Lemma sub_score_for_value now tgt events d db :
  value (Scoring.sub_score_for config now tgt events d db).1
  == Spec.dimension_value config d events.
Proof.
  unfold Scoring.sub_score_for.
  rewrite bind_read_only by apply read_only_sub_score_deltas.
  cbn [Storage.ret fst value]. unfold Spec.dimension_value, Spec.clamp.
  rewrite calculate_dimension_impact_spec. reflexivity.
Qed.

Lemma dict_get_configured_weight (d : string) :
  dict_get (Config.weights (Config.scoring config)) d 0 = Spec.configured_weight config d.
Proof. done. Qed.

Lemma overall_loop_sums (sub_scores : list SubScore) (t w : Q) :
  (Scoring.overall_loop config sub_scores t w).1
    == t + Spec.Qsum (map (fun s => value s * Spec.configured_weight config (name s)) sub_scores)
  ∧ (Scoring.overall_loop config sub_scores t w).2 == w + Spec.weight_sum config sub_scores.
Proof.
  revert t w. induction sub_scores as [|s l IH]; intros t w.
  - unfold Spec.weight_sum. simpl. split; ring.
  - cbn [Scoring.overall_loop]. rewrite dict_get_configured_weight.
    destruct (IH (t + value s * Spec.configured_weight config (name s))
                 (w + Spec.configured_weight config (name s))) as [-> ->].
    unfold Spec.weight_sum. cbn [map]. rewrite !Qsum_cons.
    set (v := value s). split; ring.
Qed.

Lemma calculate_overall_score_spec (sub_scores : list SubScore) :
  Scoring._calculate_overall_score config sub_scores == Spec.overall config sub_scores.
Proof.
  unfold Scoring._calculate_overall_score, Spec.overall.
  destruct (overall_loop_sums sub_scores 0 0) as [Ht Hw].
  destruct (Scoring.overall_loop config sub_scores 0 0) as [t w]. simpl in Ht, Hw.
  rewrite Qplus_0_l in Ht, Hw.
  destruct (Qeq_dec (Spec.weight_sum config sub_scores) 0) as [Hz|Hnz].
  - rewrite (proj2 (Qeq_bool_iff w 0)); [reflexivity|]. by rewrite Hw.
  - destruct (Qeq_bool w 0) eqn:Hb.
    + apply Qeq_bool_eq in Hb. rewrite Hw in Hb. contradiction.
    + rewrite Ht, Hw. reflexivity.
Qed.

End ScoringValues.


(** ** Scoring: deltas against the historical log *)

Section ClosestLoop.

Variable target_date : datetime.

Let dist (a : Assessment) : Z := abs_diff (generated_at a) target_date.

(** The loop keeps the first of the assessments at minimal distance. *)
Lemma closest_loop_invariant (l p q : list Assessment) (c : Assessment) :
  (∀ x, x ∈ p → (dist c < dist x)%Z) →
  (∀ x, x ∈ q → (dist c ≤ dist x)%Z) →
  ∃ p' c' q',
    p ++ c :: q ++ l = p' ++ c' :: q'
    ∧ Scoring.closest_loop target_date l (Some c) (Some (dist c)) = Some c'
    ∧ (∀ x, x ∈ p' → (dist c' < dist x)%Z)
    ∧ (∀ x, x ∈ q' → (dist c' ≤ dist x)%Z).
Proof.
  revert p q c. induction l as [|a l IH]; intros p q c Hp Hq.
  - exists p, c, q. by rewrite app_nil_r.
  - cbn [Scoring.closest_loop]. fold (dist a).
    destruct (Z.ltb_spec (dist a) (dist c)) as [Hlt|Hge].
    + destruct (IH (p ++ c :: q) [] a) as (p' & c' & q' & Heq & Hloop & Hp' & Hq').
      * intros x [Hx|[->|Hx]%elem_of_cons]%elem_of_app.
        -- specialize (Hp x Hx). lia.
        -- done.
        -- specialize (Hq x Hx). lia.
      * intros x Hx. by apply elem_of_nil in Hx.
      * exists p', c', q'. split; [|done].
        rewrite <- Heq. by rewrite <- !app_assoc.
    + destruct (IH p (q ++ [a]) c) as (p' & c' & q' & Heq & Hloop & Hp' & Hq').
      * done.
      * intros x [Hx|Hx%list_elem_of_singleton]%elem_of_app; [by apply Hq | by subst x].
      * exists p', c', q'. split; [|done].
        rewrite <- Heq. by rewrite <- !app_assoc.
Qed.

Lemma closest_loop_first_min (a : Assessment) (l : list Assessment) :
  ∃ p c q,
    a :: l = p ++ c :: q
    ∧ Scoring.closest_loop target_date (a :: l) None None = Some c
    ∧ (∀ x, x ∈ p → (dist c < dist x)%Z)
    ∧ (∀ x, x ∈ q → (dist c ≤ dist x)%Z).
Proof.
  destruct (closest_loop_invariant l [] [] a) as (p & c & q & Heq & Hloop & Hp & Hq).
  - intros x Hx. by apply elem_of_nil in Hx.
  - intros x Hx. by apply elem_of_nil in Hx.
  - exists p, c, q. done.
Qed.

End ClosestLoop.

Section Deltas.

Local Open Scope Q_scope.

Variable isoformat : datetime → string.
Variable config : Config.t.

(** The rows [get_historical_assessments] selects, in its order. *)
Lemma historical_rows (db : Storage.t) (now : datetime) (tgt : string) :
  ∃ rows,
    (Storage.get_historical_assessments now tgt 90 db).1 = map Storage.assessment_of_row rows
    ∧ (∀ row, row ∈ rows ↔ row ∈ Spec.recent_log db now tgt)
    ∧ StronglySorted (key_le Storage.row_generated_at) rows.
Proof.
  eexists. split; [reflexivity|]. split.
  - intros row. rewrite elem_of_sorted. unfold Spec.recent_log, Spec.snapshot_log.
    rewrite !list_elem_of_filter. tauto.
  - apply sorted_sorted.
Qed.

(** The assessment the loop selects is built from the earliest of the
    closest rows. *)
Lemma closest_row (rows : list Storage.HistoricalRow) (td : datetime) :
  rows ≠ [] →
  StronglySorted (key_le Storage.row_generated_at) rows →
  ∃ row,
    Scoring.closest_loop td (map Storage.assessment_of_row rows) None None
      = Some (Storage.assessment_of_row row)
    ∧ row ∈ rows
    ∧ (∀ row', row' ∈ rows → (Spec.distance td row ≤ Spec.distance td row')%Z)
    ∧ (∀ row', row' ∈ rows → Spec.distance td row' = Spec.distance td row →
         (Storage.row_generated_at row ≤ Storage.row_generated_at row')%Z).
Proof.
  intros Hne Hsorted. destruct rows as [|r0 rows]; [done|].
  destruct (closest_loop_first_min td (Storage.assessment_of_row r0)
              (map Storage.assessment_of_row rows))
    as (p & c & q & Heq & Hloop & Hp & Hq).
  change (map Storage.assessment_of_row (r0 :: rows) = p ++ c :: q) in Heq.
  apply map_eq_app in Heq as (p0 & rest & Hrows & Hp0 & Hrest).
  apply map_eq_cons in Hrest as (row & q0 & Hrest & Hc & Hq0).
  subst p c q rest. exists row. split; [exact Hloop|].
  assert (∀ x, x ∈ p0 → (Spec.distance td row < Spec.distance td x)%Z) as Hp'.
  { intros x Hx. apply (Hp (Storage.assessment_of_row x)).
    apply list_elem_of_In, in_map, list_elem_of_In, Hx. }
  assert (∀ x, x ∈ q0 → (Spec.distance td row ≤ Spec.distance td x)%Z) as Hq'.
  { intros x Hx. apply (Hq (Storage.assessment_of_row x)).
    apply list_elem_of_In, in_map, list_elem_of_In, Hx. }
  rewrite Hrows in *. split; [|split].
  - apply elem_of_app. right. apply elem_of_cons. by left.
  - intros row' [Hin|[->|Hin]%elem_of_cons]%elem_of_app.
    + specialize (Hp' _ Hin). lia.
    + done.
    + by apply Hq'.
  - intros row' [Hin|[->|Hin]%elem_of_cons]%elem_of_app Hd.
    + specialize (Hp' _ Hin). lia.
    + done.
    + apply StronglySorted_app_1_r in Hsorted.
      apply StronglySorted_inv in Hsorted as [_ Hall].
      rewrite Forall_forall in Hall. apply Hall, Hin.
Qed.

Lemma earliest_nearest_intro (rows log : list Storage.HistoricalRow) td row :
  (∀ r, r ∈ rows ↔ r ∈ log) →
  row ∈ rows →
  (∀ row', row' ∈ rows → (Spec.distance td row ≤ Spec.distance td row')%Z) →
  (∀ row', row' ∈ rows → Spec.distance td row' = Spec.distance td row →
     (Storage.row_generated_at row ≤ Storage.row_generated_at row')%Z) →
  Spec.earliest_nearest log td row.
Proof.
  intros Hmem Hin Hmin Hfirst. split; [split|].
  - by apply Hmem.
  - intros row' Hin'. by apply Hmin, Hmem.
  - intros row' [Hin' Hmin']. apply Hfirst; [by apply Hmem|].
    apply Hmem in Hin'. specialize (Hmin _ Hin').
    apply Hmem in Hin. specialize (Hmin' _ Hin). lia.
Qed.

Lemma get_sub_score_of_row (row : Storage.HistoricalRow) (d : string) :
  value <$> get_sub_score (Storage.assessment_of_row row) d = Spec.recorded_value row d.
Proof.
  unfold get_sub_score, Spec.recorded_value. cbn [sub_scores Storage.assessment_of_row].
  f_equal. induction (Storage.row_sub_scores row) as [|s l IH]; [done|]. simpl.
  rewrite IH. destruct (String.eqb_spec (name s) d) as [Heq|Hne].
  - by rewrite bool_decide_eq_true_2.
  - by rewrite bool_decide_eq_false_2.
Qed.

(** The assessments the delta functions search, and the one their loop
    selects for each target date. *)
Lemma closest_rows (db : Storage.t) (now : datetime) (tgt : string) :
  let historical := (Storage.get_historical_assessments now tgt 90 db).1 in
  match Spec.recent_log db now tgt with
  | [] => historical = []
  | log =>
      historical ≠ []
      ∧ ∀ td, ∃ row,
          Spec.earliest_nearest log td row
          ∧ Scoring.closest_loop td historical None None = Some (Storage.assessment_of_row row)
  end.
Proof.
  cbv zeta.
  destruct (historical_rows db now tgt) as (rows & -> & Hmem & Hsorted).
  destruct rows as [|r0 rows].
  - destruct (Spec.recent_log db now tgt) as [|r l] eqn:Hlog; [done|].
    exfalso. eapply elem_of_nil, Hmem. by left.
  - destruct (Spec.recent_log db now tgt) as [|r l] eqn:Hlog.
    { exfalso. eapply elem_of_nil, Hmem. by left. }
    split; [done|]. intros td.
    destruct (closest_row (r0 :: rows) td) as (row & Hloop & Hin & Hmin & Hfirst); [done..|].
    exists row. split; [by eapply earliest_nearest_intro | done].
Qed.

(** [_calculate_deltas], run on a database. *)
Lemma calculate_deltas_run (db : Storage.t) (now : datetime) (tgt : string) (cur : Q) :
  let historical := (Storage.get_historical_assessments now tgt 90 db).1 in
  (Scoring._calculate_deltas now tgt cur db).1 =
  match historical with
  | [] => {| Scoring.d7 := 0; Scoring.d30 := 0; Scoring.d90 := 0 |}
  | _ => {| Scoring.d7 := cur - Scoring.find_closest_score historical cur (now - days 7)%Z;
            Scoring.d30 := cur - Scoring.find_closest_score historical cur (now - days 30)%Z;
            Scoring.d90 := cur - Scoring.find_closest_score historical cur (now - days 90)%Z |}
  end.
Proof.
  cbv zeta. unfold Scoring._calculate_deltas.
  rewrite bind_read_only by apply read_only_query.
  by destruct (Storage.get_historical_assessments now tgt 90 db).1.
Qed.

(** [_calculate_sub_score_deltas], run on a database. *)
Lemma calculate_sub_score_deltas_run (db : Storage.t) (now : datetime) (tgt d : string)
    (cur : Q) :
  let historical := (Storage.get_historical_assessments now tgt 90 db).1 in
  (Scoring._calculate_sub_score_deltas now tgt d cur db).1 =
  match historical with
  | [] => {| Scoring.d7 := 0; Scoring.d30 := 0; Scoring.d90 := 0 |}
  | _ =>
      {| Scoring.d7 := cur - Scoring.find_closest_sub_score historical d cur (now - days 7)%Z;
         Scoring.d30 := cur - Scoring.find_closest_sub_score historical d cur (now - days 30)%Z;
         Scoring.d90 := cur - Scoring.find_closest_sub_score historical d cur (now - days 90)%Z |}
  end.
Proof.
  cbv zeta. unfold Scoring._calculate_sub_score_deltas.
  rewrite bind_read_only by apply read_only_query.
  by destruct (Storage.get_historical_assessments now tgt 90 db).1.
Qed.

Lemma find_closest_score_row historical cur td row :
  Scoring.closest_loop td historical None None = Some (Storage.assessment_of_row row) →
  Scoring.find_closest_score historical cur td = Storage.row_overall_score row.
Proof. unfold Scoring.find_closest_score. by intros ->. Qed.

Lemma find_closest_sub_score_row historical d cur td row :
  Scoring.closest_loop td historical None None = Some (Storage.assessment_of_row row) →
  Scoring.find_closest_sub_score historical d cur td
  = default cur (Spec.recorded_value row d).
Proof.
  unfold Scoring.find_closest_sub_score. intros ->.
  rewrite <- get_sub_score_of_row.
  by destruct (get_sub_score (Storage.assessment_of_row row) d).
Qed.

(** The deltas of the sub-score of one dimension. *)
Lemma sub_score_for_deltas now tgt events d db :
  let s := (Scoring.sub_score_for config now tgt events d db).1 in
  let ds := (Scoring._calculate_sub_score_deltas now tgt d (value s) db).1 in
  sub_delta_7d s = Scoring.d7 ds ∧ sub_delta_30d s = Scoring.d30 ds
  ∧ sub_delta_90d s = Scoring.d90 ds.
Proof.
  cbv zeta. unfold Scoring.sub_score_for.
  rewrite bind_read_only by apply read_only_sub_score_deltas. done.
Qed.

Lemma read_only_get_events loc limit : Storage.read_only (Storage.get_events_by_location loc limit).
Proof. apply read_only_query. Qed.

Lemma read_only_sub_scores now tgt events :
  Storage.read_only (Scoring._calculate_sub_scores config now tgt events).
Proof.
  intros db. unfold Scoring._calculate_sub_scores.
  by rewrite for_each_read_only by apply read_only_sub_score_for.
Qed.

(** The engine only reads the database. *)
Lemma read_only_calculate_assessment now tgt events :
  Storage.read_only (Scoring.calculate_assessment isoformat config now tgt events).
Proof.
  unfold Scoring.calculate_assessment.
  apply read_only_bind.
  { destruct events; [apply read_only_ret | apply read_only_get_events]. }
  intros evs. apply read_only_bind; [apply read_only_sub_scores|].
  intros subs. apply read_only_bind; [apply read_only_deltas|].
  intros ds. apply read_only_ret.
Qed.

(** The result of [calculate_assessment], field by field. *)
Lemma calculate_assessment_run now tgt events db :
  let valid_events := Spec.qualifying_events config db tgt events in
  let subs := (Scoring._calculate_sub_scores config now tgt valid_events db).1 in
  let overall := Scoring._calculate_overall_score config subs in
  let deltas := (Scoring._calculate_deltas now tgt overall db).1 in
  Scoring.calculate_assessment isoformat config now tgt events db =
  ({| assessment_id := "assess_" +:+ tgt +:+ "_" +:+ isoformat now;
      target := tgt;
      overall_score := overall;
      sub_scores := subs;
      delta_7d := Scoring.d7 deltas;
      delta_30d := Scoring.d30 deltas;
      delta_90d := Scoring.d90 deltas;
      drivers := Scoring._get_top_drivers config valid_events 5;
      assessment_confidence := Scoring._calculate_assessment_confidence valid_events;
      generated_at := now |}, db).
Proof.
  cbv zeta. unfold Scoring.calculate_assessment, Spec.qualifying_events.
  rewrite bind_read_only.
  2:{ destruct events; [apply read_only_ret | apply read_only_get_events]. }
  rewrite bind_read_only by apply read_only_sub_scores.
  rewrite bind_read_only by apply read_only_deltas.
  by destruct events.
Qed.

(** One sub-score per configured dimension. *)
Lemma calculate_sub_scores_run now tgt events db :
  (Scoring._calculate_sub_scores config now tgt events db).1
  = map (fun d => (Scoring.sub_score_for config now tgt events d db).1)
        (dict_keys (Config.weights (Config.scoring config))).
Proof.
  unfold Scoring._calculate_sub_scores.
  by rewrite for_each_read_only by apply read_only_sub_score_for.
Qed.

(** C3, as the code has it. The deltas of an assessment are taken
    against the snapshots of the target generated within the last 90
    days: when there is none, every delta is 0; otherwise, for each
    horizon h of 7, 30 and 90 days, there is a snapshot among them, at
    the smallest absolute distance to now − h days and the earliest of
    those, such that the overall delta is the current overall score
    minus the snapshot's, and the delta of each dimension is its current
    value minus the value the snapshot records for it (0 when it
    records none). *)
Theorem C3_deltas_against_recent_snapshots (db : Storage.t) (now : datetime) (tgt : string)
    (events : option (list Event)) :
  let a := (Scoring.calculate_assessment isoformat config now tgt events db).1 in
  match Spec.recent_log db now tgt with
  | [] =>
      Forall (fun '(h, overall_delta, sub_delta) =>
                overall_delta a = 0 ∧ Forall (fun s => sub_delta s = 0) (sub_scores a))
             Spec.horizons
  | log =>
      Forall (fun '(h, overall_delta, sub_delta) =>
                ∃ row,
                  Spec.earliest_nearest log (now - days h)%Z row
                  ∧ overall_delta a == overall_score a - Storage.row_overall_score row
                  ∧ Forall (fun s => sub_delta s
                                     == value s - default (value s)
                                                    (Spec.recorded_value row (name s)))
                           (sub_scores a))
             Spec.horizons
  end.
Proof.
  cbv zeta. rewrite calculate_assessment_run. cbn [fst].
  cbn [overall_score sub_scores delta_7d delta_30d delta_90d].
  rewrite calculate_deltas_run, calculate_sub_scores_run.
  pose proof (closest_rows db now tgt) as Hrows. cbv zeta in Hrows.
  destruct (Spec.recent_log db now tgt) as [|r l].
  - rewrite Hrows.
    repeat constructor; apply Forall_map, Forall_forall; intros d _;
      destruct (sub_score_for_deltas now tgt
                  (Spec.qualifying_events config db tgt events) d db) as (H7 & H30 & H90);
      rewrite ?H7, ?H30, ?H90, calculate_sub_score_deltas_run, Hrows; done.
  - destruct Hrows as [Hne Hrows].
    destruct (Storage.get_historical_assessments now tgt 90 db).1 as [|a0 hist] eqn:Hhist;
      [done|].
    repeat constructor;
      match goal with
      | |- context [(now - days ?h)%Z] =>
          destruct (Hrows (now - days h)%Z) as (row & Hnearest & Hloop)
      end;
      (exists row; split; [done|]; split;
       [ cbn [Scoring.d7 Scoring.d30 Scoring.d90];
         by rewrite (find_closest_score_row _ _ _ _ Hloop)
       | apply Forall_map, Forall_forall; intros d _;
         destruct (sub_score_for_deltas now tgt
                     (Spec.qualifying_events config db tgt events) d db) as (H7 & H30 & H90);
         rewrite ?H7, ?H30, ?H90, calculate_sub_score_deltas_run, Hhist;
         cbn [Scoring.d7 Scoring.d30 Scoring.d90];
         rewrite (find_closest_sub_score_row _ _ _ _ _ Hloop), sub_score_for_name;
         reflexivity ]).
Qed.

End Deltas.

(** ** Scoring: the values of an assessment *)

Section AssessmentValues.

Local Open Scope Q_scope.

Variable isoformat : datetime → string.
Variable config : Config.t.

Lemma sub_scores_values now tgt events db :
  let sub_scores := (Scoring._calculate_sub_scores config now tgt events db).1 in
  map name sub_scores = dict_keys (Config.weights (Config.scoring config))
  ∧ Forall (fun s => value s == Spec.dimension_value config (name s) events) sub_scores.
Proof.
  cbv zeta. rewrite calculate_sub_scores_run. split.
  - rewrite map_map. erewrite map_ext; [apply map_id|].
    intros d. apply sub_score_for_name.
  - apply Forall_map, Forall_forall. intros d _.
    rewrite sub_score_for_name. apply sub_score_for_value.
Qed.

(** C2. The sub-scores of an assessment are one per configured
    dimension, each with the value clamp(0, 100, 70 − Σ severity_base ×
    dimension_weight × confidence × 20) over the qualifying events, and
    its overall score is Σ(value × weight) / Σ(weight) over them, or 70
    when the weight sum is zero; so are the results of the functions
    that compute them, on every list of events and of sub-scores. *)
Theorem C2_dimension_value_and_overall_score :
  (∀ now tgt events db,
     let a := (Scoring.calculate_assessment isoformat config now tgt events db).1 in
     map name (sub_scores a) = dict_keys (Config.weights (Config.scoring config))
     ∧ Forall (fun s => value s
                        == Spec.dimension_value config (name s)
                             (Spec.qualifying_events config db tgt events))
              (sub_scores a)
     ∧ overall_score a == Spec.overall config (sub_scores a))
  ∧ (∀ d events,
       Scoring._calculate_dimension_impact config d events
       == Spec.dimension_impact config d events)
  ∧ (∀ now tgt events db,
       Forall (fun s => value s == Spec.dimension_value config (name s) events)
              (Scoring._calculate_sub_scores config now tgt events db).1)
  ∧ (∀ sub_scores,
       Scoring._calculate_overall_score config sub_scores == Spec.overall config sub_scores).
Proof.
  split; [|split; [|split]].
  - intros now tgt events db. cbv zeta.
    rewrite calculate_assessment_run. cbn [fst sub_scores overall_score].
    destruct (sub_scores_values now tgt (Spec.qualifying_events config db tgt events) db)
      as [Hnames Hvalues].
    split; [exact Hnames|]. split; [exact Hvalues|].
    apply calculate_overall_score_spec.
  - apply calculate_dimension_impact_spec.
  - intros now tgt events db. apply sub_scores_values.
  - apply calculate_overall_score_spec.
Qed.

End AssessmentValues.

(** The properties the specification lists for testing: an armed
    conflict of confidence 0.8 brings the security dimension to 55.6,
    below the baseline of 70, and an event below the minimum confidence
    leaves the overall score at 70. *)
Example armed_conflict_lowers_security :
  let a := (Scoring.calculate_assessment Examples.isoformat Examples.config Examples.now
              "Test Country" (Some [Examples.conflict_event (8 # 10)]) Storage.empty).1 in
  (∃ s, get_sub_score a "security" = Some s ∧ value s == 556 # 10 ∧ value s < 70)%Q
  ∧ (overall_score a < 70)%Q.
Proof. cbv zeta. split; [eexists; split; [reflexivity|]|]; by vm_compute. Qed.

Example low_confidence_event_is_filtered :
  let a := (Scoring.calculate_assessment Examples.isoformat Examples.config Examples.now
              "Test Country" (Some [Examples.conflict_event (3 # 10)]) Storage.empty).1 in
  (overall_score a == 70)%Q ∧ (assessment_confidence a == 3 # 10)%Q.
Proof. vm_compute. done. Qed.

(** C3, as stated, fails. The log of the target holds one snapshot,
    generated 100 days ago with overall score 50; it is the snapshot of
    the log closest to seven days ago, and the overall score now is 70,
    yet the 7-day delta is 0 and not 70 − 50. *)
Lemma C3_counterexample :
  Spec.snapshot_log Examples.db_old "Country A" = [Examples.old_row]
  ∧ ¬ Spec.overall_delta_against
        (Spec.snapshot_log Examples.db_old "Country A") Examples.now 7
        (overall_score
           (Scoring.calculate_assessment Examples.isoformat Examples.config
              Examples.now "Country A" (Some []) Examples.db_old).1)
        (delta_7d
           (Scoring.calculate_assessment Examples.isoformat Examples.config
              Examples.now "Country A" (Some []) Examples.db_old).1).
Proof.
  split; [reflexivity|].
  intros (row & [Hin _] & Hdelta).
  change (row ∈ [Examples.old_row]) in Hin.
  apply list_elem_of_singleton in Hin. subst row.
  vm_compute in Hdelta. discriminate Hdelta.
Qed.

(** The same input with two recent snapshots: the deltas are taken
    against the one six days old for 7 days and against the one forty
    days old for 30 and 90 days. *)
Example deltas_against_two_snapshots :
  let a := (Scoring.calculate_assessment Examples.isoformat Examples.config
              Examples.now "Country A" (Some []) Examples.db_recent).1 in
  (overall_score a == 70 ∧ delta_7d a == 10 ∧ delta_30d a == 20 ∧ delta_90d a == 20)%Q.
Proof. vm_compute. repeat split. Qed.

(** ** The historical log: who appends to it *)

Section HistoricalLog.

Variable isoformat : datetime → string.
Variable config : Config.t.

Lemma calculate_assessment_target now tgt events db :
  target (Scoring.calculate_assessment isoformat config now tgt events db).1 = tgt.
Proof. by rewrite calculate_assessment_run. Qed.

Lemma calculate_assessment_generated_at now tgt events db :
  generated_at (Scoring.calculate_assessment isoformat config now tgt events db).1 = now.
Proof. by rewrite calculate_assessment_run. Qed.

(** [save_assessment] appends one row to the log of the assessment's
    target and leaves the other logs as they are. *)
Lemma save_assessment_log (a : Assessment) (db : Storage.t) (tgt : string) :
  Spec.snapshot_log (Storage.save_assessment a db).2 tgt
  = Spec.snapshot_log db tgt ++ (if decide (target a = tgt) then [Storage.historical_row a] else []).
Proof.
  unfold Spec.snapshot_log, Storage.save_assessment, Storage.execute.
  cbn [snd Storage.historical_assessments]. rewrite filter_app. f_equal.
Qed.

(** The scoring step of the pipeline, run on a database. *)
Lemma score_country_run now all_events country db :
  let country_events :=
    filter (fun e => contains (lower country) (lower (location e)) = true) all_events in
  let a := (Scoring.calculate_assessment isoformat config now country
              (Some country_events) db).1 in
  Pipeline.score_country isoformat config now all_events country db
  = (a, (Storage.save_assessment a db).2).
Proof.
  cbv zeta. unfold Pipeline.score_country.
  rewrite bind_read_only by apply read_only_calculate_assessment.
  unfold Storage.bind, Storage.ret.
  by destruct (Storage.save_assessment _ db) as [[] db'].
Qed.

(** C4, as the code has it. The assessment calculation of the scoring
    engine leaves the database as it was; it is the scoring step of the
    pipeline, which saves the assessment it has calculated, that appends
    exactly one snapshot to the log of the target and none to the log
    of any other target, and a lookup of the target's history made
    while the snapshot is no more than 90 days old returns it. *)
Theorem C4_snapshot_appended_by_pipeline_step :
  (∀ now tgt events db,
     (Scoring.calculate_assessment isoformat config now tgt events db).2 = db)
  ∧ (∀ now all_events country db,
       let r := Pipeline.score_country isoformat config now all_events country db in
       Spec.snapshot_log r.2 country
         = Spec.snapshot_log db country ++ [Storage.historical_row r.1]
       ∧ (∀ other, other ≠ country →
            Spec.snapshot_log r.2 other = Spec.snapshot_log db other)
       ∧ (∀ now', (now' - days 90 ≤ now)%Z →
            Storage.assessment_of_row (Storage.historical_row r.1)
            ∈ (Storage.get_historical_assessments now' country 90 r.2).1)).
Proof.
  split; [intros; apply read_only_calculate_assessment|].
  intros now all_events country db. cbv zeta.
  rewrite score_country_run. cbn [fst snd].
  set (a := (Scoring.calculate_assessment _ _ _ _ _ _).1).
  assert (target a = country) as Htarget by apply calculate_assessment_target.
  assert (generated_at a = now) as Hnow by apply calculate_assessment_generated_at.
  split; [|split].
  - rewrite save_assessment_log. by rewrite decide_True.
  - intros other Hne. rewrite save_assessment_log.
    rewrite decide_False by congruence. apply app_nil_r.
  - intros now' Hrecent.
    unfold Storage.get_historical_assessments, Storage.query. cbn [fst].
    apply list_elem_of_In, in_map, list_elem_of_In.
    apply elem_of_sorted, list_elem_of_filter. split.
    + cbn [Storage.row_target Storage.row_generated_at Storage.historical_row].
      rewrite Htarget, Hnow. done.
    + unfold Storage.save_assessment, Storage.execute.
      cbn [snd Storage.historical_assessments].
      apply elem_of_app. right. by apply list_elem_of_singleton.
Qed.

End HistoricalLog.

(** C4 at a concrete input: the pipeline step for Country A on the
    empty database, the log of Country B, and a lookup one day later. *)
Lemma C4_witness :
  ("Country B" ≠ "Country A"
   ∧ Spec.snapshot_log
       (Pipeline.score_country Examples.isoformat Examples.config Examples.now []
          "Country A" Storage.empty).2 "Country B"
     = Spec.snapshot_log Storage.empty "Country B")
  ∧ (Examples.now + days 1 - days 90 ≤ Examples.now)%Z
  ∧ Storage.assessment_of_row
      (Storage.historical_row
         (Pipeline.score_country Examples.isoformat Examples.config Examples.now []
            "Country A" Storage.empty).1)
    ∈ (Storage.get_historical_assessments (Examples.now + days 1)%Z "Country A" 90
         (Pipeline.score_country Examples.isoformat Examples.config Examples.now []
            "Country A" Storage.empty).2).1.
Proof.
  assert ("Country B" ≠ "Country A") as H1 by (vm_compute; discriminate).
  assert (Examples.now + days 1 - days 90 ≤ Examples.now)%Z as H2 by (vm_compute; discriminate).
  split; [split; [exact H1|]|split; [exact H2|]].
  - exact (proj1 (proj2 (proj2 (C4_snapshot_appended_by_pipeline_step
                                  Examples.isoformat Examples.config)
                           Examples.now [] "Country A" Storage.empty))
             "Country B" H1).
  - exact (proj2 (proj2 (proj2 (C4_snapshot_appended_by_pipeline_step
                                  Examples.isoformat Examples.config)
                           Examples.now [] "Country A" Storage.empty))
             (Examples.now + days 1)%Z H2).
Defined.

(** C4, as stated, fails. After the assessment calculation of the
    scoring engine on the empty database the log of the target is still
    empty: it does not hold one more row than before. *)
Lemma C4_counterexample :
  (Scoring.calculate_assessment Examples.isoformat Examples.config Examples.now
     "Country A" (Some []) Storage.empty).2 = Storage.empty
  ∧ length (Spec.snapshot_log
              (Scoring.calculate_assessment Examples.isoformat Examples.config Examples.now
                 "Country A" (Some []) Storage.empty).2 "Country A")
    ≠ S (length (Spec.snapshot_log Storage.empty "Country A")).
Proof. split; [reflexivity | vm_compute; discriminate]. Qed.

(** ** Similarity clustering *)

Section Identifiers.

Lemma ids_nil : Spec.ids [] = ∅.
Proof. done. Qed.

Lemma ids_cons (x : RawSource) (l : list RawSource) :
  Spec.ids (x :: l) = {[source_id x]} ∪ Spec.ids l.
Proof. done. Qed.

Lemma ids_app (l1 l2 : list RawSource) : Spec.ids (l1 ++ l2) = Spec.ids l1 ∪ Spec.ids l2.
Proof.
  unfold Spec.ids. rewrite map_app. apply set_eq. intros i.
  rewrite elem_of_union, !elem_of_list_to_set, elem_of_app. done.
Qed.

Lemma elem_of_ids (i : string) (l : list RawSource) :
  i ∈ Spec.ids l ↔ ∃ x, x ∈ l ∧ source_id x = i.
Proof.
  unfold Spec.ids. rewrite elem_of_list_to_set, list_elem_of_In, in_map_iff.
  split; intros (x & H1 & H2); exists x; by rewrite ?list_elem_of_In in *.
Qed.

Lemma elem_of_ids_2 (x : RawSource) (l : list RawSource) : x ∈ l → source_id x ∈ Spec.ids l.
Proof. intros. apply elem_of_ids. by exists x. Qed.

(** In a batch with pairwise-distinct identifiers an item is known by
    its identifier. *)
Lemma same_id_same_item (batch : list RawSource) (x y : RawSource) :
  NoDup (map source_id batch) → x ∈ batch → y ∈ batch →
  source_id x = source_id y → x = y.
Proof.
  induction batch as [|z batch IH]; intros Hnd Hx Hy Heq.
  - by apply elem_of_nil in Hx.
  - cbn [map] in Hnd. apply NoDup_cons in Hnd as [Hz Hnd].
    assert (∀ u, u ∈ batch → source_id u ≠ source_id z) as Hfresh.
    { intros u Hu Hid. apply Hz. rewrite <- Hid.
      apply list_elem_of_In, in_map, list_elem_of_In, Hu. }
    apply elem_of_cons in Hx as [->|Hx]; apply elem_of_cons in Hy as [->|Hy].
    + done.
    + exfalso. by eapply Hfresh.
    + exfalso. by eapply Hfresh.
    + by apply IH.
Qed.

Lemma NoDup_of_ids (l : list RawSource) : NoDup (map source_id l) → NoDup l.
Proof. apply (NoDup_fmap_1 source_id). Qed.

End Identifiers.

Section FilterFacts.

Context {T : Type}.

Lemma filter_agree (P Q : T → Prop) `{∀ x, Decision (P x)} `{∀ x, Decision (Q x)}
    (l : list T) :
  (∀ x, x ∈ l → P x ↔ Q x) → filter P l = filter Q l.
Proof.
  induction l as [|x l IH]; intros Hagree; [done|].
  rewrite !filter_cons.
  rewrite IH by (intros y Hy; apply Hagree; by right).
  destruct (decide (P x)) as [HP|HP], (decide (Q x)) as [HQ|HQ]; try done.
  - exfalso. apply HQ, Hagree; [by left|done].
  - exfalso. apply HP, Hagree; [by left|done].
Qed.

End FilterFacts.

Section Clustering.

Variable urlparse_netloc : string → option string.
Variable config : Config.t.

Let time_window : timedelta := hours (Config.time_window_hours (Config.deduplication config)).

Let similar (a o : RawSource) : bool :=
  Normalization._are_similar urlparse_netloc config a o time_window.

(** The inner loop admits, in the order of the batch, the items that
    are not yet processed and are similar to the anchor. *)
Lemma find_similar_admitted (a : RawSource) (others cluster : list RawSource)
    (processed : gset string) :
  NoDup (map source_id others) →
  Normalization.find_similar urlparse_netloc config a time_window others cluster processed
  = (cluster ++ Spec.admitted similar others a processed,
     processed ∪ Spec.ids (Spec.admitted similar others a processed)).
Proof.
  revert cluster processed.
  induction others as [|o others IH]; intros cluster processed Hnd.
  - cbn [Normalization.find_similar]. unfold Spec.admitted.
    rewrite filter_nil, app_nil_r, ids_nil. f_equal. set_solver.
  - cbn [map] in Hnd. apply NoDup_cons in Hnd as [Ho Hnd].
    cbn [Normalization.find_similar]. unfold Spec.admitted in *.
    rewrite filter_cons.
    destruct (decide (source_id o ∈ processed)) as [Hin|Hnin].
    + rewrite bool_decide_eq_true_2 by done.
      rewrite decide_False by tauto. by apply IH.
    + rewrite bool_decide_eq_false_2 by done.
      fold (similar a o). destruct (similar a o) eqn:Hsim.
      * rewrite decide_True by done.
        rewrite IH by done.
        rewrite (filter_agree
                   (λ x, (source_id x ∉ processed ∪ {[source_id o]}) ∧ similar a x = true)
                   (λ x, (source_id x ∉ processed) ∧ similar a x = true)).
        -- rewrite <- app_assoc. f_equal. rewrite ids_cons. set_solver.
        -- intros x Hx.
           assert (source_id x ≠ source_id o) as Hne.
           { intros Heq. apply Ho. rewrite <- Heq.
             apply list_elem_of_In, in_map, list_elem_of_In, Hx. }
           set_solver.
      * rewrite decide_False by (intros [_ ?]; congruence). by apply IH.
Qed.

(** Appending clusters to a greedy pass. *)
Lemma greedy_from_app (batch : list RawSource) (assigned : gset string)
    (cs1 cs2 : list (list RawSource)) :
  Spec.greedy_from similar batch assigned (cs1 ++ cs2)
  ↔ Spec.greedy_from similar batch assigned cs1
    ∧ Spec.greedy_from similar batch (assigned ∪ Spec.ids (concat cs1)) cs2.
Proof.
  revert assigned. induction cs1 as [|c cs1 IH]; intros assigned.
  - cbn [app concat Spec.greedy_from]. rewrite ids_nil.
    replace (assigned ∪ ∅) with assigned by set_solver. tauto.
  - cbn [app concat Spec.greedy_from]. rewrite IH, ids_app.
    replace (assigned ∪ (Spec.ids c ∪ Spec.ids (concat cs1)))
      with (assigned ∪ Spec.ids c ∪ Spec.ids (concat cs1)) by set_solver.
    tauto.
Qed.

(** The outer loop extends a greedy pass into one that has assigned
    every item it went over. *)
Lemma cluster_loop_greedy (batch : list RawSource) :
  NoDup (map source_id batch) →
  ∀ (todo : list RawSource) (clusters : list (list RawSource)) (processed : gset string),
    processed = Spec.ids (concat clusters) →
    Spec.greedy_from similar batch ∅ clusters →
    (∀ x, x ∈ todo → x ∈ batch) →
    let final :=
      Normalization.cluster_loop urlparse_netloc config time_window batch todo
        clusters processed in
    Spec.greedy_from similar batch ∅ final
    ∧ (∀ x, x ∈ todo → source_id x ∈ Spec.ids (concat final))
    ∧ Spec.ids (concat clusters) ⊆ Spec.ids (concat final).
Proof.
  intros Hnd todo. induction todo as [|s todo IH]; intros clusters processed HP Hgreedy Hin.
  - cbn. split; [done|]. split; [|done]. intros x Hx. by apply elem_of_nil in Hx.
  - cbn [Normalization.cluster_loop].
    destruct (decide (source_id s ∈ processed)) as [Hs|Hs].
    + rewrite bool_decide_eq_true_2 by done.
      destruct (IH clusters processed HP Hgreedy) as (Hg & Hcov & Hsub).
      { intros x Hx. apply Hin. by right. }
      split; [done|]. split; [|done].
      intros x [->|Hx]%elem_of_cons; [|by apply Hcov].
      apply Hsub. by rewrite <- HP.
    + rewrite bool_decide_eq_false_2 by done.
      rewrite find_similar_admitted by done.
      set (c := [s] ++ Spec.admitted similar batch s (processed ∪ {[source_id s]})).
      assert (processed ∪ {[source_id s]}
              ∪ Spec.ids (Spec.admitted similar batch s (processed ∪ {[source_id s]}))
              = Spec.ids (concat (clusters ++ [c]))) as HP'.
      { rewrite concat_app, ids_app. cbn [concat]. rewrite app_nil_r.
        unfold c. rewrite ids_app, ids_cons, ids_nil, <- HP. set_solver. }
      rewrite HP'.
      destruct (IH (clusters ++ [c]) (Spec.ids (concat (clusters ++ [c]))) eq_refl)
        as (Hg & Hcov & Hsub).
      { apply greedy_from_app. split; [done|].
        cbn [Spec.greedy_from]. split; [|done].
        exists s. rewrite <- HP.
        replace (∅ ∪ processed) with processed by set_solver.
        split; [apply Hin; by left|]. split; [done|]. done. }
      { intros x Hx. apply Hin. by right. }
      split; [done|].
      assert (Spec.ids (concat clusters) ⊆ Spec.ids (concat (clusters ++ [c]))) as Hsub0.
      { rewrite concat_app, ids_app. set_solver. }
      split; [|set_solver].
      intros x [->|Hx]%elem_of_cons; [|by apply Hcov].
      apply Hsub. rewrite concat_app, ids_app. cbn [concat]. rewrite app_nil_r.
      unfold c. rewrite ids_app, ids_cons. set_solver.
Qed.

Lemma elem_of_map_source_id (i : string) (l : list RawSource) :
  i ∈ map source_id l ↔ ∃ x, x ∈ l ∧ source_id x = i.
Proof.
  rewrite list_elem_of_In, in_map_iff.
  split; intros (x & H1 & H2); exists x; by rewrite ?list_elem_of_In in *.
Qed.

Lemma elem_of_admitted (batch : list RawSource) (a o : RawSource) (assigned : gset string) :
  o ∈ Spec.admitted similar batch a assigned
  ↔ ((source_id o ∉ assigned) ∧ similar a o = true) ∧ o ∈ batch.
Proof.
  unfold Spec.admitted.
  apply (list_elem_of_filter (λ x, (source_id x ∉ assigned) ∧ similar a x = true)).
Qed.

(** The clusters of a greedy pass hold items of the batch, none of them
    assigned before, with pairwise-distinct identifiers. *)
Lemma greedy_from_items (batch : list RawSource) :
  NoDup (map source_id batch) →
  ∀ (cs : list (list RawSource)) (assigned : gset string),
    Spec.greedy_from similar batch assigned cs →
    NoDup (map source_id (concat cs))
    ∧ (∀ x, x ∈ concat cs → source_id x ∉ assigned)
    ∧ (∀ x, x ∈ concat cs → x ∈ batch).
Proof.
  intros Hnd cs. induction cs as [|c cs IH]; intros assigned Hgreedy.
  - cbn. split; [constructor|]. split; intros x Hx; by apply elem_of_nil in Hx.
  - destruct Hgreedy as [(a & Ha & Hfresh & Hc) Hrest].
    destruct (IH _ Hrest) as (Hnd' & Hfresh' & Hsub').
    cbn [concat]. split; [|split].
    + rewrite map_app. apply NoDup_app. split; [|split].
      * subst c. cbn [map]. apply NoDup_cons. split.
        -- intros (o & Ho & Hid)%elem_of_map_source_id.
           apply elem_of_admitted in Ho as [[Ho _] _]. set_solver.
        -- apply (NoDup_fmap_2_strong source_id).
           ++ intros x y [_ Hx]%elem_of_admitted [_ Hy]%elem_of_admitted.
              by apply (same_id_same_item batch).
           ++ apply NoDup_filter. by apply NoDup_of_ids.
      * intros i (x & Hx & <-)%elem_of_map_source_id (y & Hy & Hid)%elem_of_map_source_id.
        apply (Hfresh' y Hy). apply elem_of_union. right.
        rewrite Hid. by apply elem_of_ids_2.
      * done.
    + intros x [Hx|Hx]%elem_of_app.
      * subst c. apply elem_of_cons in Hx as [->|Hx]; [done|].
        apply elem_of_admitted in Hx as [[Hx _] _]. set_solver.
      * specialize (Hfresh' x Hx). set_solver.
    + intros x [Hx|Hx]%elem_of_app; [|by apply Hsub'].
      subst c. apply elem_of_cons in Hx as [->|Hx]; [done|].
      by apply elem_of_admitted in Hx as [_ Hx].
Qed.

Lemma greedy_from_nonempty (batch : list RawSource) (cs : list (list RawSource))
    (assigned : gset string) :
  Spec.greedy_from similar batch assigned cs → Forall (λ c, c ≠ []) cs.
Proof.
  revert assigned. induction cs as [|c cs IH]; intros assigned; [constructor|].
  intros [(a & _ & _ & ->) Hrest]. constructor; [done|]. by eapply IH.
Qed.

(** [cluster_sources] is a greedy pass over the sorted batch that
    assigns every item. *)
Lemma cluster_sources_greedy (sources : list RawSource) :
  NoDup (map source_id sources) →
  let batch := sorted Normalization.effective_time sources in
  let clusters := Normalization.cluster_sources urlparse_netloc config sources in
  NoDup (map source_id batch)
  ∧ Spec.greedy_from similar batch ∅ clusters
  ∧ (∀ x, x ∈ sources → source_id x ∈ Spec.ids (concat clusters)).
Proof.
  intros Hnd. cbv zeta.
  assert (NoDup (map source_id (sorted Normalization.effective_time sources))) as Hnd'.
  { by rewrite (Permutation_map source_id (sorted_perm Normalization.effective_time sources)). }
  split; [done|].
  unfold Normalization.cluster_sources.
  destruct (cluster_loop_greedy _ Hnd' (sorted Normalization.effective_time sources) [] ∅)
    as (Hg & Hcov & _); [done..|].
  split; [exact Hg|].
  intros x Hx. apply Hcov. by apply elem_of_sorted.
Qed.

End Clustering.

Section ClusteringProperties.

Variable urlparse_netloc : string → option string.
Variable config : Config.t.

Let time_window : timedelta := hours (Config.time_window_hours (Config.deduplication config)).

Let similar (a o : RawSource) : bool :=
  Normalization._are_similar urlparse_netloc config a o time_window.

(** The cluster found at a position of a greedy pass. *)
Lemma greedy_cluster_at (batch : list RawSource) (before after : list (list RawSource))
    (c : list RawSource) :
  Spec.greedy_from similar batch ∅ (before ++ c :: after) →
  Spec.greedy_from similar batch ∅ before
  ∧ ∃ a, a ∈ batch ∧ (source_id a ∉ Spec.ids (concat before))
         ∧ c = a :: Spec.admitted similar batch a (Spec.ids (concat before) ∪ {[source_id a]}).
Proof.
  intros [Hbefore Hrest]%greedy_from_app. split; [done|].
  replace (∅ ∪ Spec.ids (concat before)) with (Spec.ids (concat before)) in Hrest
    by set_solver.
  by destruct Hrest as [Hc _].
Qed.

Lemma elem_of_concat_clusters (x : RawSource) (clusters : list (list RawSource)) :
  x ∈ concat clusters ↔ ∃ c, c ∈ clusters ∧ x ∈ c.
Proof.
  rewrite list_elem_of_In, in_concat. split.
  - intros (c & Hc & Hx). exists c. by rewrite !list_elem_of_In.
  - intros (c & Hc & Hx). exists c. by rewrite <- !list_elem_of_In.
Qed.

(** An item whose identifier is assigned is in one of the clusters. *)
Lemma assigned_item_in_clusters (batch : list RawSource) (clusters : list (list RawSource))
    (x : RawSource) :
  NoDup (map source_id batch) →
  Spec.greedy_from similar batch ∅ clusters →
  x ∈ batch → source_id x ∈ Spec.ids (concat clusters) → x ∈ concat clusters.
Proof.
  intros Hnd Hgreedy Hx (z & Hz & Hid)%elem_of_ids.
  destruct (greedy_from_items urlparse_netloc config batch Hnd clusters ∅ Hgreedy)
    as (_ & _ & Hsub).
  by rewrite <- (same_id_same_item batch z x Hnd (Hsub z Hz) Hx Hid).
Qed.

Lemma text_similarity_sym (t1 t2 : string) :
  Normalization._text_similarity t1 t2 = Normalization._text_similarity t2 t1.
Proof.
  unfold Normalization._text_similarity.
  set (w1 := set_of (split (lower t1))). set (w2 := set_of (split (lower t2))).
  assert (w2 ∩ w1 = w1 ∩ w2) as -> by (apply set_eq; intros i; set_solver).
  assert (w2 ∪ w1 = w1 ∪ w2) as -> by (apply set_eq; intros i; set_solver).
  by rewrite orb_comm.
Qed.

(** The similarity judgement does not depend on the order of the two items. *)
Lemma are_similar_sym (x y : RawSource) (w : timedelta) :
  Normalization._are_similar urlparse_netloc config x y w
  = Normalization._are_similar urlparse_netloc config y x w.
Proof.
  unfold Normalization._are_similar, abs_diff.
  replace (Z.abs (Normalization.effective_time y - Normalization.effective_time x))
    with (Z.abs (Normalization.effective_time x - Normalization.effective_time y)) by lia.
  rewrite (text_similarity_sym (title y)).
  rewrite (text_similarity_sym (take_prefix 500 (content y))).
  replace (Normalization._same_domain urlparse_netloc (url y) (url x))
    with (Normalization._same_domain urlparse_netloc (url x) (url y)); [done|].
  unfold Normalization._same_domain.
  destruct (urlparse_netloc (url x)), (urlparse_netloc (url y)); try done.
  apply String.eqb_sym.
Qed.

Lemma Qgtb_lt (x y : Q) : Qgtb x y = true ↔ (y < x)%Q.
Proof.
  unfold Qgtb. rewrite negb_true_iff. split.
  - intros Hb. apply Qnot_le_lt. intros Hle. apply Qle_bool_iff in Hle. congruence.
  - intros Hlt. destruct (Qle_bool x y) eqn:Hb; [|done].
    apply Qle_bool_iff in Hb. exfalso. by apply (Qlt_not_le y x).
Qed.

(** The similarity of two texts is the Jaccard similarity of their word sets. *)
Lemma text_similarity_jaccard (t1 t2 : string) :
  (Normalization._text_similarity t1 t2 == Spec.jaccard (Spec.word_set t1) (Spec.word_set t2))%Q.
Proof.
  unfold Normalization._text_similarity, Spec.jaccard, Spec.word_set, set_of, float_of_nat.
  set (w1 := list_to_set (split (lower t1)) : gset string).
  set (w2 := list_to_set (split (lower t2)) : gset string).
  destruct (decide (w1 = ∅)) as [H1|H1]; [|destruct (decide (w2 = ∅)) as [H2|H2]].
  - rewrite bool_decide_eq_true_2 by done. cbn [orb].
    destruct (decide (w1 ∪ w2 = ∅)); [reflexivity|].
    assert (w1 ∩ w2 = ∅) as -> by (apply set_eq; intros i; set_solver).
    rewrite size_empty. unfold Qdiv. cbn [Z.of_nat]. ring.
  - rewrite (bool_decide_eq_true_2 (w2 = ∅)) by done. rewrite orb_true_r.
    destruct (decide (w1 ∪ w2 = ∅)); [reflexivity|].
    assert (w1 ∩ w2 = ∅) as -> by (apply set_eq; intros i; set_solver).
    rewrite size_empty. unfold Qdiv. cbn [Z.of_nat]. ring.
  - rewrite !bool_decide_eq_false_2 by done. cbn [orb].
    destruct (decide (w1 ∪ w2 = ∅)) as [Hu|Hu].
    + exfalso. apply H1. apply set_eq. intros i. set_solver.
    + rewrite bool_decide_eq_false_2 by done. reflexivity.
Qed.

(** Two items with similar titles, no further apart than the window,
    are judged similar. *)
Lemma title_similar_judged (x y : RawSource) :
  Spec.title_similar config x y → Spec.within_window config x y →
  similar x y = true.
Proof.
  unfold Spec.title_similar, Spec.within_window, Spec.title_similarity.
  intros Htitle Hwindow.
  unfold similar, Normalization._are_similar, abs_diff, time_window.
  destruct (Z.ltb_spec (hours (Config.time_window_hours (Config.deduplication config)))
              (Z.abs (Normalization.effective_time x - Normalization.effective_time y)));
    [lia|].
  rewrite (proj2 (Qgtb_lt _ _)); [done|].
  by rewrite text_similarity_jaccard.
Qed.

(** C6. For a batch with pairwise-distinct identifiers the clusters are
    non-empty and hold every item of the batch exactly once; the empty
    batch gives no cluster; an item that is judged similar to no other
    item of the batch forms a cluster of its own. *)
Theorem C6_clusters_partition_the_batch :
  (∀ sources,
     NoDup (map source_id sources) →
     concat (Normalization.cluster_sources urlparse_netloc config sources) ≡ₚ sources
     ∧ Forall (λ c, c ≠ []) (Normalization.cluster_sources urlparse_netloc config sources))
  ∧ Normalization.cluster_sources urlparse_netloc config [] = []
  ∧ (∀ sources x,
       NoDup (map source_id sources) →
       x ∈ sources →
       (∀ y, y ∈ sources → y ≠ x → ¬ Spec.judged_similar urlparse_netloc config x y) →
       [x] ∈ Normalization.cluster_sources urlparse_netloc config sources).
Proof.
  split; [|split].
  - intros sources Hnd.
    destruct (cluster_sources_greedy urlparse_netloc config sources Hnd)
      as (Hnd' & Hgreedy & Hcov).
    destruct (greedy_from_items urlparse_netloc config _ Hnd' _ ∅ Hgreedy)
      as (Hnd'' & _ & Hsub).
    split; [|by eapply greedy_from_nonempty].
    apply NoDup_Permutation.
    + by apply NoDup_of_ids.
    + by apply NoDup_of_ids.
    + intros x. split.
      * intros Hx. by apply (elem_of_sorted Normalization.effective_time), Hsub.
      * intros Hx. eapply assigned_item_in_clusters; [exact Hnd'|exact Hgreedy| |by apply Hcov].
        by apply elem_of_sorted.
  - reflexivity.
  - intros sources x Hnd Hx Hlonely.
    destruct (cluster_sources_greedy urlparse_netloc config sources Hnd)
      as (Hnd' & Hgreedy & Hcov).
    set (batch := sorted Normalization.effective_time sources) in *.
    set (clusters := Normalization.cluster_sources urlparse_netloc config sources) in *.
    assert (x ∈ batch) as Hxb by by apply elem_of_sorted.
    assert (x ∈ concat clusters) as Hxc.
    { eapply assigned_item_in_clusters; [exact Hnd'|exact Hgreedy|done|by apply Hcov]. }
    apply elem_of_concat_clusters in Hxc as (c & Hc & Hxc).
    destruct (list_elem_of_split _ _ Hc) as (before & after & Hsplit).
    rewrite Hsplit in Hgreedy.
    apply greedy_cluster_at in Hgreedy as (_ & a & Ha & Hfresh & Hca).
    assert (∀ o, o ∈ batch → source_id o ≠ source_id x → similar x o = false) as Hx_anchor.
    { intros o Ho Hid. destruct (similar x o) eqn:Hsim; [|done].
      exfalso. apply (Hlonely o); [by apply (elem_of_sorted Normalization.effective_time)
                                  |congruence|exact Hsim]. }
    subst c. apply elem_of_cons in Hxc as [->|Hxc].
    + rewrite (elem_of_nil_inv (Spec.admitted similar batch a _)) in Hc; [done|].
      intros o [[Ho Hsim] Hob]%elem_of_admitted.
      change (similar a o = true) in Hsim.
      rewrite Hx_anchor in Hsim; [done|done|set_solver].
    + exfalso. apply elem_of_admitted in Hxc as [[Hid Hsim] _].
      change (Normalization._are_similar urlparse_netloc config a x time_window = true)
        in Hsim.
      rewrite are_similar_sym in Hsim. change (similar x a = true) in Hsim.
      rewrite Hx_anchor in Hsim; [done|done|set_solver].
Qed.

(** C5, as the code has it. In a batch with pairwise-distinct
    identifiers, an item whose title is similar to the title of the
    anchor (the first item) of an output cluster, and whose timestamp
    is less than the window away from the anchor's, is in that cluster
    unless it is in a cluster that comes before it in the output. *)
Theorem C5_anchor_gathers_similar_items (sources : list RawSource)
    (before after : list (list RawSource)) (a y : RawSource) (members : list RawSource) :
  NoDup (map source_id sources) →
  Normalization.cluster_sources urlparse_netloc config sources
    = before ++ (a :: members) :: after →
  y ∈ sources →
  Spec.title_similar config a y →
  Spec.within_window config a y →
  y ∈ a :: members ∨ ∃ c, c ∈ before ∧ y ∈ c.
Proof.
  intros Hnd Hsplit Hy Htitle Hwindow.
  destruct (cluster_sources_greedy urlparse_netloc config sources Hnd)
    as (Hnd' & Hgreedy & Hcov).
  set (batch := sorted Normalization.effective_time sources) in *.
  rewrite Hsplit in Hgreedy.
  apply greedy_cluster_at in Hgreedy as (Hbefore & a' & Ha & Hfresh & Hc).
  injection Hc as <- ->.
  assert (y ∈ batch) as Hyb by by apply elem_of_sorted.
  destruct (decide (source_id y ∈ Spec.ids (concat before))) as [Hin|Hout].
  - right. apply elem_of_concat_clusters.
    by eapply assigned_item_in_clusters.
  - left. destruct (decide (source_id y = source_id a)) as [Hid|Hid].
    + rewrite (same_id_same_item batch y a Hnd' Hyb Ha Hid). by left.
    + right. apply elem_of_admitted. split; [split|done].
      * set_solver.
      * by apply title_similar_judged.
Qed.

End ClusteringProperties.

(** The clusters of the repository's clustering test and of the three
    chained reports. *)
Example cluster_sources_test_batch :
  Normalization.cluster_sources Examples.urlparse_netloc Examples.config
    [Examples.item1; Examples.item2; Examples.item3]
  = [[Examples.item1; Examples.item2]; [Examples.item3]].
Proof. vm_compute. reflexivity. Qed.

Example cluster_sources_reports :
  Normalization.cluster_sources Examples.urlparse_netloc Examples.config
    [Examples.report_a; Examples.report_b; Examples.report_c]
  = [[Examples.report_a; Examples.report_b]; [Examples.report_c]].
Proof. vm_compute. reflexivity. Qed.

(** C5, as stated, fails. The second and third report have titles of
    Jaccard similarity 4/6, above the threshold 0.5, and are ten
    minutes apart, inside the window of 24 hours; the first report
    admits the second and not the third, which is left to a cluster of
    its own. *)
Lemma C5_counterexample :
  Examples.report_b ∈ [Examples.report_a; Examples.report_b; Examples.report_c]
  ∧ Examples.report_c ∈ [Examples.report_a; Examples.report_b; Examples.report_c]
  ∧ Spec.title_similar Examples.config Examples.report_b Examples.report_c
  ∧ Spec.within_window Examples.config Examples.report_b Examples.report_c
  ∧ ¬ Spec.same_cluster
        (Normalization.cluster_sources Examples.urlparse_netloc Examples.config
           [Examples.report_a; Examples.report_b; Examples.report_c])
        Examples.report_b Examples.report_c.
Proof.
  split; [apply list_elem_of_further, list_elem_of_here|].
  split; [do 2 apply list_elem_of_further; apply list_elem_of_here|].
  split; [by vm_compute|]. split; [by vm_compute|].
  rewrite cluster_sources_reports. intros (c & Hc & Hb & Hcc).
  apply elem_of_cons in Hc as [->|Hc].
  - apply elem_of_cons in Hcc as [Hcc|Hcc]; [discriminate Hcc|].
    apply list_elem_of_singleton in Hcc. discriminate Hcc.
  - apply list_elem_of_singleton in Hc. subst c.
    apply list_elem_of_singleton in Hb. discriminate Hb.
Qed.

(** C5 at the three reports: the first one, an anchor, and the second. *)
Lemma C5_witness :
  NoDup (map source_id [Examples.report_a; Examples.report_b; Examples.report_c])
  ∧ Normalization.cluster_sources Examples.urlparse_netloc Examples.config
      [Examples.report_a; Examples.report_b; Examples.report_c]
    = [] ++ (Examples.report_a :: [Examples.report_b]) :: [[Examples.report_c]]
  ∧ Examples.report_b ∈ [Examples.report_a; Examples.report_b; Examples.report_c]
  ∧ Spec.title_similar Examples.config Examples.report_a Examples.report_b
  ∧ Spec.within_window Examples.config Examples.report_a Examples.report_b
  ∧ (Examples.report_b ∈ Examples.report_a :: [Examples.report_b]
     ∨ ∃ c : list RawSource, c ∈ [] ∧ Examples.report_b ∈ c).
Proof.
  assert (NoDup (map source_id [Examples.report_a; Examples.report_b; Examples.report_c]))
    as H1 by (apply (bool_decide_unpack _); vm_compute; exact I).
  assert (Normalization.cluster_sources Examples.urlparse_netloc Examples.config
            [Examples.report_a; Examples.report_b; Examples.report_c]
          = [] ++ (Examples.report_a :: [Examples.report_b]) :: [[Examples.report_c]])
    as H2 by (vm_compute; reflexivity).
  assert (Examples.report_b ∈ [Examples.report_a; Examples.report_b; Examples.report_c])
    as H3 by (apply list_elem_of_further, list_elem_of_here).
  assert (Spec.title_similar Examples.config Examples.report_a Examples.report_b)
    as H4 by (vm_compute; reflexivity).
  assert (Spec.within_window Examples.config Examples.report_a Examples.report_b)
    as H5 by (vm_compute; reflexivity).
  repeat (split; [assumption|]).
  exact (C5_anchor_gathers_similar_items Examples.urlparse_netloc Examples.config
           _ _ _ _ _ _ H1 H2 H3 H4 H5).
Defined.

(** C6 at the batch of the repository's test, whose third item is
    similar to neither of the others. *)
Lemma C6_witness :
  NoDup (map source_id [Examples.item1; Examples.item2; Examples.item3])
  ∧ Examples.item3 ∈ [Examples.item1; Examples.item2; Examples.item3]
  ∧ (∀ y, y ∈ [Examples.item1; Examples.item2; Examples.item3] → y ≠ Examples.item3 →
       ¬ Spec.judged_similar Examples.urlparse_netloc Examples.config Examples.item3 y)
  ∧ (concat (Normalization.cluster_sources Examples.urlparse_netloc Examples.config
               [Examples.item1; Examples.item2; Examples.item3])
       ≡ₚ [Examples.item1; Examples.item2; Examples.item3]
     ∧ Forall (λ c, c ≠ [])
         (Normalization.cluster_sources Examples.urlparse_netloc Examples.config
            [Examples.item1; Examples.item2; Examples.item3]))
  ∧ [Examples.item3]
    ∈ Normalization.cluster_sources Examples.urlparse_netloc Examples.config
        [Examples.item1; Examples.item2; Examples.item3].
Proof.
  assert (NoDup (map source_id [Examples.item1; Examples.item2; Examples.item3]))
    as H1 by (apply (bool_decide_unpack _); vm_compute; exact I).
  assert (Examples.item3 ∈ [Examples.item1; Examples.item2; Examples.item3])
    as H2 by (do 2 apply list_elem_of_further; apply list_elem_of_here).
  assert (∀ y, y ∈ [Examples.item1; Examples.item2; Examples.item3] → y ≠ Examples.item3 →
            ¬ Spec.judged_similar Examples.urlparse_netloc Examples.config Examples.item3 y)
    as H3.
  { intros y Hy Hne Hsim.
    repeat (apply elem_of_cons in Hy as [->|Hy]);
      [vm_compute in Hsim; discriminate Hsim
      |vm_compute in Hsim; discriminate Hsim
      |by apply Hne
      |by apply elem_of_nil in Hy]. }
  split; [exact H1|]. split; [exact H2|]. split; [exact H3|].
  split.
  - exact (proj1 (C6_clusters_partition_the_batch Examples.urlparse_netloc Examples.config)
             _ H1).
  - exact (proj2 (proj2 (C6_clusters_partition_the_batch Examples.urlparse_netloc
                           Examples.config)) _ _ H1 H2 H3).
Defined.

(** ** Event extraction *)

Section Strings.

Lemma lower_app (a b : string) : lower (a +:+ b) = lower a +:+ lower b.
Proof. induction a as [|c a IH]; [done|]. simpl. by rewrite IH. Qed.

Lemma startswith_app (p a b : string) :
  startswith p a = true → startswith p (a +:+ b) = true.
Proof.
  revert a. induction p as [|c p IH]; intros a; [done|].
  destruct a as [|d a]; [done|]. simpl.
  intros [Hc Hp]%andb_true_iff. rewrite Hc. simpl. by apply IH.
Qed.

(** A text that occurs in a prefix occurs in the whole. *)
Lemma contains_app (needle a b : string) :
  contains needle a = true → contains needle (a +:+ b) = true.
Proof.
  induction a as [|d a IH].
  - simpl. rewrite orb_false_r. destruct needle; [|done]. intros _. by destruct b.
  - cbn [contains]. intros [H|H]%orb_true_iff.
    + pose proof (startswith_app _ _ b H) as H'.
      change (String d a +:+ b) with (String d (a +:+ b)) in *.
      cbn [contains]. by rewrite H'.
    + change (String d a +:+ b) with (String d (a +:+ b)). cbn [contains].
      rewrite (IH H). apply orb_true_r.
Qed.

End Strings.

Section Classification.

Lemma any_pattern_matches (type_patterns : list string) (text : string) :
  EventExtraction.any_pattern type_patterns text = true
  ↔ Spec.kind_matches type_patterns text.
Proof.
  unfold Spec.kind_matches. induction type_patterns as [|p ps IH]; cbn.
  - split; [done|]. intros (p & Hp & _). by apply elem_of_nil in Hp.
  - destruct (re_search p text) eqn:Hm.
    + split; [|done]. intros _. exists p. split; [by left|done].
    + rewrite IH. split.
      * intros (q & Hq & Hs). exists q. split; [by right|done].
      * intros (q & [->|Hq]%elem_of_cons & Hs); [congruence|]. by exists q.
Qed.

Lemma any_pattern_no_match (type_patterns : list string) (text : string) :
  EventExtraction.any_pattern type_patterns text = false
  ↔ ¬ Spec.kind_matches type_patterns text.
Proof.
  rewrite <- any_pattern_matches.
  destruct (EventExtraction.any_pattern type_patterns text); split; try done;
    intros H; by destruct H.
Qed.

(** The loop over the table returns the first kind with a matching pattern. *)
Lemma first_type_some (table : list (EventType.t * list string)) (text : string)
    (kind : EventType.t) :
  EventExtraction.first_type table text = Some kind
  ↔ Spec.first_matching_kind table text kind.
Proof.
  unfold Spec.first_matching_kind. induction table as [|[k ps] table IH].
  - split; [done|]. intros (before & ps & after & Heq & _). by destruct before.
  - cbn [EventExtraction.first_type].
    destruct (EventExtraction.any_pattern ps text) eqn:Hm.
    + split.
      * intros [= <-]. exists [], ps, table. split; [done|].
        split; [by apply any_pattern_matches|].
        intros entry Hentry. by apply elem_of_nil in Hentry.
      * intros (before & ps' & after & Heq & Hmatch & Hbefore).
        destruct before as [|entry before].
        -- by injection Heq as -> _ _.
        -- injection Heq as <- _. exfalso.
           apply (Hbefore (k, ps)); [by left|]. by apply any_pattern_matches.
    + rewrite IH. split.
      * intros (before & ps' & after & -> & Hmatch & Hbefore).
        exists ((k, ps) :: before), ps', after. split; [done|]. split; [done|].
        intros entry [->|Hentry]%elem_of_cons; [|by apply Hbefore].
        by apply any_pattern_no_match.
      * intros (before & ps' & after & Heq & Hmatch & Hbefore).
        destruct before as [|entry before].
        -- injection Heq as -> -> _. apply any_pattern_matches in Hmatch. congruence.
        -- injection Heq as _ ->. exists before, ps', after. split; [done|].
           split; [done|]. intros e He. apply Hbefore. by right.
Qed.

Lemma first_type_none (table : list (EventType.t * list string)) (text : string) :
  EventExtraction.first_type table text = None ↔ Spec.no_kind_matches table text.
Proof.
  unfold Spec.no_kind_matches. induction table as [|[k ps] table IH].
  - split; [|done]. intros _ entry Hentry. by apply elem_of_nil in Hentry.
  - cbn [EventExtraction.first_type].
    destruct (EventExtraction.any_pattern ps text) eqn:Hm.
    + split; [done|]. intros H. exfalso.
      apply (H (k, ps)); [by left|]. by apply any_pattern_matches.
    + rewrite IH. split.
      * intros H entry [->|Hentry]%elem_of_cons; [|by apply H].
        by apply any_pattern_no_match.
      * intros H entry Hentry. apply H. by right.
Qed.

Lemma first_country_find (countries : list string) (text : string) :
  EventExtraction.first_country countries text
  = find (λ country, contains (lower country) text) countries.
Proof.
  induction countries as [|c cs IH]; [done|]. cbn.
  by destruct (contains (lower c) text).
Qed.

Lemma find_none_weaken {T} (f g : T → bool) (l : list T) :
  (∀ x, g x = true → f x = true) → find f l = None → find g l = None.
Proof.
  intros Hfg. induction l as [|x l IH]; [done|]. cbn.
  destruct (f x) eqn:Hf; [done|]. intros H.
  destruct (g x) eqn:Hg; [|by apply IH].
  apply Hfg in Hg. congruence.
Qed.

Lemma find_none_iff {T} (f : T → bool) (l : list T) :
  find f l = None ↔ ∀ x, x ∈ l → f x = false.
Proof.
  induction l as [|x l IH]; cbn.
  - split; [|done]. intros _ y Hy. by apply elem_of_nil in Hy.
  - destruct (f x) eqn:Hf.
    + split; [done|]. intros H. specialize (H x (list_elem_of_here _ _)). congruence.
    + rewrite IH. split.
      * intros H y [->|Hy]%elem_of_cons; [done|by apply H].
      * intros H y Hy. apply H. by right.
Qed.

End Classification.

Section EventExtractorProperties.

Variable sha256_hexdigest : string → string.
Variable isoformat : datetime → string.
Variable config : Config.t.

Lemma detect_event_type_some (source : RawSource) (kind : EventType.t) :
  EventExtraction._detect_event_type source = Some kind
  ↔ Spec.first_matching_kind EventExtraction.patterns
      (lower (EventExtraction.combined_text source)) kind.
Proof. apply first_type_some. Qed.

Lemma detect_event_type_none (source : RawSource) :
  EventExtraction._detect_event_type source = None
  ↔ Spec.no_kind_matches EventExtraction.patterns
      (lower (EventExtraction.combined_text source)).
Proof. apply first_type_none. Qed.

(** The second loop of [_extract_location], over the title alone, finds
    nothing the first has not found. *)
Lemma extract_location_first_occurring (source : RawSource) :
  EventExtraction._extract_location config source
  = Spec.first_occurring (Config.monitored_countries config)
      (EventExtraction.combined_text source).
Proof.
  unfold EventExtraction._extract_location, Spec.first_occurring.
  rewrite !first_country_find.
  destruct (find _ _) as [c|] eqn:Hfirst; [done|].
  eapply find_none_weaken; [|exact Hfirst].
  intros c Hc. unfold EventExtraction.combined_text. rewrite lower_app.
  by apply contains_app.
Qed.

Lemma first_occurring_none (countries : list string) (text : string) :
  Spec.first_occurring countries text = None
  ↔ ∀ country, country ∈ countries → ¬ Spec.name_occurs country text.
Proof.
  unfold Spec.first_occurring, Spec.name_occurs. rewrite find_none_iff.
  split; intros H c Hc; specialize (H c Hc).
  - congruence.
  - by destruct (contains _ _).
Qed.

(** C7. The kind of a cluster is found from the lower-cased title and
    body of its anchor: it is the first kind of the table, in the order
    of its declaration, one of whose patterns matches, whatever the
    kinds after it match; two anchors whose texts differ in case only
    get the same kind; and when no kind has a matching pattern the
    cluster gives no event. *)
Theorem C7_first_matching_kind_wins (now : datetime) (anchor : RawSource)
    (rest : list RawSource) :
  let text := lower (EventExtraction.combined_text anchor) in
  (∀ kind,
     EventExtraction._detect_event_type anchor = Some kind
     ↔ Spec.first_matching_kind EventExtraction.patterns text kind)
  ∧ (∀ anchor',
       lower (EventExtraction.combined_text anchor') = text →
       EventExtraction._detect_event_type anchor'
       = EventExtraction._detect_event_type anchor)
  ∧ (Spec.no_kind_matches EventExtraction.patterns text →
     EventExtraction.extract_events sha256_hexdigest isoformat config now (anchor :: rest)
     = inr []).
Proof.
  cbv zeta. split; [|split].
  - intros kind. apply detect_event_type_some.
  - intros anchor' Heq. unfold EventExtraction._detect_event_type. by rewrite Heq.
  - intros Hnone. apply detect_event_type_none in Hnone.
    unfold EventExtraction.extract_events. by rewrite Hnone.
Qed.

(** C8. Two runs of event extraction on the same cluster, at whatever
    times, give events with the same identifiers, and the identifier of
    the event of a cluster is the one generated from the event's kind,
    location and timestamp and the anchor's identifier. *)
Theorem C8_event_identifier_deterministic :
  (∀ now1 now2 cluster,
     Spec.event_ids
       (EventExtraction.extract_events sha256_hexdigest isoformat config now1 cluster)
     = Spec.event_ids
         (EventExtraction.extract_events sha256_hexdigest isoformat config now2 cluster))
  ∧ (∀ now anchor rest,
       match EventExtraction.extract_events sha256_hexdigest isoformat config now
               (anchor :: rest) with
       | inr [] => True
       | inr [event] =>
           event_id event
           = EventExtraction._generate_event_id sha256_hexdigest isoformat
               (event_type event) (location event) (timestamp event) (source_id anchor)
       | _ => False
       end).
Proof.
  split.
  - intros now1 now2 [|anchor rest]; [done|].
    unfold EventExtraction.extract_events.
    destruct (EventExtraction._detect_event_type anchor); [|done].
    destruct (EventExtraction._extract_location config anchor) as [loc|]; [|done].
    by destruct (truthy loc).
  - intros now anchor rest. unfold EventExtraction.extract_events.
    destruct (EventExtraction._detect_event_type anchor); [|done].
    destruct (EventExtraction._extract_location config anchor) as [loc|]; [|done].
    by destruct (truthy loc).
Qed.

(** C10, as the code has it. Event extraction on a non-empty cluster
    returns a list of at most one event; the list is empty exactly when
    no kind has a pattern that matches the anchor's text, or no
    monitored name occurs in it, or the first monitored name that
    occurs in it is the empty string. *)
Theorem C10_at_most_one_event (now : datetime) (anchor : RawSource) (rest : list RawSource) :
  let text := EventExtraction.combined_text anchor in
  ∃ events,
    EventExtraction.extract_events sha256_hexdigest isoformat config now (anchor :: rest)
    = inr events
    ∧ (length events ≤ 1)%nat
    ∧ (events = []
       ↔ Spec.no_kind_matches EventExtraction.patterns (lower text)
         ∨ (∀ country, country ∈ Config.monitored_countries config →
              ¬ Spec.name_occurs country text)
         ∨ Spec.first_occurring (Config.monitored_countries config) text
           = Some EmptyString).
Proof.
  cbv zeta. unfold EventExtraction.extract_events.
  rewrite extract_location_first_occurring.
  pose proof (detect_event_type_none anchor) as Hkind.
  pose proof (first_occurring_none (Config.monitored_countries config)
                (EventExtraction.combined_text anchor)) as Hname.
  destruct (EventExtraction._detect_event_type anchor) as [kind|].
  2:{ exists []. split; [done|]. split; [cbn; lia|].
      split; [left; by apply Hkind|done]. }
  destruct (Spec.first_occurring _ _) as [loc|].
  2:{ exists []. split; [done|]. split; [cbn; lia|].
      split; [right; left; by apply Hname|done]. }
  destruct loc as [|c loc].
  - exists []. split; [done|]. split; [cbn; lia|]. split; [by right; right|done].
  - cbn [truthy negb]. eexists. split; [reflexivity|]. split; [cbn; lia|].
    split; [done|]. intros [H|[H|H]].
    + apply Hkind in H. discriminate H.
    + apply Hname in H. discriminate H.
    + discriminate H.
Qed.

End EventExtractorProperties.

(** C7 at an item none of whose words any pattern matches, and at the
    same item with its title in capitals. *)
Lemma C7_witness :
  (lower (EventExtraction.combined_text Examples.item3_capitals)
   = lower (EventExtraction.combined_text Examples.item3)
   ∧ EventExtraction._detect_event_type Examples.item3_capitals
     = EventExtraction._detect_event_type Examples.item3)
  ∧ Spec.no_kind_matches EventExtraction.patterns
      (lower (EventExtraction.combined_text Examples.item3))
  ∧ EventExtraction.extract_events Examples.sha256_hexdigest Examples.isoformat
      Examples.config Examples.now [Examples.item3] = inr [].
Proof.
  assert (lower (EventExtraction.combined_text Examples.item3_capitals)
          = lower (EventExtraction.combined_text Examples.item3)) as H1
    by (vm_compute; reflexivity).
  assert (Spec.no_kind_matches EventExtraction.patterns
            (lower (EventExtraction.combined_text Examples.item3))) as H2.
  { apply first_type_none. vm_compute. reflexivity. }
  split; [split; [exact H1|]|split; [exact H2|]].
  - exact (proj1 (proj2 (C7_first_matching_kind_wins Examples.sha256_hexdigest
                           Examples.isoformat Examples.config Examples.now
                           Examples.item3 []))
             Examples.item3_capitals H1).
  - exact (proj2 (proj2 (C7_first_matching_kind_wins Examples.sha256_hexdigest
                           Examples.isoformat Examples.config Examples.now
                           Examples.item3 [])) H2).
Defined.

(** The two detections of the repository's test. *)
Example event_type_detection :
  EventExtraction._detect_event_type Examples.conflict_item = Some EventType.ARMED_CONFLICT
  ∧ EventExtraction._detect_event_type Examples.sanctions_item = Some EventType.SANCTIONS.
Proof. vm_compute. done. Qed.

(** First match, not best match: a text about a bombing by insurgents
    matches one pattern of ARMED_CONFLICT and two of TERRORIST_ATTACK,
    and is an armed conflict. *)
Example first_match_not_best_match :
  EventExtraction.first_type EventExtraction.patterns "bombing by insurgent group"
  = Some EventType.ARMED_CONFLICT.
Proof. vm_compute. reflexivity. Qed.

(** The end-to-end property of the specification: two items titled
    "Election held in Country A", ten minutes apart, from different
    sources of tier B, give one cluster and one ELECTION event located
    in "Country A" with confidence 0.8. *)
Example election_end_to_end :
  Normalization.cluster_sources Examples.urlparse_netloc Examples.config
    [Examples.election1; Examples.election2]
  = [[Examples.election1; Examples.election2]]
  ∧ ∃ event,
      EventExtraction.extract_events Examples.sha256_hexdigest Examples.isoformat
        Examples.config Examples.now [Examples.election1; Examples.election2]
      = inr [event]
      ∧ event_type event = EventType.ELECTION
      ∧ location event = "Country A"
      ∧ (confidence event == 8 # 10)%Q.
Proof.
  split; [vm_compute; reflexivity|].
  eexists. split; [reflexivity|]. vm_compute. done.
Qed.

(** C10, as stated, fails. With an empty name at the head of the
    monitored countries, an election report that names Country A gives
    no event, although a pattern of ELECTION matches its text and the
    monitored name "Country A" occurs in it. *)
Lemma C10_counterexample :
  ¬ Spec.no_kind_matches EventExtraction.patterns
      (lower (EventExtraction.combined_text Examples.election1))
  ∧ "Country A" ∈ Config.monitored_countries Examples.config_blank_name
  ∧ Spec.name_occurs "Country A" (EventExtraction.combined_text Examples.election1)
  ∧ EventExtraction.extract_events Examples.sha256_hexdigest Examples.isoformat
      Examples.config_blank_name Examples.now [Examples.election1] = inr [].
Proof.
  split; [|split; [|split]].
  - intros H. apply first_type_none in H. vm_compute in H. discriminate H.
  - apply list_elem_of_further, list_elem_of_here.
  - vm_compute. reflexivity.
  - vm_compute. reflexivity.
Qed.

(** ** Correlation *)

Section CorrelationProperties.

Local Open Scope Q_scope.

Lemma shared_entities_exists (l1 l2 : list string) :
  set_of l1 ∩ set_of l2 ≠ ∅ ↔ Exists (λ x, x ∈ l2) l1.
Proof.
  unfold set_of. rewrite Exists_exists. split.
  - intros Hne. apply set_choose_L in Hne as (x & Hx).
    apply elem_of_intersection in Hx as [H1 H2].
    exists x. by rewrite !elem_of_list_to_set in *.
  - intros (x & H1 & H2) Hempty.
    assert (x ∈ (list_to_set l1 ∩ list_to_set l2 : gset string)) as Hx.
    { apply elem_of_intersection. by rewrite !elem_of_list_to_set. }
    rewrite Hempty in Hx. by apply not_elem_of_empty in Hx.
Qed.

(** The accumulated score is the sum of the four signals, capped. *)
Lemma calculate_correlation_spec (e1 e2 : Event) :
  Correlation._calculate_correlation e1 e2 == Spec.correlation_score e1 e2.
Proof.
  unfold Correlation._calculate_correlation, Spec.correlation_score,
    Spec.same_location_signal, Spec.same_kind_signal, Spec.proximity_signal,
    Spec.shared_entity_signal, abs_diff.
  change (seconds 86400) with (hours 24). change (seconds 604800) with (days 7).
  destruct (String.eqb_spec (lower (location e1)) (lower (location e2))) as [Hl|Hl];
    [rewrite (decide_True (P := lower _ = lower _)) by done
    |rewrite (decide_False (P := lower _ = lower _)) by done];
  (destruct (decide (event_type e1 = event_type e2)) as [Hk|Hk];
    [rewrite (bool_decide_eq_true_2 _ Hk) | rewrite (bool_decide_eq_false_2 _ Hk)]);
  (destruct (decide (Exists (λ x, x ∈ entities e2) (entities e1))) as [He|He];
    [rewrite (bool_decide_eq_true_2 (_ ≠ ∅)) by (by apply shared_entities_exists)
    |rewrite (bool_decide_eq_false_2 (_ ≠ ∅)) by (by rewrite shared_entities_exists)]);
  (destruct (Z.ltb_spec (Z.abs (timestamp e1 - timestamp e2)) (hours 24)) as [H1|H1];
    [rewrite (decide_True (P := (_ < hours 24)%Z)) by done
    |rewrite (decide_False (P := (_ < hours 24)%Z)) by lia;
     destruct (Z.ltb_spec (Z.abs (timestamp e1 - timestamp e2)) (days 7)) as [H7|H7];
       [rewrite (decide_True (P := (_ < days 7)%Z)) by done
       |rewrite (decide_False (P := (_ < days 7)%Z)) by lia]]);
  by vm_compute.
Qed.

(** What the loop of [find_correlated_events] appends. *)
Lemma elem_of_correlated_loop (event other : Event) (all_events correlated : list Event) :
  other ∈ Correlation.correlated_loop event all_events correlated
  ↔ other ∈ correlated
    ∨ (other ∈ all_events ∧ event_id other ≠ event_id event
       ∧ 5 # 10 < Correlation._calculate_correlation event other).
Proof.
  revert correlated. induction all_events as [|e l IH]; intros correlated.
  - cbn. split; [by left|]. intros [H|(H & _)]; [done|]. by apply elem_of_nil in H.
  - cbn [Correlation.correlated_loop].
    destruct (String.eqb_spec (event_id e) (event_id event)) as [Hid|Hid].
    + rewrite IH. split.
      * intros [H|(H & Hne & Hs)]; [by left|]. right. split; [by right|done].
      * intros [H|([->|H]%elem_of_cons & Hne & Hs)]; [by left|done|]. by right.
    + destruct (Qgtb _ _) eqn:Hs; rewrite IH.
      * apply Qgtb_lt in Hs. split.
        -- intros [[H|H%list_elem_of_singleton]%elem_of_app|(H & Hne & Hs')].
           ++ by left.
           ++ subst other. right. split; [by left|done].
           ++ right. split; [by right|done].
        -- intros [H|([->|H]%elem_of_cons & Hne & Hs')].
           ++ left. apply elem_of_app. by left.
           ++ left. apply elem_of_app. right. by apply list_elem_of_singleton.
           ++ by right.
      * split.
        -- intros [H|(H & Hne & Hs')]; [by left|]. right. split; [by right|done].
        -- intros [H|([->|H]%elem_of_cons & Hne & Hs')]; [by left| |by right].
           apply Qgtb_lt in Hs'. congruence.
Qed.

(** C9, as the code has it. The correlation score of two events is the
    sum, capped at 1.0, of 0.3 for equal locations (without case), 0.3
    for equal kinds, 0.2 for timestamps less than 24 hours apart or
    else 0.1 for less than 7 days, and 0.2 for a shared entity; an
    event of the candidate pool is reported as correlated with the
    reference event exactly when its identifier is not the reference
    event's and the score exceeds 0.5. *)
Theorem C9_correlation_score_and_report :
  (∀ e1 e2, Correlation._calculate_correlation e1 e2 == Spec.correlation_score e1 e2)
  ∧ (∀ event ndays db other,
       other ∈ (Correlation.find_correlated_events event ndays db).1
       ↔ other ∈ Spec.candidate_pool db event ndays
         ∧ event_id other ≠ event_id event
         ∧ 5 # 10 < Spec.correlation_score event other).
Proof.
  split; [apply calculate_correlation_spec|].
  intros event ndays db other.
  unfold Correlation.find_correlated_events.
  rewrite bind_read_only by apply read_only_query.
  cbn [Storage.ret fst]. rewrite elem_of_correlated_loop.
  unfold Storage.get_events_by_time_range, Storage.query, Storage.newest_first. cbn [fst].
  rewrite elem_of_sorted. rewrite <- calculate_correlation_spec.
  unfold Spec.candidate_pool. split.
  - intros [H|H]; [by apply elem_of_nil in H|done].
  - intros H. by right.
Qed.

End CorrelationProperties.

Example correlated_events_of_unrest :
  (Correlation.find_correlated_events Examples.unrest1 30 Examples.db_events).1
  = [Examples.unrest2]
  ∧ (Correlation._calculate_correlation Examples.unrest1 Examples.unrest2 == 7 # 10)%Q.
Proof. vm_compute. done. Qed.

(** C9, as stated, fails. The reference event is itself in the pool of
    the events within 30 days of it, and its score against itself is
    1.0, above 0.5, yet it is not reported. *)
Lemma C9_counterexample :
  Examples.unrest1 ∈ Spec.candidate_pool Examples.db_events Examples.unrest1 30
  ∧ (5 # 10 < Correlation._calculate_correlation Examples.unrest1 Examples.unrest1)%Q
  ∧ Examples.unrest1
    ∉ (Correlation.find_correlated_events Examples.unrest1 30 Examples.db_events).1.
Proof.
  split; [|split].
  - vm_compute. apply list_elem_of_here.
  - by vm_compute.
  - change ((Correlation.find_correlated_events Examples.unrest1 30 Examples.db_events).1)
      with [Examples.unrest2].
    intros H%list_elem_of_singleton. discriminate H.
Qed.

(** * Further properties of the code *)

(** ** Text similarity and the similarity judgement *)

Section TextSimilarity.

Local Open Scope Q_scope.

Lemma jaccard_range (a b : gset string) : 0 <= Spec.jaccard a b ∧ Spec.jaccard a b <= 1.
Proof.
  unfold Spec.jaccard. destruct (decide (a ∪ b = ∅)) as [Hu|Hu]; [done|].
  assert (0 < size (a ∪ b))%nat as Hpos.
  { destruct (size (a ∪ b)) eqn:Hs; [|lia].
    exfalso. apply Hu. apply leibniz_equiv. by apply size_empty_iff. }
  assert (size (a ∩ b) ≤ size (a ∪ b))%nat as Hle by (apply subseteq_size; set_solver).
  assert (0 < inject_Z (Z.of_nat (size (a ∪ b)))) as HposQ.
  { change 0 with (inject_Z 0). rewrite <- Zlt_Qlt. lia. }
  split.
  - apply Qle_shift_div_l; [done|]. rewrite Qmult_0_l.
    change 0 with (inject_Z 0). rewrite <- Zle_Qle. lia.
  - apply Qle_shift_div_r; [done|]. rewrite Qmult_1_l. rewrite <- Zle_Qle. lia.
Qed.

Lemma jaccard_same (a : gset string) : a ≠ ∅ → Spec.jaccard a a == 1.
Proof.
  intros Ha. unfold Spec.jaccard.
  assert (a ∪ a = a) as -> by (apply set_eq; intros i; set_solver).
  assert (a ∩ a = a) as -> by (apply set_eq; intros i; set_solver).
  rewrite decide_False by done.
  unfold Qdiv. apply Qmult_inv_r. intros Hz.
  assert (size a = 0)%nat as Hs.
  { change (inject_Z (Z.of_nat (size a)) == inject_Z 0) in Hz.
    apply (proj1 (inject_Z_injective _ _)) in Hz. lia. }
  apply Ha. apply leibniz_equiv. by apply size_empty_iff.
Qed.

(** X1. The similarity of two texts lies between 0 and 1 and does not
    depend on their order; it is 0 when a text has no word, and 1 when
    the two texts have the same non-empty set of lower-cased words,
    whatever their case, spacing, word order and repetitions. *)
Theorem X1_text_similarity_range_and_symmetry (t1 t2 : string) :
  (0 <= Normalization._text_similarity t1 t2 ∧ Normalization._text_similarity t1 t2 <= 1)
  ∧ Normalization._text_similarity t1 t2 = Normalization._text_similarity t2 t1
  ∧ (Spec.word_set t1 = ∅ → Normalization._text_similarity t1 t2 = 0)
  ∧ (Spec.word_set t1 ≠ ∅ → Spec.word_set t1 = Spec.word_set t2 →
     Normalization._text_similarity t1 t2 == 1).
Proof.
  split; [|split; [|split]].
  - rewrite text_similarity_jaccard. apply jaccard_range.
  - apply text_similarity_sym.
  - intros Hempty. unfold Normalization._text_similarity.
    change (set_of (split (lower t1))) with (Spec.word_set t1).
    rewrite Hempty. by rewrite bool_decide_eq_true_2.
  - intros Hne Heq. rewrite text_similarity_jaccard, <- Heq. by apply jaccard_same.
Qed.

End TextSimilarity.

Section SimilarityJudgement.

Variable urlparse_netloc : string → option string.
Variable config : Config.t.

(** X2. The similarity judgement does not depend on the order of the
    two items, and never holds for two items whose effective timestamps
    are further apart than the time window. *)
Theorem X2_are_similar_symmetric_within_window (x y : RawSource) (time_window : timedelta) :
  Normalization._are_similar urlparse_netloc config x y time_window
  = Normalization._are_similar urlparse_netloc config y x time_window
  ∧ (Normalization._are_similar urlparse_netloc config x y time_window = true →
     (Z.abs (Normalization.effective_time x - Normalization.effective_time y)
      ≤ time_window)%Z).
Proof.
  split; [apply are_similar_sym|].
  unfold Normalization._are_similar, abs_diff.
  destruct (Z.ltb_spec time_window
              (Z.abs (Normalization.effective_time x - Normalization.effective_time y)));
    [done|]. intros _. lia.
Qed.

End SimilarityJudgement.

(** X1 at a text without words, and at two texts with the words
    "major" and "event". *)
Lemma X1_witness :
  (Spec.word_set "   " = ∅ ∧ Normalization._text_similarity "   " "Major event" = 0%Q)
  ∧ Spec.word_set "Major event" ≠ ∅
  ∧ Spec.word_set "Major event" = Spec.word_set "EVENT  major event"
  ∧ (Normalization._text_similarity "Major event" "EVENT  major event" == 1)%Q.
Proof.
  assert (Spec.word_set "   " = ∅) as H1 by (vm_compute; reflexivity).
  assert (Spec.word_set "Major event" ≠ ∅) as H2 by (vm_compute; discriminate).
  assert (Spec.word_set "Major event" = Spec.word_set "EVENT  major event") as H3
    by (vm_compute; reflexivity).
  split; [split; [exact H1|]|split; [exact H2|split; [exact H3|]]].
  - exact (proj1 (proj2 (proj2 (X1_text_similarity_range_and_symmetry "   " "Major event")))
             H1).
  - exact (proj2 (proj2 (proj2 (X1_text_similarity_range_and_symmetry
                                  "Major event" "EVENT  major event"))) H2 H3).
Defined.

(** X2 at the first two items of the clustering test, ten minutes apart. *)
Lemma X2_witness :
  Normalization._are_similar Examples.urlparse_netloc Examples.config
    Examples.item1 Examples.item2 (hours 24) = true
  ∧ (Z.abs (Normalization.effective_time Examples.item1
            - Normalization.effective_time Examples.item2) ≤ hours 24)%Z.
Proof.
  assert (Normalization._are_similar Examples.urlparse_netloc Examples.config
            Examples.item1 Examples.item2 (hours 24) = true) as H
    by (vm_compute; reflexivity).
  split; [exact H|].
  exact (proj2 (X2_are_similar_symmetric_within_window Examples.urlparse_netloc
                  Examples.config Examples.item1 Examples.item2 (hours 24)) H).
Defined.

(** ** Clustering of any batch *)

Section ClusteringAnyBatch.

Variable urlparse_netloc : string → option string.
Variable config : Config.t.

Let time_window : timedelta := hours (Config.time_window_hours (Config.deduplication config)).

Let similar (a o : RawSource) : bool :=
  Normalization._are_similar urlparse_netloc config a o time_window.

(** What the inner loop adds, whatever the identifiers of the batch. *)
Lemma find_similar_sound (a : RawSource) (others cluster : list RawSource)
    (processed : gset string) :
  ∃ adm,
    Normalization.find_similar urlparse_netloc config a time_window others cluster processed
    = (cluster ++ adm, processed ∪ Spec.ids adm)
    ∧ Forall (λ o, o ∈ others ∧ similar a o = true ∧ (source_id o ∉ processed)) adm
    ∧ NoDup (map source_id adm).
Proof.
  revert cluster processed. induction others as [|o others IH]; intros cluster processed.
  - exists []. cbn [Normalization.find_similar]. rewrite app_nil_r, ids_nil.
    split; [f_equal; set_solver|]. split; constructor.
  - cbn [Normalization.find_similar].
    destruct (decide (source_id o ∈ processed)) as [Hin|Hnin].
    + rewrite bool_decide_eq_true_2 by done.
      destruct (IH cluster processed) as (adm & -> & Hall & Hnd).
      exists adm. split; [done|]. split; [|done].
      eapply Forall_impl; [exact Hall|]. intros x (Hx & ? & ?). split; [by right|done].
    + rewrite bool_decide_eq_false_2 by done. fold (similar a o).
      destruct (similar a o) eqn:Hsim.
      * destruct (IH (cluster ++ [o]) (processed ∪ {[source_id o]}))
          as (adm & -> & Hall & Hnd).
        exists (o :: adm). split; [|split].
        -- rewrite <- app_assoc. f_equal. rewrite ids_cons. set_solver.
        -- constructor; [split; [by left|done]|].
           eapply Forall_impl; [exact Hall|]. intros x (Hx & ? & Hid).
           split; [by right|]. split; [done|set_solver].
        -- cbn [map]. apply NoDup_cons. split; [|done].
           intros (x & Hx & Hid)%elem_of_map_source_id.
           rewrite Forall_forall in Hall. destruct (Hall x Hx) as (_ & _ & Hfresh).
           set_solver.
      * destruct (IH cluster processed) as (adm & -> & Hall & Hnd).
        exists adm. split; [done|]. split; [|done].
        eapply Forall_impl; [exact Hall|]. intros x (Hx & ? & ?). split; [by right|done].
Qed.

Lemma anchors_snoc (clusters : list (list RawSource)) (a : RawSource) (ms : list RawSource) :
  Props.anchors (clusters ++ [a :: ms]) = Props.anchors clusters ++ [a].
Proof. unfold Props.anchors. by rewrite omap_app. Qed.

(** The invariant of the outer loop: [done] is the part of the batch
    gone over. *)
Lemma cluster_loop_invariant (batch : list RawSource) :
  StronglySorted (key_le Normalization.effective_time) batch →
  ∀ (todo done : list RawSource) (clusters : list (list RawSource)) (processed : gset string),
    batch = done ++ todo →
    processed = Spec.ids (concat clusters) →
    (∀ x, x ∈ done → source_id x ∈ processed) →
    NoDup (map source_id (concat clusters)) →
    (∀ x, x ∈ concat clusters → x ∈ batch) →
    Forall (Props.anchored (λ a m, similar a m = true)) clusters →
    StronglySorted (key_le Normalization.effective_time) (Props.anchors clusters) →
    (∀ a, a ∈ Props.anchors clusters → a ∈ done) →
    let final :=
      Normalization.cluster_loop urlparse_netloc config time_window batch todo
        clusters processed in
    NoDup (map source_id (concat final))
    ∧ (∀ x, x ∈ concat final → x ∈ batch)
    ∧ Forall (Props.anchored (λ a m, similar a m = true)) final
    ∧ StronglySorted (key_le Normalization.effective_time) (Props.anchors final)
    ∧ (∀ x, x ∈ batch → source_id x ∈ Spec.ids (concat final)).
Proof.
  intros Hsorted todo.
  induction todo as [|s todo IH];
    intros done clusters processed Hbatch HP Hdone Hnd Hsub Hanch Hasc Hadone.
  - cbn [Normalization.cluster_loop]. rewrite app_nil_r in Hbatch. subst done.
    repeat (split; [done|]). intros x Hx. rewrite <- HP. by apply Hdone.
  - cbn [Normalization.cluster_loop].
    assert (batch = (done ++ [s]) ++ todo) as Hbatch' by by rewrite <- app_assoc.
    destruct (decide (source_id s ∈ processed)) as [Hs|Hs].
    + rewrite bool_decide_eq_true_2 by done.
      apply (IH (done ++ [s])); try done.
      * intros x [Hx|Hx%list_elem_of_singleton]%elem_of_app; [by apply Hdone|by subst x].
      * intros a Ha. apply elem_of_app. left. by apply Hadone.
    + rewrite bool_decide_eq_false_2 by done.
      destruct (find_similar_sound s batch [s] (processed ∪ {[source_id s]}))
        as (adm & -> & Hall & Hndadm).
      rewrite Forall_forall in Hall.
      assert (s ∈ batch) as Hsb.
      { rewrite Hbatch. apply elem_of_app. right. by left. }
      assert (processed ∪ {[source_id s]} ∪ Spec.ids adm
              = Spec.ids (concat (clusters ++ [[s] ++ adm]))) as HP'.
      { rewrite concat_app, ids_app. cbn [concat]. rewrite app_nil_r.
        rewrite ids_app, ids_cons, ids_nil, <- HP. set_solver. }
      rewrite HP'.
      apply (IH (done ++ [s])); try done.
      * rewrite <- HP'. intros x [Hx|Hx%list_elem_of_singleton]%elem_of_app.
        -- specialize (Hdone x Hx). set_solver.
        -- subst x. set_solver.
      * rewrite concat_app, map_app. cbn [concat]. rewrite app_nil_r.
        apply NoDup_app. split; [done|]. split.
        -- intros i (x & Hx & <-)%elem_of_map_source_id Hi.
           assert (source_id x ∈ processed) as Hxp.
           { rewrite HP. by apply elem_of_ids_2. }
           cbn [app map] in Hi. apply elem_of_cons in Hi as [Hi|Hi]; [congruence|].
           apply elem_of_map_source_id in Hi as (y & Hy & Hid).
           destruct (Hall y Hy) as (_ & _ & Hfresh). rewrite Hid in Hfresh. set_solver.
        -- cbn [app map]. apply NoDup_cons. split; [|done].
           intros (y & Hy & Hid)%elem_of_map_source_id.
           destruct (Hall y Hy) as (_ & _ & Hfresh). set_solver.
      * rewrite concat_app. cbn [concat]. rewrite app_nil_r.
        intros x [Hx|[->|Hx]%elem_of_cons]%elem_of_app; [by apply Hsub|done|].
        by destruct (Hall x Hx).
      * apply Forall_app. split; [done|]. constructor; [|constructor].
        cbn [app Props.anchored]. apply Forall_forall. intros m Hm.
        destruct (Hall m Hm) as (Hmb & Hsim & Hfresh). split; [done|].
        assert (m ∈ todo) as Hmt.
        { rewrite Hbatch in Hmb.
          apply elem_of_app in Hmb as [Hmd|[->|Hmt]%elem_of_cons]; [| |done].
          - specialize (Hdone m Hmd). set_solver.
          - set_solver. }
        rewrite Hbatch in Hsorted. apply StronglySorted_app_1_r in Hsorted.
        apply StronglySorted_inv in Hsorted as [_ Hle].
        rewrite Forall_forall in Hle. by apply Hle.
      * change ([s] ++ adm) with (s :: adm). rewrite anchors_snoc.
        apply StronglySorted_app_2; [|done|repeat constructor].
        intros a s' Ha Hs'%list_elem_of_singleton. subst s'.
        rewrite Hbatch in Hsorted.
        eapply StronglySorted_app_1_elem_of; [exact Hsorted|by apply Hadone|by left].
      * change ([s] ++ adm) with (s :: adm). rewrite anchors_snoc.
        intros a [Ha|Ha%list_elem_of_singleton]%elem_of_app.
        -- apply elem_of_app. left. by apply Hadone.
        -- subst a. apply elem_of_app. right. by left.
Qed.

(** [cluster_sources] on any batch. *)
Lemma cluster_sources_invariant (sources : list RawSource) :
  let clusters := Normalization.cluster_sources urlparse_netloc config sources in
  NoDup (map source_id (concat clusters))
  ∧ (∀ x, x ∈ concat clusters → x ∈ sources)
  ∧ Forall (Props.anchored (λ a m, similar a m = true)) clusters
  ∧ StronglySorted (key_le Normalization.effective_time) (Props.anchors clusters)
  ∧ (∀ x, x ∈ sources → source_id x ∈ Spec.ids (concat clusters)).
Proof.
  cbv zeta. unfold Normalization.cluster_sources.
  destruct (cluster_loop_invariant (sorted Normalization.effective_time sources)
              (sorted_sorted _ _) (sorted Normalization.effective_time sources) [] [] ∅)
    as (H1 & H2 & H3 & H4 & H5);
    [ reflexivity | reflexivity
    | intros x Hx; by apply elem_of_nil in Hx
    | constructor
    | intros x Hx; by apply elem_of_nil in Hx
    | constructor | constructor
    | intros x Hx; by apply elem_of_nil in Hx | ].
  split; [done|]. split; [|split; [done|split; [done|]]].
  - intros x Hx. by apply (elem_of_sorted Normalization.effective_time), H2.
  - intros x Hx. by apply H5, elem_of_sorted.
Qed.

(** X3. In the clusters of any batch, every item after the first of a
    cluster is judged similar to the first, its anchor, and is not
    earlier than it; no cluster is empty, and the clusters come in the
    order of the times of their anchors. *)
Theorem X3_members_similar_to_earliest_anchor (sources : list RawSource) :
  Forall (Props.anchored (Spec.judged_similar urlparse_netloc config))
         (Normalization.cluster_sources urlparse_netloc config sources)
  ∧ StronglySorted (key_le Normalization.effective_time)
      (Props.anchors (Normalization.cluster_sources urlparse_netloc config sources)).
Proof.
  destruct (cluster_sources_invariant sources) as (_ & _ & H3 & H4 & _).
  split; [exact H3|exact H4].
Qed.

(** X4. For any batch, with repeated identifiers or not, the items of
    the clusters are items of the batch, no two of them have the same
    identifier, and every identifier of the batch is the identifier of
    one of them: of the items that share an identifier exactly one is
    kept, and the clusters hold as many items as the batch has
    identifiers. *)
Theorem X4_one_item_per_identifier (sources : list RawSource) :
  let clusters := Normalization.cluster_sources urlparse_netloc config sources in
  (∀ x, x ∈ concat clusters → x ∈ sources)
  ∧ NoDup (map source_id (concat clusters))
  ∧ Spec.ids (concat clusters) = Spec.ids sources
  ∧ length (concat clusters) = size (Spec.ids sources).
Proof.
  cbv zeta. destruct (cluster_sources_invariant sources) as (H1 & H2 & _ & _ & H5).
  assert (Spec.ids (concat (Normalization.cluster_sources urlparse_netloc config sources))
          = Spec.ids sources) as Hids.
  { apply set_eq. intros i. rewrite !elem_of_ids. split.
    - intros (x & Hx & Hid). exists x. split; [by apply H2|done].
    - intros (x & Hx & <-). apply elem_of_ids. by apply H5. }
  split; [done|]. split; [done|]. split; [done|].
  rewrite <- Hids. unfold Spec.ids.
  rewrite size_list_to_set by done. by rewrite length_map.
Qed.

End ClusteringAnyBatch.

Section TwoItems.

Variable urlparse_netloc : string → option string.
Variable config : Config.t.

(** X5. Two items with different identifiers whose effective timestamps
    are further apart than the time window, however alike their texts,
    give two clusters of one item each, the earlier item first. *)
Theorem X5_items_outside_window_stay_apart (x y : RawSource) :
  source_id x ≠ source_id y →
  (hours (Config.time_window_hours (Config.deduplication config))
   < Z.abs (Normalization.effective_time x - Normalization.effective_time y))%Z →
  Normalization.cluster_sources urlparse_netloc config [x; y]
  = if (Normalization.effective_time x <=? Normalization.effective_time y)%Z
    then [[x]; [y]] else [[y]; [x]].
Proof.
  intros Hid Hfar.
  assert (∀ a b, Z.abs (Normalization.effective_time a - Normalization.effective_time b)
                 = Z.abs (Normalization.effective_time x - Normalization.effective_time y) →
                 Normalization._are_similar urlparse_netloc config a b
                   (hours (Config.time_window_hours (Config.deduplication config)))
                 = false) as Hnot.
  { intros a b Hab. unfold Normalization._are_similar, abs_diff. rewrite Hab.
    by rewrite (proj2 (Z.ltb_lt _ _) Hfar). }
  unfold Normalization.cluster_sources. cbn [sorted insert_by].
  destruct (Normalization.effective_time x <=? Normalization.effective_time y)%Z.
  - cbn [Normalization.cluster_loop Normalization.find_similar].
    rewrite (bool_decide_eq_false_2 (source_id x ∈ ∅)) by set_solver.
    rewrite (bool_decide_eq_true_2 (source_id x ∈ ∅ ∪ {[source_id x]})) by set_solver.
    rewrite (bool_decide_eq_false_2 (source_id y ∈ ∅ ∪ {[source_id x]})) by set_solver.
    rewrite (Hnot x y) by done.
    cbn [Normalization.cluster_loop Normalization.find_similar].
    rewrite (bool_decide_eq_false_2 (source_id y ∈ ∅ ∪ {[source_id x]})) by set_solver.
    rewrite (bool_decide_eq_true_2 (source_id x ∈ _ ∪ {[source_id y]})) by set_solver.
    rewrite (bool_decide_eq_true_2 (source_id y ∈ _ ∪ {[source_id y]})) by set_solver.
    reflexivity.
  - cbn [Normalization.cluster_loop Normalization.find_similar].
    rewrite (bool_decide_eq_false_2 (source_id y ∈ ∅)) by set_solver.
    rewrite (bool_decide_eq_true_2 (source_id y ∈ ∅ ∪ {[source_id y]})) by set_solver.
    rewrite (bool_decide_eq_false_2 (source_id x ∈ ∅ ∪ {[source_id y]})) by set_solver.
    rewrite (Hnot y x) by lia.
    cbn [Normalization.cluster_loop Normalization.find_similar].
    rewrite (bool_decide_eq_false_2 (source_id x ∈ ∅ ∪ {[source_id y]})) by set_solver.
    rewrite (bool_decide_eq_true_2 (source_id y ∈ _ ∪ {[source_id x]})) by set_solver.
    rewrite (bool_decide_eq_true_2 (source_id x ∈ _ ∪ {[source_id x]})) by set_solver.
    reflexivity.
Qed.

End TwoItems.

(** X5 at the two items of the repository's time-window test, the same
    story two days apart. *)
Lemma X5_witness :
  source_id Examples.far1 ≠ source_id Examples.far2
  ∧ (hours (Config.time_window_hours (Config.deduplication Examples.config))
     < Z.abs (Normalization.effective_time Examples.far1
              - Normalization.effective_time Examples.far2))%Z
  ∧ Normalization.cluster_sources Examples.urlparse_netloc Examples.config
      [Examples.far1; Examples.far2]
    = if (Normalization.effective_time Examples.far1
          <=? Normalization.effective_time Examples.far2)%Z
      then [[Examples.far1]; [Examples.far2]] else [[Examples.far2]; [Examples.far1]].
Proof.
  assert (source_id Examples.far1 ≠ source_id Examples.far2) as H1
    by (vm_compute; discriminate).
  assert (hours (Config.time_window_hours (Config.deduplication Examples.config))
          < Z.abs (Normalization.effective_time Examples.far1
                   - Normalization.effective_time Examples.far2))%Z as H2
    by (vm_compute; reflexivity).
  split; [exact H1|]. split; [exact H2|].
  exact (X5_items_outside_window_stay_apart Examples.urlparse_netloc Examples.config
           Examples.far1 Examples.far2 H1 H2).
Defined.

(** Of two items with the same identifier one is dropped: here the
    later one, which is not admitted by the first and finds its
    identifier processed when its turn comes. *)
Example repeated_identifier_is_dropped :
  Normalization.cluster_sources Examples.urlparse_netloc Examples.config
    [Examples.item1; Examples.item1_again; Examples.item3]
  = [[Examples.item1]; [Examples.item3]].
Proof. vm_compute. reflexivity. Qed.

(** ** Confidence and the extracted event *)

Section ConfidenceProperties.

Local Open Scope Q_scope.

Lemma distinct_names_snoc (cluster : list RawSource) (x : RawSource) :
  (Spec.distinct_source_names cluster ≤ Spec.distinct_source_names (cluster ++ [x]))%nat.
Proof.
  unfold Spec.distinct_source_names. rewrite <- !size_set_of.
  apply subseteq_size. unfold set_of. rewrite map_app.
  intros i. rewrite !elem_of_list_to_set, elem_of_app. tauto.
Qed.

Lemma distinct_names_positive (anchor : RawSource) (rest : list RawSource) :
  (1 ≤ Spec.distinct_source_names (anchor :: rest))%nat.
Proof.
  unfold Spec.distinct_source_names. rewrite <- size_set_of.
  assert (size (set_of (map source_name (anchor :: rest))) ≠ 0)%nat; [|lia].
  apply size_non_empty_iff. intros Hempty.
  assert (source_name anchor ∈ set_of (map source_name (anchor :: rest))) as Hin.
  { unfold set_of. apply elem_of_list_to_set. by left. }
  rewrite Hempty in Hin. by apply not_elem_of_empty in Hin.
Qed.

Lemma cluster_confidence_of (anchor : RawSource) (rest : list RawSource) :
  Spec.cluster_confidence anchor rest
  = Props.confidence_of (tier anchor) (Spec.distinct_source_names (anchor :: rest))
      (bool_decide (Spec.all_tier_D (anchor :: rest))).
Proof.
  unfold Spec.cluster_confidence, Props.confidence_of.
  by destruct (decide (Spec.all_tier_D (anchor :: rest)));
    [rewrite bool_decide_eq_true_2|rewrite bool_decide_eq_false_2].
Qed.

Lemma confidence_of_range (t : SourceTier.t) (n : nat) (all_D : bool) :
  3 # 10 <= Props.confidence_of t n all_D ∧ Props.confidence_of t n all_D <= 1.
Proof.
  unfold Props.confidence_of, Spec.plus_capped.
  destruct t, all_D, (decide (2 ≤ n)%nat), (decide (3 ≤ n)%nat);
    split; vm_compute; congruence.
Qed.

Lemma confidence_of_all_D (n : nat) : Props.confidence_of SourceTier.D n true == 3 # 10.
Proof.
  unfold Props.confidence_of, Spec.plus_capped.
  destruct (decide (2 ≤ n)%nat), (decide (3 ≤ n)%nat); by vm_compute.
Qed.

Lemma confidence_of_mono (t : SourceTier.t) (n n' : nat) (d d' : bool) :
  (n ≤ n')%nat → (d' = true → d = true) → (d = true → t = SourceTier.D) →
  Props.confidence_of t n d <= Props.confidence_of t n' d'.
Proof.
  intros Hn Hd Ht. unfold Props.confidence_of, Spec.plus_capped.
  destruct d.
  - rewrite (Ht eq_refl).
    destruct d', (decide (2 ≤ n)%nat), (decide (3 ≤ n)%nat),
      (decide (2 ≤ n')%nat), (decide (3 ≤ n')%nat);
      try lia; vm_compute; congruence.
  - destruct d'; [by specialize (Hd eq_refl)|].
    destruct t, (decide (2 ≤ n)%nat), (decide (3 ≤ n)%nat),
      (decide (2 ≤ n')%nat), (decide (3 ≤ n')%nat);
      try lia; vm_compute; congruence.
Qed.

Lemma calculate_confidence_range (anchor : RawSource) (rest : list RawSource) :
  3 # 10 <= EventExtraction._calculate_confidence (anchor :: rest)
  ∧ EventExtraction._calculate_confidence (anchor :: rest) <= 1.
Proof. rewrite calculate_confidence_spec, cluster_confidence_of. apply confidence_of_range. Qed.

(** X6. The confidence of the empty cluster is 0; that of a non-empty
    cluster lies between 0.3 and 1.0, is 0.3 when every item is tier D,
    and is not lowered by appending one more item to the cluster. *)
Theorem X6_confidence_range_and_corroboration :
  EventExtraction._calculate_confidence [] = 0
  ∧ (∀ anchor rest,
       3 # 10 <= EventExtraction._calculate_confidence (anchor :: rest)
       ∧ EventExtraction._calculate_confidence (anchor :: rest) <= 1)
  ∧ (∀ anchor rest,
       Spec.all_tier_D (anchor :: rest) →
       EventExtraction._calculate_confidence (anchor :: rest) == 3 # 10)
  ∧ (∀ anchor rest x,
       EventExtraction._calculate_confidence (anchor :: rest)
       <= EventExtraction._calculate_confidence (anchor :: rest ++ [x])).
Proof.
  split; [reflexivity|]. split; [apply calculate_confidence_range|]. split.
  - intros anchor rest HD. rewrite calculate_confidence_spec, cluster_confidence_of.
    rewrite bool_decide_eq_true_2 by done.
    apply Forall_cons in HD as [-> _]. apply confidence_of_all_D.
  - intros anchor rest x. rewrite !calculate_confidence_spec, !cluster_confidence_of.
    apply confidence_of_mono.
    + apply (distinct_names_snoc (anchor :: rest) x).
    + intros HD%bool_decide_eq_true. apply bool_decide_eq_true.
      change (anchor :: rest ++ [x]) with ((anchor :: rest) ++ [x]) in HD.
      by apply Forall_app in HD as [HD _].
    + intros HD%bool_decide_eq_true. by apply Forall_cons in HD as [HD _].
Qed.

End ConfidenceProperties.

(** X6 at two unverified posts from different posters. *)
Lemma X6_witness :
  Spec.all_tier_D [Examples.rumour1; Examples.rumour2]
  ∧ (EventExtraction._calculate_confidence [Examples.rumour1; Examples.rumour2] == 3 # 10)%Q.
Proof.
  assert (Spec.all_tier_D [Examples.rumour1; Examples.rumour2]) as H
    by (repeat constructor).
  split; [exact H|].
  exact (proj1 (proj2 (proj2 X6_confidence_range_and_corroboration)) _ _ H).
Defined.

Section UpdateConfidence.

Local Open Scope Q_scope.

Lemma clamp_unit_range (c : Q) : 0 <= Qmax 0 (Qmin 1 c) ∧ Qmax 0 (Qmin 1 c) <= 1.
Proof.
  split; [apply Q.le_max_l|].
  apply Q.max_lub; [done|apply Q.le_min_l].
Qed.

Lemma clamp_unit_id (c : Q) : 0 <= c → c <= 1 → Qmax 0 (Qmin 1 c) == c.
Proof. intros H0 H1. rewrite Q.min_r by done. by rewrite Q.max_r. Qed.

Lemma label_of_confidence (now : datetime) (e : Event) (c : Q) :
  let e' := update_confidence now e c in
  (confidence_label e' = ConfidenceLevel.HIGH ↔ 7 # 10 <= confidence e')
  ∧ (confidence_label e' = ConfidenceLevel.MEDIUM
     ↔ 4 # 10 <= confidence e' ∧ confidence e' < 7 # 10)
  ∧ (confidence_label e' = ConfidenceLevel.LOW ↔ confidence e' < 4 # 10).
Proof.
  cbv zeta. cbn [update_confidence confidence confidence_label].
  set (c' := Qmax 0 (Qmin 1 c)).
  destruct (Qle_bool (7 # 10) c') eqn:H7; [|destruct (Qle_bool (4 # 10) c') eqn:H4].
  - apply Qle_bool_iff in H7. split; [done|]. split; split; try done.
    + intros [_ Hlt]. exfalso. by apply (Qlt_not_le _ _ Hlt).
    + intros Hlt. exfalso. apply (Qlt_not_le _ _ Hlt).
      eapply Qle_trans; [|exact H7]. by vm_compute.
  - apply Qle_bool_iff in H4.
    assert (c' < 7 # 10) as Hlt.
    { apply Qnot_le_lt. intros Hle. apply Qle_bool_iff in Hle. congruence. }
    split; [|split].
    + split; [done|]. intros Hle. exfalso. by apply (Qlt_not_le _ _ Hlt).
    + done.
    + split; [done|]. intros Hlow. exfalso. by apply (Qlt_not_le _ _ Hlow).
  - assert (c' < 4 # 10) as Hlt.
    { apply Qnot_le_lt. intros Hle. apply Qle_bool_iff in Hle. congruence. }
    split; [|split].
    + split; [done|]. intros Hle. exfalso. apply (Qlt_not_le _ _ Hlt).
      eapply Qle_trans; [|exact Hle]. by vm_compute.
    + split; [done|]. intros [Hle _]. exfalso. by apply (Qlt_not_le _ _ Hlt).
    + done.
Qed.

(** X7. Updating the confidence of an event stores the new value
    clamped to [0, 1] (the value itself when it lies there, 0 below and
    1 above), labels it High from 0.7, Medium from 0.4 and Low below,
    stamps the update time, and leaves every other field as it was. *)
Theorem X7_update_confidence_clamps_and_labels (now : datetime) (e : Event) (c : Q) :
  let e' := update_confidence now e c in
  (0 <= confidence e' ∧ confidence e' <= 1)
  ∧ (0 <= c → c <= 1 → confidence e' == c)
  ∧ (c <= 0 → confidence e' == 0)
  ∧ (1 <= c → confidence e' == 1)
  ∧ ((confidence_label e' = ConfidenceLevel.HIGH ↔ 7 # 10 <= confidence e')
     ∧ (confidence_label e' = ConfidenceLevel.MEDIUM
        ↔ 4 # 10 <= confidence e' ∧ confidence e' < 7 # 10)
     ∧ (confidence_label e' = ConfidenceLevel.LOW ↔ confidence e' < 4 # 10))
  ∧ updated_at e' = now
  ∧ (event_id e', event_type e', timestamp e', location e', summary e', location_geo e',
     entities e', sources e', impact_tags e', evidence_links e', created_at e')
    = (event_id e, event_type e, timestamp e, location e, summary e, location_geo e,
       entities e, sources e, impact_tags e, evidence_links e, created_at e).
Proof.
  cbv zeta. split; [apply clamp_unit_range|]. split; [apply clamp_unit_id|].
  split; [|split; [|split; [apply label_of_confidence|done]]].
  - intros Hc. cbn [update_confidence confidence].
    rewrite (Q.min_r 1 c) by (eapply Qle_trans; [exact Hc|by vm_compute]).
    by rewrite Q.max_l.
  - intros Hc. cbn [update_confidence confidence].
    rewrite (Q.min_l 1 c) by done. by rewrite Q.max_r.
Qed.

End UpdateConfidence.

(** X7 at the stored unrest event, with a confidence inside the range,
    one below it and one above it. *)
Lemma X7_witness :
  ((0 <= 8 # 10 ∧ 8 # 10 <= 1)
   ∧ confidence (update_confidence Examples.now Examples.unrest1 (8 # 10)) == 8 # 10)%Q
  ∧ ((-1 <= 0)
     ∧ confidence (update_confidence Examples.now Examples.unrest1 (-1)) == 0)%Q
  ∧ ((1 <= 2)
     ∧ confidence (update_confidence Examples.now Examples.unrest1 2) == 1)%Q.
Proof.
  assert (0 <= 8 # 10)%Q as H1 by (by vm_compute).
  assert (8 # 10 <= 1)%Q as H2 by (by vm_compute).
  assert (-1 <= 0)%Q as H3 by (by vm_compute).
  assert (1 <= 2)%Q as H4 by (by vm_compute).
  split; [split; [by split|]|split; [split; [exact H3|]|split; [exact H4|]]].
  - exact (proj1 (proj2 (X7_update_confidence_clamps_and_labels
                           Examples.now Examples.unrest1 (8 # 10))) H1 H2).
  - exact (proj1 (proj2 (proj2 (X7_update_confidence_clamps_and_labels
                                  Examples.now Examples.unrest1 (-1)))) H3).
  - exact (proj1 (proj2 (proj2 (proj2 (X7_update_confidence_clamps_and_labels
                                         Examples.now Examples.unrest1 2)))) H4).
Defined.

Section ExtractedEvent.

Local Open Scope Q_scope.

Variable sha256_hexdigest : string → string.
Variable isoformat : datetime → string.
Variable config : Config.t.

Lemma first_occurring_some (countries : list string) (text country : string) :
  Spec.first_occurring countries text = Some country →
  country ∈ countries ∧ Spec.name_occurs country text.
Proof.
  unfold Spec.first_occurring, Spec.name_occurs. intros [Hin Hc]%find_some.
  split; [by apply list_elem_of_In|done].
Qed.

(** X8. The event extracted from a cluster has the kind detected in the
    anchor, a non-empty monitored name that occurs in the anchor's text
    as its location, the anchor's effective time as its timestamp, the
    cluster's confidence, between 0.3 and 1.0, unchanged by the clamp,
    with the label that goes with it, one citation for each of the
    first [max_sources_per_cluster] items and one evidence link for
    every item. *)
Theorem X8_event_reflects_its_cluster (now : datetime) (anchor : RawSource)
    (rest : list RawSource) (event : Event) :
  EventExtraction.extract_events sha256_hexdigest isoformat config now (anchor :: rest)
  = inr [event] →
  EventExtraction._detect_event_type anchor = Some (event_type event)
  ∧ (location event ∈ Config.monitored_countries config
     ∧ location event ≠ EmptyString
     ∧ Spec.name_occurs (location event) (EventExtraction.combined_text anchor))
  ∧ timestamp event = Normalization.effective_time anchor
  ∧ (confidence event == EventExtraction._calculate_confidence (anchor :: rest)
     ∧ 3 # 10 <= confidence event ∧ confidence event <= 1)
  ∧ ((confidence_label event = ConfidenceLevel.HIGH ↔ 7 # 10 <= confidence event)
     ∧ (confidence_label event = ConfidenceLevel.MEDIUM
        ↔ 4 # 10 <= confidence event ∧ confidence event < 7 # 10)
     ∧ (confidence_label event = ConfidenceLevel.LOW ↔ confidence event < 4 # 10))
  ∧ sources event
    = map to_citation
        (take (Config.max_sources_per_cluster (Config.deduplication config)) (anchor :: rest))
  ∧ evidence_links event = map url (anchor :: rest).
Proof.
  unfold EventExtraction.extract_events.
  rewrite extract_location_first_occurring.
  destruct (EventExtraction._detect_event_type anchor) as [kind|]; [|done].
  destruct (Spec.first_occurring _ _) as [loc|] eqn:Hloc; [|done].
  destruct loc as [|ch loc]; [done|]. cbn [truthy negb].
  intros [= <-].
  destruct (calculate_confidence_range anchor rest) as [Hlow Hhigh].
  assert (0 <= EventExtraction._calculate_confidence (anchor :: rest)) as Hzero.
  { eapply Qle_trans; [|exact Hlow]. by vm_compute. }
  pose proof (clamp_unit_id _ Hzero Hhigh) as Hclamp.
  split; [done|]. split.
  { apply first_occurring_some in Hloc as [Hin Hocc]. by cbn [location update_confidence]. }
  split; [done|]. split.
  { cbn [confidence update_confidence]. rewrite Hclamp. done. }
  split; [apply label_of_confidence|]. done.
Qed.

End ExtractedEvent.

(** X8 at the two reports of an election. *)
Lemma X8_witness :
  ∃ event,
    EventExtraction.extract_events Examples.sha256_hexdigest Examples.isoformat
      Examples.config Examples.now [Examples.election1; Examples.election2]
    = inr [event]
    ∧ EventExtraction._detect_event_type Examples.election1 = Some (event_type event)
    ∧ timestamp event = Normalization.effective_time Examples.election1
    ∧ (confidence_label event = ConfidenceLevel.HIGH ↔ (7 # 10 <= confidence event)%Q).
Proof.
  eexists. 
  assert (EventExtraction.extract_events Examples.sha256_hexdigest Examples.isoformat
            Examples.config Examples.now [Examples.election1; Examples.election2]
          = inr [_]) as H by reflexivity.
  split; [exact H|].
  pose proof (X8_event_reflects_its_cluster Examples.sha256_hexdigest Examples.isoformat
                Examples.config Examples.now Examples.election1 [Examples.election2] _ H)
    as (H1 & _ & H3 & _ & (H5 & _) & _).
  split; [exact H1|]. split; [exact H3|exact H5].
Defined.

(** ** Summary, impact tags and location *)

Section SummaryAndTags.

Lemma length_take_prefix (n : nat) (s : string) : (String.length (take_prefix n s) ≤ n)%nat.
Proof.
  revert s. induction n as [|n IH]; intros s; [cbn; lia|].
  destruct s as [|c s]; cbn; [lia|]. specialize (IH s). lia.
Qed.

Lemma take_prefix_app (n : nat) (a b : string) :
  startswith (take_prefix n a) (take_prefix n (a +:+ b)) = true.
Proof.
  revert a. induction n as [|n IH]; intros a; [done|].
  destruct a as [|c a]; [by destruct b|].
  change (String c a +:+ b) with (String c (a +:+ b)). cbn [take_prefix startswith].
  rewrite Ascii.eqb_refl. apply IH.
Qed.

Lemma startswith_refl (s : string) : startswith s s = true.
Proof. induction s as [|c s IH]; [done|]. cbn. by rewrite Ascii.eqb_refl. Qed.

(** X9. The summary of an event is at most 500 characters long and
    begins with the first 500 characters of the anchor's title; it is
    exactly those when the body has no first sentence or its first
    sentence already occurs in the title, letters compared without
    case. *)
Theorem X9_summary_bounded_and_led_by_title (source : RawSource) (kind : EventType.t) :
  let summary := EventExtraction._build_summary source kind in
  let first_sentence := strip (before_dot (content source)) in
  (String.length summary ≤ 500)%nat
  ∧ startswith (take_prefix 500 (title source)) summary = true
  ∧ (first_sentence = EmptyString
     ∨ contains (lower first_sentence) (lower (title source)) = true →
     summary = take_prefix 500 (title source)).
Proof.
  cbv zeta. unfold EventExtraction._build_summary.
  split; [apply length_take_prefix|]. split.
  - destruct (truthy _); [|apply startswith_refl].
    destruct (negb _); [apply take_prefix_app|apply startswith_refl].
  - intros [->|Hin]; [done|].
    destruct (truthy _); [|done]. by rewrite Hin.
Qed.

(** X10. The impact tags of an event are pairwise distinct, each one of
    trade, economic, security and infrastructure; they include the tags
    of the event's kind and, for each of the three keyword groups with a
    word in the lower-cased body, the tag of the group. *)
Theorem X10_impact_tags_form_a_set (source : RawSource) (kind : EventType.t) :
  let tags := EventExtraction._extract_impact_tags source kind in
  let text := lower (content source) in
  NoDup tags
  ∧ (∀ tag, tag ∈ tags → tag ∈ Props.impact_tag_names)
  ∧ (∀ tag, tag ∈ dict_get EventExtraction.type_tags (EventType.value kind) [] →
       tag ∈ tags)
  ∧ (existsb (λ word, contains word text) ["trade"; "export"; "import"] = true →
     "trade" ∈ tags)
  ∧ (existsb (λ word, contains word text) ["security"; "military"; "defense"] = true →
     "security" ∈ tags)
  ∧ (existsb (λ word, contains word text) ["infrastructure"; "port"; "pipeline"] = true →
     "infrastructure" ∈ tags).
Proof.
  cbv zeta. unfold EventExtraction._extract_impact_tags, set_of.
  set (b1 := existsb _ ["trade"; "export"; "import"]).
  set (b2 := existsb _ ["security"; "military"; "defense"]).
  set (b3 := existsb _ ["infrastructure"; "port"; "pipeline"]).
  set (base := dict_get EventExtraction.type_tags (EventType.value kind) []).
  assert (∀ tag, tag ∈ base → tag ∈ Props.impact_tag_names) as Hbase.
  { intros tag. unfold base, Props.impact_tag_names.
    destruct kind; cbn; set_solver. }
  split; [apply NoDup_elements|].
  split; [|split; [|split; [|split]]].
  - intros tag. rewrite elem_of_elements, elem_of_list_to_set.
    unfold Props.impact_tag_names in *.
    destruct b1, b2, b3; rewrite ?elem_of_app, ?list_elem_of_singleton;
      intros Htag; decompose [or] Htag; subst; try (by apply Hbase);
      repeat first [apply list_elem_of_here | apply list_elem_of_further].
  - intros tag Htag. rewrite elem_of_elements, elem_of_list_to_set.
    destruct b1, b2, b3; rewrite ?elem_of_app; tauto.
  - intros ->. rewrite elem_of_elements, elem_of_list_to_set.
    destruct b2, b3; rewrite ?elem_of_app, ?list_elem_of_singleton; tauto.
  - intros ->. rewrite elem_of_elements, elem_of_list_to_set.
    destruct b1, b3; rewrite ?elem_of_app, ?list_elem_of_singleton; tauto.
  - intros ->. rewrite elem_of_elements, elem_of_list_to_set.
    destruct b1, b2; rewrite ?elem_of_app, ?list_elem_of_singleton; tauto.
Qed.

End SummaryAndTags.

Section Location.

Variable config : Config.t.

Lemma find_some_first {T} (f : T → bool) (l : list T) (x : T) :
  find f l = Some x
  ↔ ∃ before after, l = before ++ x :: after ∧ f x = true ∧ ∀ y, y ∈ before → f y = false.
Proof.
  induction l as [|z l IH]; cbn.
  - split; [done|]. intros (before & after & Heq & _). by destruct before.
  - destruct (f z) eqn:Hz.
    + split.
      * intros [= ->]. exists [], l. split; [done|]. split; [done|].
        intros y Hy. by apply elem_of_nil in Hy.
      * intros ([|y before] & after & Heq & Hx & Hbefore).
        -- by injection Heq as ->.
        -- injection Heq as <- _. specialize (Hbefore z (list_elem_of_here _ _)). congruence.
    + rewrite IH. split.
      * intros (before & after & -> & Hx & Hbefore). exists (z :: before), after.
        split; [done|]. split; [done|].
        intros y [->|Hy]%elem_of_cons; [done|by apply Hbefore].
      * intros ([|y before] & after & Heq & Hx & Hbefore).
        -- injection Heq as ->. congruence.
        -- injection Heq as _ ->. exists before, after. split; [done|]. split; [done|].
           intros u Hu. apply Hbefore. by right.
Qed.

(** X11. The location extracted from a source is the first monitored
    name, in the order of the configuration, whose lower-cased form
    occurs in the lower-cased title and body; there is none exactly
    when no monitored name occurs there. The second pass of the code,
    over the title alone, never finds a name the first has missed. *)
Theorem X11_location_is_first_monitored_name (source : RawSource) :
  let text := EventExtraction.combined_text source in
  (∀ country,
     EventExtraction._extract_location config source = Some country
     ↔ ∃ before after,
         Config.monitored_countries config = before ++ country :: after
         ∧ Spec.name_occurs country text
         ∧ ∀ other, other ∈ before → ¬ Spec.name_occurs other text)
  ∧ (EventExtraction._extract_location config source = None
     ↔ ∀ country, country ∈ Config.monitored_countries config →
         ¬ Spec.name_occurs country text)
  ∧ EventExtraction._extract_location config source
    = EventExtraction.first_country (Config.monitored_countries config) (lower text).
Proof.
  cbv zeta. rewrite extract_location_first_occurring. split; [|split].
  - intros country. unfold Spec.first_occurring, Spec.name_occurs.
    rewrite find_some_first. split.
    + intros (before & after & Heq & Hc & Hbefore). exists before, after.
      split; [done|]. split; [done|]. intros other Hother. rewrite (Hbefore other Hother).
      done.
    + intros (before & after & Heq & Hc & Hbefore). exists before, after.
      split; [done|]. split; [done|]. intros other Hother.
      by apply not_true_is_false, Hbefore.
  - apply first_occurring_none.
  - by rewrite first_country_find.
Qed.

End Location.

(** X9 at an item whose body begins with the words of its title. *)
Lemma X9_witness :
  (strip (before_dot (content Examples.far1_echo)) = EmptyString
   ∨ contains (lower (strip (before_dot (content Examples.far1_echo))))
       (lower (title Examples.far1_echo)) = true)
  ∧ EventExtraction._build_summary Examples.far1_echo EventType.ELECTION
    = take_prefix 500 (title Examples.far1_echo).
Proof.
  assert (strip (before_dot (content Examples.far1_echo)) = EmptyString
          ∨ contains (lower (strip (before_dot (content Examples.far1_echo))))
              (lower (title Examples.far1_echo)) = true) as H
    by (right; vm_compute; reflexivity).
  split; [exact H|].
  exact (proj2 (proj2 (X9_summary_bounded_and_led_by_title Examples.far1_echo
                         EventType.ELECTION)) H).
Defined.

(** X10 at an item whose body has the word "military". *)
Lemma X10_witness :
  existsb (λ word, contains word (lower (content Examples.port_item)))
          ["security"; "military"; "defense"] = true
  ∧ "security"
    ∈ EventExtraction._extract_impact_tags Examples.port_item
        EventType.INFRASTRUCTURE_DISRUPTION.
Proof.
  assert (existsb (λ word, contains word (lower (content Examples.port_item)))
                  ["security"; "military"; "defense"] = true) as H by reflexivity.
  split; [exact H|].
  exact (proj1 (proj2 (proj2 (proj2 (proj2
           (X10_impact_tags_form_a_set Examples.port_item
              EventType.INFRASTRUCTURE_DISRUPTION))))) H).
Defined.

(** X11 at an item that names no monitored country. *)
Lemma X11_witness :
  EventExtraction._extract_location Examples.config Examples.item3 = None
  ∧ ∀ country, country ∈ Config.monitored_countries Examples.config →
      ¬ Spec.name_occurs country (EventExtraction.combined_text Examples.item3).
Proof.
  assert (EventExtraction._extract_location Examples.config Examples.item3 = None) as H
    by reflexivity.
  split; [exact H|].
  exact (proj1 (proj1 (proj2 (X11_location_is_first_monitored_name Examples.config
                                Examples.item3))) H).
Defined.

(** ** Scores *)

Section ScoreProperties.

Local Open Scope Q_scope.

Variable isoformat : datetime → string.
Variable config : Config.t.

Let min_confidence : float := Config.min_confidence (Config.scoring config).

Lemma dict_find_elem {V} (d : list (string * V)) (k : string) (v : V) :
  dict_find d k = Some v → (k, v) ∈ d.
Proof.
  induction d as [|[k' v'] d IH]; cbn; [done|].
  destruct (String.eqb_spec k' k) as [->|_].
  - intros [= ->]. left.
  - intros H. right. by apply IH.
Qed.

Lemma configured_weight_nonneg (d : string) :
  Forall (λ kv : string * float, 0 <= kv.2) (Config.weights (Config.scoring config)) →
  0 <= Spec.configured_weight config d.
Proof.
  intros Hall. unfold Spec.configured_weight.
  destruct (dict_find _ d) as [w|] eqn:Hfind; cbn; [|done].
  apply dict_find_elem in Hfind. rewrite Forall_forall in Hall. apply (Hall _ Hfind).
Qed.

Lemma weighted_sum_bounds (lo hi : Q) (sub_scores : list SubScore) :
  (∀ d, 0 <= Spec.configured_weight config d) →
  Forall (λ s, lo <= value s ∧ value s <= hi) sub_scores →
  let total := Spec.Qsum (map (λ s, value s * Spec.configured_weight config (name s)) sub_scores) in
  let total_weight := Spec.weight_sum config sub_scores in
  0 <= total_weight ∧ lo * total_weight <= total ∧ total <= hi * total_weight.
Proof.
  intros Hw Hall. cbv zeta. unfold Spec.weight_sum.
  induction Hall as [|s l [Hlo Hhi] _ IH]; cbn [map].
  - unfold Spec.Qsum. cbn. lra.
  - rewrite !Qsum_cons. destruct IH as (IH0 & IH1 & IH2).
    specialize (Hw (name s)).
    set (w := Spec.configured_weight config (name s)) in *.
    set (v := value s) in *.
    assert (lo * w <= v * w) by (apply Qmult_le_compat_r; done).
    assert (v * w <= hi * w) by (apply Qmult_le_compat_r; done).
    lra.
Qed.

Lemma overall_bounds (lo hi : Q) (sub_scores : list SubScore) :
  lo <= 70 → 70 <= hi →
  (∀ d, 0 <= Spec.configured_weight config d) →
  Forall (λ s, lo <= value s ∧ value s <= hi) sub_scores →
  lo <= Spec.overall config sub_scores ∧ Spec.overall config sub_scores <= hi.
Proof.
  intros Hlo Hhi Hw Hall. unfold Spec.overall.
  destruct (weighted_sum_bounds lo hi sub_scores Hw Hall) as (H0 & H1 & H2).
  destruct (Qeq_dec _ 0) as [|Hne]; [done|].
  assert (0 < Spec.weight_sum config sub_scores) as Hpos.
  { apply Qle_lteq in H0 as [H0|H0]; [done|]. by symmetry in H0. }
  split.
  - apply Qle_shift_div_l; done.
  - apply Qle_shift_div_r; done.
Qed.

Lemma sub_score_value_range now tgt events d db :
  let s := (Scoring.sub_score_for config now tgt events d db).1 in
  0 <= value s ∧ value s <= 100.
Proof.
  cbv zeta. rewrite sub_score_for_value. unfold Spec.dimension_value, Spec.clamp. split.
  - apply Q.le_max_l.
  - apply Q.max_lub; [done|apply Q.le_min_l].
Qed.


(** X12. In every assessment each sub-score lies between 0 and 100;
    where no configured dimension weight is negative, the overall score
    does as well. *)
Theorem X12_scores_lie_between_0_and_100 (now : datetime) (tgt : string)
    (events : option (list Event)) (db : Storage.t) :
  let a := (Scoring.calculate_assessment isoformat config now tgt events db).1 in
  Forall (λ s, 0 <= value s ∧ value s <= 100) (sub_scores a)
  ∧ (Forall (λ kv : string * float, 0 <= kv.2) (Config.weights (Config.scoring config)) →
     0 <= overall_score a ∧ overall_score a <= 100).
Proof.
  cbv zeta. rewrite calculate_assessment_run. cbn [fst sub_scores overall_score].
  set (valid := Spec.qualifying_events config db tgt events).
  assert (Forall (λ s, 0 <= value s ∧ value s <= 100)
            (Scoring._calculate_sub_scores config now tgt valid db).1) as Hrange.
  { rewrite calculate_sub_scores_run. apply Forall_fmap, Forall_forall.
    intros d _. apply sub_score_value_range. }
  split; [done|]. intros Hweights. rewrite calculate_overall_score_spec.
  apply overall_bounds; [done|done| |done].
  intros d. by apply configured_weight_nonneg.
Qed.



Lemma filter_twice {T} (P : T → Prop) `{!∀ x, Decision (P x)} (l : list T) :
  filter P (filter P l) = filter P l.
Proof.
  induction l as [|x l IH]; [done|].
  rewrite filter_cons. destruct (decide (P x)); [|done].
  by rewrite filter_cons_True, IH.
Qed.


(** X14. An assessment depends on the qualifying events only: it is
    the one of the events that reach the configured minimum confidence,
    and an event below the minimum can be added anywhere without
    changing the assessment or the database. *)
Theorem X14_events_below_minimum_confidence_are_ignored (now : datetime) (tgt : string)
    (db : Storage.t) :
  (∀ es,
     Scoring.calculate_assessment isoformat config now tgt (Some es) db
     = Scoring.calculate_assessment isoformat config now tgt
         (Some (filter (λ e, Qle_bool (Config.min_confidence (Config.scoring config))
                               (confidence e) = true) es)) db)
  ∧ (∀ before e after,
       confidence e < Config.min_confidence (Config.scoring config) →
       Scoring.calculate_assessment isoformat config now tgt (Some (before ++ e :: after)) db
       = Scoring.calculate_assessment isoformat config now tgt (Some (before ++ after)) db).
Proof.
  split.
  - intros es. rewrite !calculate_assessment_run. unfold Spec.qualifying_events.
    by rewrite filter_twice.
  - intros before e after Hlow. rewrite !calculate_assessment_run.
    unfold Spec.qualifying_events. rewrite !filter_app, filter_cons_False; [done|].
    rewrite Qle_bool_iff. by apply Qlt_not_le.
Qed.

(** *** Drivers *)

Lemma tuple_ltb_true (a b : float * string) : Scoring.tuple_ltb a b = true → a.1 <= b.1.
Proof.
  unfold Scoring.tuple_ltb. intros H. apply Qle_alt. by destruct (a.1 ?= b.1).
Qed.

Lemma tuple_ltb_false (a b : float * string) : Scoring.tuple_ltb a b = false → b.1 <= a.1.
Proof.
  unfold Scoring.tuple_ltb. intros H. apply Qge_alt. by destruct (a.1 ?= b.1).
Qed.

Lemma insert_desc_ranked (f : Event → Q * string) (e : Event) (ranked : list Event) :
  Props.ranked_by (λ e, (f e).1) ranked →
  ∃ ranked',
    ranked' ≡ₚ e :: ranked
    ∧ Props.ranked_by (λ e, (f e).1) ranked'
    ∧ Scoring.insert_desc (f e) (map f ranked) = map f ranked'.
Proof.
  unfold Props.ranked_by. induction 1 as [|y r Hr IH Hy].
  - exists [e]. split; [done|]. split; [|done]. repeat constructor.
  - cbn [map Scoring.insert_desc]. destruct (Scoring.tuple_ltb (f e) (f y)) eqn:Hlt.
    + destruct IH as (r' & Hperm & Hsorted & Heq). exists (y :: r').
      split; [by rewrite Hperm; apply Permutation_swap|]. split; [|by rewrite Heq].
      constructor; [done|]. rewrite Forall_forall. intros z Hz.
      rewrite Hperm in Hz. apply elem_of_cons in Hz as [->|Hz].
      * by apply tuple_ltb_true.
      * rewrite Forall_forall in Hy. by apply Hy.
    + exists (e :: y :: r). split; [done|]. split; [|done].
      apply tuple_ltb_false in Hlt. constructor; [by constructor|].
      constructor; [done|]. eapply Forall_impl; [exact Hy|].
      intros z Hz. cbn in Hz. by apply (Qle_trans _ (f y).1).
Qed.

Lemma sort_reverse_ranked (f : Event → Q * string) (l : list Event) :
  ∃ ranked,
    ranked ≡ₚ l
    ∧ Props.ranked_by (λ e, (f e).1) ranked
    ∧ Scoring.sort_reverse (map f l) = map f ranked.
Proof.
  induction l as [|e l (r & Hperm & Hsorted & Heq)].
  - exists []. split; [done|]. split; [constructor|done].
  - cbn [map Scoring.sort_reverse]. rewrite Heq.
    destruct (insert_desc_ranked f e r Hsorted) as (r' & Hperm' & Hsorted' & Heq').
    exists r'. split; [by rewrite Hperm', Hperm|]. done.
Qed.

(** X15. The top drivers are the identifiers of the first [limit]
    events of a ranking of the given events by non-increasing severity
    times confidence. The drivers of a dimension are those of a ranking,
    by severity times weight times confidence, of the events whose kind
    has a weight other than zero on the dimension. *)
Theorem X15_drivers_are_the_highest_ranked_events (events : list Event) (limit : nat) :
  (∃ ranked,
     ranked ≡ₚ events
     ∧ Props.ranked_by (λ e, Scoring.severity_of config e * confidence e) ranked
     ∧ Scoring._get_top_drivers config events limit = map event_id (take limit ranked))
  ∧ (∀ d, ∃ ranked,
       ranked
       ≡ₚ filter (λ e, Qeq_bool (Scoring.dimension_weight_of config e d) 0 = false) events
       ∧ Props.ranked_by
           (λ e, Scoring.severity_of config e * Scoring.dimension_weight_of config e d
                 * confidence e) ranked
       ∧ Scoring._get_dimension_drivers config d events limit
         = map event_id (take limit ranked)).
Proof.
  split; [|intros d].
  - unfold Scoring._get_top_drivers. cbv zeta.
    destruct (sort_reverse_ranked
                (λ e, (Scoring.severity_of config e * confidence e, event_id e)) events)
      as (ranked & Hperm & Hsorted & ->).
    exists ranked. split; [done|]. split; [done|].
    by rewrite <- fmap_take, <- list_fmap_compose.
  - unfold Scoring._get_dimension_drivers. cbv zeta.
    destruct (sort_reverse_ranked
                (λ e, (Scoring.severity_of config e * Scoring.dimension_weight_of config e d
                       * confidence e, event_id e))
                (filter (λ e, Qeq_bool (Scoring.dimension_weight_of config e d) 0 = false)
                        events))
      as (ranked & Hperm & Hsorted & ->).
    exists ranked. split; [done|]. split; [done|].
    by rewrite <- fmap_take, <- list_fmap_compose.
Qed.

(** *** Confidence of an assessment *)





(** *** Events only lower a sub-score *)

Lemma dimension_impact_app (d : string) (events more : list Event) :
  Spec.dimension_impact config d (events ++ more)
  == Spec.dimension_impact config d events + Spec.dimension_impact config d more.
Proof.
  unfold Spec.dimension_impact. induction events as [|e l IH]; cbn [app map].
  - unfold Spec.Qsum at 2. cbn. ring.
  - rewrite !Qsum_cons, IH. ring.
Qed.

Lemma dimension_impact_nonneg (d : string) (events : list Event) :
  Forall (Props.nonnegative_impact config d) events →
  0 <= Spec.dimension_impact config d events.
Proof.
  unfold Spec.dimension_impact. induction 1 as [|e l (Hs & Hw & Hc) _ IH]; cbn [map].
  - unfold Spec.Qsum. cbn. lra.
  - rewrite Qsum_cons. rewrite severity_of_spec in Hs. rewrite dimension_weight_of_spec in Hw.
    assert (0 <= Spec.severity_base config (event_type e)
                 * Spec.dimension_weight config (event_type e) d * confidence e * 20).
    { repeat apply Qmult_le_0_compat; done. }
    lra.
Qed.

(** X17. Events whose severity, weight on the dimension and confidence
    are not negative never raise a sub-score: the value computed from
    further such events is at most the one computed without them, and
    the value computed from such events alone is at most the baseline
    of 70. *)
Theorem X17_events_only_lower_a_sub_score (now : datetime) (tgt d : string)
    (events more : list Event) (db : Storage.t) :
  Forall (Props.nonnegative_impact config d) more →
  value (Scoring.sub_score_for config now tgt (events ++ more) d db).1
  <= value (Scoring.sub_score_for config now tgt events d db).1
  ∧ value (Scoring.sub_score_for config now tgt more d db).1 <= 70.
Proof.
  intros Hmore. rewrite !sub_score_for_value.
  unfold Spec.dimension_value, Spec.clamp.
  pose proof (dimension_impact_nonneg d more Hmore) as Hpos.
  split.
  - rewrite dimension_impact_app.
    apply Q.max_le_compat_l, Q.min_le_compat_l. lra.
  - apply Q.max_lub; [done|].
    apply (Qle_trans _ (70 - Spec.dimension_impact config d more)); [apply Q.le_min_r|lra].
Qed.

(** *** Scoring the same events again *)

Lemma sub_score_for_value_eq now tgt events d db :
  value (Scoring.sub_score_for config now tgt events d db).1
  = Qmax 0 (Qmin 100 (70 - Scoring._calculate_dimension_impact config d events)).
Proof.
  unfold Scoring.sub_score_for.
  rewrite bind_read_only by apply read_only_sub_score_deltas. done.
Qed.

Lemma overall_loop_ext (l1 l2 : list SubScore) (t w : Q) :
  map name l1 = map name l2 → map value l1 = map value l2 →
  Scoring.overall_loop config l1 t w = Scoring.overall_loop config l2 t w.
Proof.
  revert l2 t w. induction l1 as [|s1 l1 IH]; intros [|s2 l2] t w Hn Hv; try done.
  cbn [map] in Hn, Hv. injection Hn as Hn1 Hn. injection Hv as Hv1 Hv.
  cbn [Scoring.overall_loop]. rewrite Hn1, Hv1. by apply IH.
Qed.

(** The names and the values of the sub-scores depend on the events
    alone. *)
Lemma sub_scores_names_values now now' tgt tgt' events db db' :
  let l := (Scoring._calculate_sub_scores config now tgt events db).1 in
  let l' := (Scoring._calculate_sub_scores config now' tgt' events db').1 in
  map name l = map name l' ∧ map value l = map value l'.
Proof.
  cbv zeta. rewrite !calculate_sub_scores_run, !map_map. split.
  - apply map_ext. intros d. by rewrite !sub_score_for_name.
  - apply map_ext. intros d. by rewrite !sub_score_for_value_eq.
Qed.

Lemma history_after_first_snapshot (a : Assessment) (db : Storage.t) (now : datetime) :
  Forall (λ row, Storage.row_target row ≠ target a) (Storage.historical_assessments db) →
  let history :=
    (Storage.get_historical_assessments now (target a) 90 (Storage.save_assessment a db).2).1 in
  history = [] ∨ history = [Storage.assessment_of_row (Storage.historical_row a)].
Proof.
  intros Hfresh. cbv zeta.
  unfold Storage.get_historical_assessments, Storage.save_assessment, Storage.query,
    Storage.execute.
  cbn [fst snd Storage.historical_assessments]. rewrite filter_app.
  assert (filter (λ row, Storage.row_target row = target a
                         ∧ (now - days 90 ≤ Storage.row_generated_at row)%Z)
                 (Storage.historical_assessments db) = []) as ->.
  { induction Hfresh as [|row l Hrow _ IH]; [done|].
    rewrite filter_cons_False; [done|]. by intros [? _]. }
  cbn [app]. rewrite filter_cons, filter_nil.
  destruct (decide _); [by right|by left].
Qed.

(** X18. When the scoring step of the pipeline has run on a database
    without snapshots of a country and runs again on the same events,
    at whatever time, the second assessment has the overall score of
    the first, and all its deltas, overall and per sub-score, are
    zero. *)
Theorem X18_scoring_the_same_events_again_reports_no_change (t0 t1 : datetime)
    (all_events : list Event) (country : string) (db : Storage.t) :
  Forall (λ row, Storage.row_target row ≠ country) (Storage.historical_assessments db) →
  let first := Pipeline.score_country isoformat config t0 all_events country db in
  let a := (Pipeline.score_country isoformat config t1 all_events country first.2).1 in
  overall_score a = overall_score first.1
  ∧ (delta_7d a == 0 ∧ delta_30d a == 0 ∧ delta_90d a == 0)
  ∧ Forall (λ s, sub_delta_7d s == 0 ∧ sub_delta_30d s == 0 ∧ sub_delta_90d s == 0)
           (sub_scores a).
Proof.
  intros Hfresh. cbv zeta. rewrite !score_country_run. cbn [fst snd].
  set (country_events :=
         filter (λ e, contains (lower country) (lower (location e)) = true) all_events).
  set (a0 := (Scoring.calculate_assessment isoformat config t0 country
                (Some country_events) db).1).
  set (db1 := (Storage.save_assessment a0 db).2).
  assert (target a0 = country) as Htarget by apply calculate_assessment_target.
  pose proof (history_after_first_snapshot a0 db t1) as Hhistory.
  rewrite Htarget in Hhistory. specialize (Hhistory Hfresh). cbv zeta in Hhistory.
  fold db1 in Hhistory.
  set (valid := filter (λ e, Qle_bool (Config.min_confidence (Config.scoring config))
                               (confidence e) = true) country_events).
  assert (sub_scores a0 = (Scoring._calculate_sub_scores config t0 country valid db).1)
    as Hsubs0 by (unfold a0; by rewrite calculate_assessment_run).
  assert (overall_score a0
          = Scoring._calculate_overall_score config
              (Scoring._calculate_sub_scores config t0 country valid db).1)
    as Hoverall0 by (unfold a0; by rewrite calculate_assessment_run).
  rewrite calculate_assessment_run.
  cbn [overall_score delta_7d delta_30d delta_90d sub_scores fst].
  change (Spec.qualifying_events config db1 country (Some country_events)) with valid.
  set (subs1 := (Scoring._calculate_sub_scores config t1 country valid db1).1).
  assert (Scoring._calculate_overall_score config subs1 = overall_score a0) as Hsame.
  { rewrite Hoverall0. unfold Scoring._calculate_overall_score, subs1.
    destruct (sub_scores_names_values t1 t0 country country valid db1 db) as [Hn Hv].
    by rewrite (overall_loop_ext _ _ 0 0 Hn Hv). }
  split; [done|]. split.
  - rewrite calculate_deltas_run. cbv zeta.
    destruct Hhistory as [->| ->]; [done|].
    unfold Scoring.find_closest_score. cbn [Scoring.closest_loop Scoring.d7 Scoring.d30
      Scoring.d90 overall_score Storage.assessment_of_row Storage.historical_row
      Storage.row_overall_score].
    rewrite Hsame. repeat split; ring.
  - unfold subs1. rewrite calculate_sub_scores_run. apply Forall_fmap, Forall_forall.
    intros d _. cbn [compose].
    destruct (sub_score_for_deltas config t1 country valid d db1) as (-> & -> & ->).
    rewrite calculate_sub_score_deltas_run. cbv zeta.
    destruct Hhistory as [->| ->]; [done|].
    unfold Scoring.find_closest_sub_score. cbn [Scoring.closest_loop Scoring.d7 Scoring.d30
      Scoring.d90].
    set (v := value _).
    assert (default v (value <$> get_sub_score
                         (Storage.assessment_of_row (Storage.historical_row a0)) d) = v)
      as Hv.
    { unfold get_sub_score.
      cbn [sub_scores Storage.assessment_of_row Storage.historical_row
           Storage.row_sub_scores].
      destruct (find _ _) as [s|] eqn:Hfind; [|done]. cbn.
      apply find_some in Hfind as [Hin Hname].
      apply String.eqb_eq in Hname. rewrite Hsubs0, calculate_sub_scores_run in Hin.
      apply list_elem_of_In, list_elem_of_fmap in Hin as (d' & -> & _).
      rewrite sub_score_for_name in Hname. subst d'.
      unfold v. by rewrite !sub_score_for_value_eq. }
    destruct (get_sub_score _ d) as [s|]; cbn in Hv; rewrite ?Hv; repeat split; ring.
Qed.

End ScoreProperties.

(** *** The properties at the events of the repository's scoring test *)

(** X12 at the example configuration, whose weights are 0.3, 0.4 and 0.3. *)
Lemma X12_witness :
  Forall (λ kv : string * float, (0 <= kv.2)%Q)
         (Config.weights (Config.scoring Examples.config))
  ∧ let a := (Scoring.calculate_assessment Examples.isoformat Examples.config Examples.now
                "Test Country" (Some [Examples.conflict_event (9 # 10)]) Storage.empty).1 in
    (0 <= overall_score a)%Q ∧ (overall_score a <= 100)%Q.
Proof.
  assert (Forall (λ kv : string * float, (0 <= kv.2)%Q)
                 (Config.weights (Config.scoring Examples.config))) as H
    by (repeat constructor; by vm_compute).
  split; [exact H|].
  exact (proj2 (X12_scores_lie_between_0_and_100 Examples.isoformat Examples.config
                  Examples.now "Test Country" (Some [Examples.conflict_event (9 # 10)])
                  Storage.empty) H).
Defined.


(** X14: an event of confidence 0.3 before one of confidence 0.9. *)
Lemma X14_witness :
  (confidence (Examples.conflict_event (3 # 10))
   < Config.min_confidence (Config.scoring Examples.config))%Q
  ∧ Scoring.calculate_assessment Examples.isoformat Examples.config Examples.now
      "Test Country"
      (Some ([] ++ Examples.conflict_event (3 # 10) :: [Examples.conflict_event (9 # 10)]))
      Storage.empty
    = Scoring.calculate_assessment Examples.isoformat Examples.config Examples.now
        "Test Country" (Some ([] ++ [Examples.conflict_event (9 # 10)])) Storage.empty.
Proof.
  assert ((confidence (Examples.conflict_event (3 # 10))
           < Config.min_confidence (Config.scoring Examples.config))%Q) as H
    by (by vm_compute).
  split; [exact H|].
  exact (proj2 (X14_events_below_minimum_confidence_are_ignored Examples.isoformat
                  Examples.config Examples.now "Test Country" Storage.empty)
               [] (Examples.conflict_event (3 # 10)) [Examples.conflict_event (9 # 10)] H).
Defined.


(** X17: the armed conflict of the scoring test lowers the security
    sub-score. *)
Lemma X17_witness :
  Forall (Props.nonnegative_impact Examples.config "security")
         [Examples.conflict_event (9 # 10)]
  ∧ (value (Scoring.sub_score_for Examples.config Examples.now "Test Country"
              ([] ++ [Examples.conflict_event (9 # 10)]) "security" Storage.empty).1
     <= value (Scoring.sub_score_for Examples.config Examples.now "Test Country"
                 [] "security" Storage.empty).1)%Q.
Proof.
  assert (Forall (Props.nonnegative_impact Examples.config "security")
                 [Examples.conflict_event (9 # 10)]) as H
    by (repeat constructor; by vm_compute).
  split; [exact H|].
  exact (proj1 (X17_events_only_lower_a_sub_score Examples.config Examples.now
                  "Test Country" "security" [] [Examples.conflict_event (9 # 10)]
                  Storage.empty H)).
Defined.

(** X18 on the empty database, the second run a day after the first. *)
Lemma X18_witness :
  Forall (λ row, Storage.row_target row ≠ "Test Country")
         (Storage.historical_assessments Storage.empty)
  ∧ let first := Pipeline.score_country Examples.isoformat Examples.config Examples.now
                   [Examples.conflict_event (9 # 10)] "Test Country" Storage.empty in
    let a := (Pipeline.score_country Examples.isoformat Examples.config
                (Examples.now + days 1)%Z [Examples.conflict_event (9 # 10)]
                "Test Country" first.2).1 in
    (delta_7d a == 0 ∧ delta_30d a == 0 ∧ delta_90d a == 0)%Q.
Proof.
  assert (Forall (λ row, Storage.row_target row ≠ "Test Country")
                 (Storage.historical_assessments Storage.empty)) as H
    by constructor.
  split; [exact H|].
  exact (proj1 (proj2 (X18_scoring_the_same_events_again_reports_no_change
                         Examples.isoformat Examples.config Examples.now
                         (Examples.now + days 1)%Z [Examples.conflict_event (9 # 10)]
                         "Test Country" Storage.empty H))).
Defined.

(** ** The database *)

Section StorageProperties.

Lemma head_sorted_least {T} (key : T → Z) (l : list T) (x : T) :
  head (sorted key l) = Some x → x ∈ l ∧ ∀ y, y ∈ l → (key x ≤ key y)%Z.
Proof.
  intros Hhead. pose proof (sorted_sorted key l) as Hsorted.
  pose proof (sorted_perm key l) as Hperm.
  destruct (sorted key l) as [|x' l'] eqn:Heq; [done|]. injection Hhead as ->.
  split; [rewrite <- Hperm; left|].
  intros y Hy. rewrite <- Hperm in Hy. apply StronglySorted_inv in Hsorted as [_ Hall].
  apply elem_of_cons in Hy as [->|Hy]; [unfold key_le; lia|].
  rewrite Forall_forall in Hall. by apply Hall.
Qed.

Lemma head_sorted_none {T} (key : T → Z) (l : list T) : head (sorted key l) = None ↔ l = [].
Proof.
  split; [|by intros ->].
  intros Hhead. apply (sorted_nil_inv key). by destruct (sorted key l).
Qed.



Lemma filter_other_ids (id : string) (event : Event) (l : list Event) :
  id ≠ event_id event →
  filter (λ e, event_id e = id) (filter (λ e, event_id e ≠ event_id event) l)
  = filter (λ e, event_id e = id) l.
Proof.
  intros Hne. induction l as [|e l IH]; [done|].
  rewrite !filter_cons. destruct (decide (event_id e ≠ event_id event)) as [Hid|Hid].
  - rewrite filter_cons. by rewrite IH.
  - apply dec_stable in Hid. rewrite decide_False by congruence. done.
Qed.

Lemma filter_same_id_removed (event : Event) (l : list Event) :
  filter (λ e, event_id e = event_id event) (filter (λ e, event_id e ≠ event_id event) l) = [].
Proof.
  induction l as [|e l IH]; [done|].
  rewrite filter_cons. destruct (decide (event_id e ≠ event_id event)) as [Hid|Hid]; [|done].
  by rewrite filter_cons_False.
Qed.

Lemma get_event_save_same (event : Event) (db : Storage.t) :
  (Storage.get_event (event_id event) (Storage.save_event event db).2).1 = Some event.
Proof.
  unfold Storage.save_event, Storage.get_event, Storage.execute, Storage.query.
  cbn [fst snd Storage.events].
  rewrite filter_app, filter_same_id_removed. cbn [app]. by rewrite filter_cons_True.
Qed.

Lemma get_event_save_other (id : string) (event : Event) (db : Storage.t) :
  id ≠ event_id event →
  (Storage.get_event id (Storage.save_event event db).2).1 = (Storage.get_event id db).1.
Proof.
  intros Hne.
  unfold Storage.save_event, Storage.get_event, Storage.execute, Storage.query.
  cbn [fst snd Storage.events].
  rewrite filter_app, (filter_other_ids id event) by done.
  rewrite filter_cons_False by congruence. by rewrite app_nil_r.
Qed.

(** X19. An event that has been saved is the one found under its
    identifier, whatever was stored under that identifier before;
    lookups of other identifiers are not affected; identifiers that
    were unique remain so; saving the event again changes nothing; and
    the assessments and snapshots are not touched. *)
Theorem X19_saved_event_is_found_by_its_identifier (event : Event) (db : Storage.t) :
  let db' := (Storage.save_event event db).2 in
  (Storage.get_event (event_id event) db').1 = Some event
  ∧ (∀ id, id ≠ event_id event →
       (Storage.get_event id db').1 = (Storage.get_event id db).1)
  ∧ (NoDup (map event_id (Storage.events db)) →
     NoDup (map event_id (Storage.events db')))
  ∧ (Storage.save_event event db').2 = db'
  ∧ Storage.assessments db' = Storage.assessments db
  ∧ Storage.historical_assessments db' = Storage.historical_assessments db.
Proof.
  cbv zeta. split; [apply get_event_save_same|].
  split; [intros id Hne; by apply get_event_save_other|].
  unfold Storage.save_event, Storage.execute.
  cbn [fst snd Storage.events Storage.assessments Storage.historical_assessments].
  split; [|split].
  - intros Hnodup. rewrite map_app. apply NoDup_app. split; [|split].
    + induction (Storage.events db) as [|e l IH]; [constructor|].
      cbn [map] in Hnodup. apply NoDup_cons in Hnodup as [Hnotin Hnodup].
      rewrite filter_cons. destruct (decide _); [|by apply IH].
      cbn [map]. apply NoDup_cons. split; [|by apply IH].
      intros Hin. apply Hnotin. apply list_elem_of_fmap in Hin as (e' & Heq & Hin).
      apply (list_elem_of_filter (λ e, event_id e ≠ event_id event)) in Hin as [_ Hin].
      apply list_elem_of_fmap. by exists e'.
    + intros id Hin Hin'. apply list_elem_of_fmap in Hin as (e' & -> & Hin).
      apply (list_elem_of_filter (λ e, event_id e ≠ event_id event)) in Hin as [Hne _].
      cbn in Hin'. apply list_elem_of_singleton in Hin'. done.
    + cbn. apply NoDup_singleton.
  - f_equal. rewrite filter_app, filter_cons_False, app_nil_r by (by intros []).
    f_equal. apply filter_twice.
  - done.
Qed.

Lemma get_assessment_after_save (a : Assessment) (db : Storage.t) :
  (∀ b, b ∈ Storage.assessments db → target b = target a →
     assessment_id b ≠ assessment_id a → (generated_at b < generated_at a)%Z) →
  (Storage.get_assessment (target a) (Storage.save_assessment a db).2).1 = Some a.
Proof.
  intros Hnewer.
  unfold Storage.get_assessment, Storage.save_assessment, Storage.query, Storage.execute.
  cbn [fst snd Storage.assessments].
  set (stored := filter (λ b, target b = target a)
                   (filter (λ b, assessment_id b ≠ assessment_id a) (Storage.assessments db)
                    ++ [a])).
  assert (a ∈ stored) as Ha.
  { apply (list_elem_of_filter (λ b, target b = target a)). split; [done|].
    apply elem_of_app. right. left. }
  destruct (head (sorted _ stored)) as [b|] eqn:Hhead.
  - apply head_sorted_least in Hhead as [Hin Hleast].
    specialize (Hleast a Ha). cbv beta in Hleast.
    apply (list_elem_of_filter (λ b, target b = target a)) in Hin as [Htgt Hin].
    apply elem_of_app in Hin as [Hin|Hin].
    + apply (list_elem_of_filter (λ b, assessment_id b ≠ assessment_id a)) in Hin
        as [Hid Hin].
      specialize (Hnewer b Hin Htgt Hid). lia.
    + apply list_elem_of_singleton in Hin. by subst.
  - apply head_sorted_none in Hhead. rewrite Hhead in Ha. by apply elem_of_nil in Ha.
Qed.

(** X20. The latest assessment of a target is one of its stored
    assessments and none of them was generated later; there is none
    exactly when no assessment of the target is stored. After an
    assessment has been saved that is newer than the stored assessments
    of its target with other identifiers, it is the latest one of its
    target. *)
Theorem X20_latest_assessment_of_a_target (db : Storage.t) :
  (∀ tgt,
     match (Storage.get_assessment tgt db).1 with
     | Some b =>
         b ∈ Storage.assessments db ∧ target b = tgt
         ∧ ∀ c, c ∈ Storage.assessments db → target c = tgt →
             (generated_at c ≤ generated_at b)%Z
     | None => ∀ c, c ∈ Storage.assessments db → target c ≠ tgt
     end)
  ∧ (∀ a,
       (∀ b, b ∈ Storage.assessments db → target b = target a →
          assessment_id b ≠ assessment_id a → (generated_at b < generated_at a)%Z) →
       (Storage.get_assessment (target a) (Storage.save_assessment a db).2).1 = Some a).
Proof.
  split.
  - intros tgt. unfold Storage.get_assessment, Storage.query. cbn [fst].
    destruct (head _) as [b|] eqn:Hhead.
    + apply head_sorted_least in Hhead as [Hin Hleast].
      apply (list_elem_of_filter (λ a, target a = tgt)) in Hin as [Htgt Hin].
      split; [done|]. split; [done|]. intros c Hc Hctgt.
      assert (c ∈ filter (λ a, target a = tgt) (Storage.assessments db)) as Hc'
        by (by apply (list_elem_of_filter (λ a, target a = tgt))).
      specialize (Hleast c Hc'). cbv beta in Hleast. lia.
    + apply head_sorted_none in Hhead. intros c Hc Hctgt.
      assert (c ∈ filter (λ a, target a = tgt) (Storage.assessments db)) as Hc'
        by (by apply (list_elem_of_filter (λ a, target a = tgt))).
      rewrite Hhead in Hc'. by apply elem_of_nil in Hc'.
  - intros a. apply get_assessment_after_save.
Qed.

(** *** [LIKE] and [in] *)





End StorageProperties.

(** X19: saving the first protest again leaves the second where it was. *)
Lemma X19_witness :
  "ev2" ≠ event_id Examples.unrest1
  ∧ (Storage.get_event "ev2" (Storage.save_event Examples.unrest1 Examples.db_events).2).1
    = (Storage.get_event "ev2" Examples.db_events).1.
Proof.
  assert ("ev2" ≠ event_id Examples.unrest1) as H by discriminate.
  split; [exact H|].
  exact (proj1 (proj2 (X19_saved_event_is_found_by_its_identifier Examples.unrest1
                         Examples.db_events)) "ev2" H).
Defined.

(** X20 at a database holding an assessment of Country A that is a day
    older than the one saved. *)
Lemma X20_witness :
  (∀ b, b ∈ Storage.assessments Examples.db_assessed →
     target b = target (Examples.baseline_assessment "assess_Country A_2" Examples.now) →
     assessment_id b
     ≠ assessment_id (Examples.baseline_assessment "assess_Country A_2" Examples.now) →
     (generated_at b
      < generated_at (Examples.baseline_assessment "assess_Country A_2" Examples.now))%Z)
  ∧ (Storage.get_assessment "Country A"
       (Storage.save_assessment
          (Examples.baseline_assessment "assess_Country A_2" Examples.now)
          Examples.db_assessed).2).1
    = Some (Examples.baseline_assessment "assess_Country A_2" Examples.now).
Proof.
  assert (∀ b, b ∈ Storage.assessments Examples.db_assessed →
            target b
            = target (Examples.baseline_assessment "assess_Country A_2" Examples.now) →
            assessment_id b
            ≠ assessment_id (Examples.baseline_assessment "assess_Country A_2" Examples.now) →
            (generated_at b
             < generated_at (Examples.baseline_assessment "assess_Country A_2"
                               Examples.now))%Z) as H.
  { intros b Hb _ _. apply list_elem_of_singleton in Hb. subst b. by vm_compute. }
  split; [exact H|].
  exact (proj2 (X20_latest_assessment_of_a_target Examples.db_assessed)
               (Examples.baseline_assessment "assess_Country A_2" Examples.now) H).
Defined.


(** ** Correlation and patterns *)

Section CorrelationScore.

Local Open Scope Q_scope.

Lemma abs_diff_sym (t1 t2 : datetime) : abs_diff t1 t2 = abs_diff t2 t1.
Proof. unfold abs_diff. lia. Qed.

Lemma calculate_correlation_sym (e1 e2 : Event) :
  Correlation._calculate_correlation e1 e2 = Correlation._calculate_correlation e2 e1.
Proof.
  unfold Correlation._calculate_correlation.
  rewrite (String.eqb_sym (lower (location e1))).
  rewrite (abs_diff_sym (timestamp e1)).
  assert (set_of (entities e1) ∩ set_of (entities e2)
          = set_of (entities e2) ∩ set_of (entities e1)) as -> by apply (comm_L _).
  assert (bool_decide (event_type e1 = event_type e2)
          = bool_decide (event_type e2 = event_type e1)) as ->
    by (by apply bool_decide_ext).
  done.
Qed.

(** X22. The correlation score of two events does not depend on their
    order and lies between 0 and 1. Two events at different locations
    (letters compared without case) and of different kinds score at
    most 0.4, so neither is reported for the other; two events at the
    same location and of the same kind score at least 0.6. *)
Theorem X22_correlation_score_symmetric_and_bounded (e1 e2 : Event) :
  let score := Correlation._calculate_correlation e1 e2 in
  score = Correlation._calculate_correlation e2 e1
  ∧ 0 <= score ∧ score <= 1
  ∧ (lower (location e1) ≠ lower (location e2) → event_type e1 ≠ event_type e2 →
     score <= 4 # 10)
  ∧ (lower (location e1) = lower (location e2) → event_type e1 = event_type e2 →
     6 # 10 <= score).
Proof.
  cbv zeta. split; [apply calculate_correlation_sym|].
  unfold Correlation._calculate_correlation.
  destruct (String.eqb_spec (lower (location e1)) (lower (location e2))) as [Hl|Hl];
    destruct (bool_decide_reflect (event_type e1 = event_type e2)) as [Hk|Hk];
    destruct (abs_diff (timestamp e1) (timestamp e2) <? seconds 86400)%Z;
    destruct (abs_diff (timestamp e1) (timestamp e2) <? seconds 604800)%Z;
    destruct (bool_decide (set_of (entities e1) ∩ set_of (entities e2) ≠ ∅));
    (split; [by vm_compute|]); (split; [by vm_compute|]);
    (split; [intros; try done; by vm_compute|intros; try done; by vm_compute]).
Qed.

End CorrelationScore.

Section CorrelatedEvents.

Local Open Scope Q_scope.

Lemma find_correlated_events_elem (event other : Event) (ndays : Z) (db : Storage.t) :
  other ∈ (Correlation.find_correlated_events event ndays db).1
  ↔ other ∈ Storage.events db
    ∧ (timestamp event - days ndays ≤ timestamp other)%Z
    ∧ (timestamp other ≤ timestamp event + days ndays)%Z
    ∧ event_id other ≠ event_id event
    ∧ 5 # 10 < Correlation._calculate_correlation event other.
Proof.
  unfold Correlation.find_correlated_events.
  rewrite bind_read_only by apply read_only_query.
  cbn [Storage.ret fst]. rewrite elem_of_correlated_loop.
  unfold Storage.get_events_by_time_range, Storage.query, Storage.newest_first. cbn [fst].
  rewrite elem_of_sorted.
  rewrite (list_elem_of_filter
             (λ e, (timestamp event - days ndays ≤ timestamp e)%Z
                   ∧ (timestamp e ≤ timestamp event + days ndays)%Z)).
  split.
  - intros [H|H]; [by apply elem_of_nil in H|]. tauto.
  - intros H. right. tauto.
Qed.

(** X23. Among stored events correlation is reported both ways: one
    event is among the events correlated with another exactly when the
    other is among those correlated with it, for the same window. The
    events reported are stored events within the window whose
    identifier is not the reference event's, and with a negative window
    none is reported. *)
Theorem X23_correlation_is_reported_both_ways (db : Storage.t) (ndays : Z) :
  (∀ e1 e2,
     e1 ∈ Storage.events db → e2 ∈ Storage.events db →
     e2 ∈ (Correlation.find_correlated_events e1 ndays db).1
     ↔ e1 ∈ (Correlation.find_correlated_events e2 ndays db).1)
  ∧ (∀ event other,
       other ∈ (Correlation.find_correlated_events event ndays db).1 →
       other ∈ Storage.events db
       ∧ event_id other ≠ event_id event
       ∧ (abs_diff (timestamp event) (timestamp other) ≤ days ndays)%Z)
  ∧ ((ndays < 0)%Z → ∀ event, (Correlation.find_correlated_events event ndays db).1 = []).
Proof.
  split; [|split].
  - intros e1 e2 H1 H2. rewrite !find_correlated_events_elem.
    rewrite (calculate_correlation_sym e2 e1). unfold days, seconds.
    split; intros (Hin & Hlo & Hhi & Hid & Hs);
      (split; [done|]); (split; [lia|]); (split; [lia|]); (split; [congruence|done]).
  - intros event other. rewrite find_correlated_events_elem. unfold abs_diff.
    intros (Hin & Hlo & Hhi & Hid & _). split; [done|]. split; [done|].
    unfold days, seconds in *. lia.
  - intros Hneg event.
    destruct (Correlation.find_correlated_events event ndays db).1 as [|other l] eqn:Heq;
      [done|].
    assert (other ∈ (Correlation.find_correlated_events event ndays db).1) as Hin
      by (rewrite Heq; left).
    apply find_correlated_events_elem in Hin as (_ & Hlo & Hhi & _).
    unfold days, seconds in *. lia.
Qed.

End CorrelatedEvents.

(** *** Escalation patterns *)

Section Patterns.

Lemma dict_append_groups (seen : list Event) (e : Event) (d : list (string * list Event)) :
  NoDup (map fst d) →
  Forall (λ entry, entry.2 = filter (λ x, location x = entry.1) seen) d →
  (location e ∉ map fst d → filter (λ x, location x = location e) seen = []) →
  let d' := dict_append d (location e) e in
  NoDup (map fst d')
  ∧ Forall (λ entry, entry.2 = filter (λ x, location x = entry.1) (seen ++ [e])) d'
  ∧ ∀ k, k ∈ map fst d' ↔ k ∈ map fst d ∨ k = location e.
Proof.
  cbv zeta. induction d as [|[k vs] d IH]; intros Hnodup Hall Hnew.
  - cbn. split; [apply NoDup_singleton|]. split.
    + constructor; [|constructor]. cbn. rewrite filter_app, Hnew by apply not_elem_of_nil.
      by rewrite filter_cons_True.
    + intros k'. rewrite list_elem_of_singleton. split; [by right|]. intros [H|H]; [|done].
      by apply elem_of_nil in H.
  - cbn [map fst] in Hnodup. apply NoDup_cons in Hnodup as [Hk Hnodup].
    apply Forall_cons in Hall as [Hvs Hall]. cbn in Hvs.
    cbn [dict_append]. destruct (String.eqb_spec k (location e)) as [->|Hne].
    + cbn [map fst]. split; [by apply NoDup_cons|]. split.
      * constructor.
        -- cbn. rewrite filter_app, filter_cons_True by done. by rewrite Hvs.
        -- rewrite Forall_forall in Hall. apply Forall_forall. intros [k' vs'] Hin.
           cbn. rewrite filter_app, filter_cons_False, app_nil_r.
           ++ apply (Hall _ Hin).
           ++ intros Heq. apply Hk. rewrite Heq. apply list_elem_of_fmap.
              by exists (k', vs').
      * intros k'. rewrite elem_of_cons. split; [by left|]. intros [H|H]; [done|by left].
    + destruct IH as (IH1 & IH2 & IH3); [done|done| |].
      { intros Hnotin. apply Hnew. cbn [map fst]. rewrite elem_of_cons.
        intros [H|H]; [congruence|done]. }
      cbn [map fst]. split; [|split].
      * apply NoDup_cons. split; [|done]. rewrite IH3. intros [H|H]; [done|congruence].
      * constructor; [|done]. cbn.
        rewrite filter_app, filter_cons_False, app_nil_r by congruence. done.
      * intros k'. rewrite !elem_of_cons, IH3. tauto.
Qed.

Lemma group_loop_groups (events seen : list Event) (d : list (string * list Event)) :
  Props.groups_of seen d →
  Props.groups_of (seen ++ events)
    (fold_left (λ location_events event, dict_append location_events (location event) event)
               events d).
Proof.
  revert seen d. induction events as [|e events IH]; intros seen d Hd.
  - by rewrite app_nil_r.
  - cbn [fold_left]. rewrite (assoc_L (++) seen [e] events : seen ++ e :: events = _).
    apply IH. destruct Hd as (Hnodup & Hall & Hkeys).
    destruct (dict_append_groups seen e d Hnodup Hall) as (H1 & H2 & H3).
    + intros Hnotin. destruct (filter _ seen) as [|x l] eqn:Heq; [done|].
      assert (x ∈ filter (λ x, location x = location e) seen) as Hx by (rewrite Heq; left).
      apply (list_elem_of_filter (λ x, location x = location e)) in Hx as [Hloc Hx].
      apply Hkeys in Hx. congruence.
    + split; [done|]. split; [done|]. intros x [Hx|Hx]%elem_of_app.
      * apply H3. left. by apply Hkeys.
      * apply list_elem_of_singleton in Hx as ->. apply H3. by right.
Qed.

(** Each group holds the events of its location, in their order. *)
Lemma group_by_location_groups (events : list Event) :
  Props.groups_of events (Correlation.group_by_location events).
Proof.
  apply (group_loop_groups events [] []).
  split; [constructor|]. split; [constructor|]. intros e He. by apply elem_of_nil in He.
Qed.

Lemma escalations_elem (loc : string) (l : list Event) (p : Correlation.Pattern) :
  p ∈ Correlation.escalations loc l →
  ∃ l1 e1 e2 l2,
    l = l1 ++ e1 :: e2 :: l2
    ∧ event_type e1 = EventType.CIVIL_UNREST
    ∧ event_type e2 = EventType.ARMED_CONFLICT
    ∧ (Correlation.timedelta_days (timestamp e2 - timestamp e1)%Z < 30)%Z
    ∧ p = {| Correlation.pattern_type := "escalation";
             Correlation.pattern_location := loc;
             Correlation.pattern_sequence := ["civil_unrest"; "armed_conflict"];
             Correlation.timeframe_days :=
               Correlation.timedelta_days (timestamp e2 - timestamp e1)%Z;
             Correlation.pattern_events := [event_id e1; event_id e2] |}.
Proof.
  induction l as [|e1 l IH]; [by intros H; apply elem_of_nil in H|].
  cbn [Correlation.escalations]. destruct l as [|e2 l]; [by intros H; apply elem_of_nil in H|].
  intros [Hp|Hp]%elem_of_app.
  - destruct (bool_decide_reflect (event_type e1 = EventType.CIVIL_UNREST)) as [H1|H1];
      [|by apply elem_of_nil in Hp].
    destruct (bool_decide_reflect (event_type e2 = EventType.ARMED_CONFLICT)) as [H2|H2];
      [|by apply elem_of_nil in Hp].
    cbn [andb] in Hp. destruct (Z.ltb_spec (Correlation.timedelta_days
                                   (timestamp e2 - timestamp e1)%Z) 30) as [Hlt|Hlt];
      [|by apply elem_of_nil in Hp].
    apply list_elem_of_singleton in Hp. exists [], e1, e2, l. done.
  - destruct (IH Hp) as (l1 & e1' & e2' & l2 & Heq & H).
    exists (e1 :: l1), e1', e2', l2. split; [by rewrite Heq|done].
Qed.

Lemma timedelta_days_lt (d n : Z) :
  (Correlation.timedelta_days d < n)%Z ↔ (d < days n)%Z.
Proof.
  unfold Correlation.timedelta_days, days, seconds.
  change (1 * 86400 * 1000000)%Z with 86400000000%Z.
  pose proof (Z.div_mod d 86400000000 ltac:(done)) as Hdiv.
  pose proof (Z.mod_pos_bound d 86400000000 ltac:(done)) as Hmod.
  lia.
Qed.

(** X24. Every pattern reported is an escalation made of two of the
    given events at the location of the pattern: a civil unrest
    followed, less than 30 days later, by an armed conflict, with no
    event of that location strictly between them in time. It names
    their identifiers in that order and the whole days between them. *)
Theorem X24_patterns_are_escalations_between_neighbours (events : list Event)
    (p : Correlation.Pattern) :
  p ∈ Correlation.detect_patterns events →
  ∃ e1 e2,
    e1 ∈ events ∧ e2 ∈ events
    ∧ location e1 = Correlation.pattern_location p
    ∧ location e2 = Correlation.pattern_location p
    ∧ event_type e1 = EventType.CIVIL_UNREST
    ∧ event_type e2 = EventType.ARMED_CONFLICT
    ∧ (timestamp e1 ≤ timestamp e2)%Z
    ∧ (timestamp e2 - timestamp e1 < days 30)%Z
    ∧ (∀ e, e ∈ events → location e = Correlation.pattern_location p →
         ¬ (timestamp e1 < timestamp e ∧ timestamp e < timestamp e2)%Z)
    ∧ Correlation.pattern_type p = "escalation"
    ∧ Correlation.pattern_events p = [event_id e1; event_id e2]
    ∧ Correlation.timeframe_days p
      = Correlation.timedelta_days (timestamp e2 - timestamp e1)%Z.
Proof.
  unfold Correlation.detect_patterns. intros Hp.
  apply list_elem_of_In, in_flat_map in Hp as ([loc group] & Hgroup & Hp).
  apply list_elem_of_In in Hgroup, Hp.
  destruct (group_by_location_groups events) as (_ & Hall & _).
  rewrite Forall_forall in Hall. specialize (Hall _ Hgroup). cbn in Hall.
  apply escalations_elem in Hp as (l1 & e1 & e2 & l2 & Heq & H1 & H2 & Hlt & ->).
  pose proof (sorted_sorted timestamp group) as Hsorted.
  pose proof (sorted_perm timestamp group) as Hperm.
  rewrite Heq in Hsorted, Hperm.
  assert (∀ e, e ∈ events ∧ location e = loc ↔ e ∈ l1 ++ e1 :: e2 :: l2) as Hmem.
  { intros e. rewrite Hperm, Hall.
    rewrite (list_elem_of_filter (λ x, location x = loc)). tauto. }
  apply StronglySorted_app in Hsorted as (Hcross & _ & Hright).
  apply StronglySorted_inv in Hright as [Hright He1].
  apply StronglySorted_inv in Hright as [_ He2].
  rewrite Forall_forall in He1, He2.
  assert (e1 ∈ l1 ++ e1 :: e2 :: l2) as Hin1 by (apply elem_of_app; right; left).
  assert (e2 ∈ l1 ++ e1 :: e2 :: l2) as Hin2
    by (apply elem_of_app; right; right; left).
  apply Hmem in Hin1 as [Hin1 Hloc1]. apply Hmem in Hin2 as [Hin2 Hloc2].
  assert (timestamp e1 ≤ timestamp e2)%Z as Hle by (apply He1; left).
  exists e1, e2. cbn [Correlation.pattern_location Correlation.pattern_type
    Correlation.pattern_events Correlation.timeframe_days].
  repeat (split; [done|]). split; [by apply timedelta_days_lt|].
  split; [|done].
  intros e He Hloc [Hafter Hbefore].
  assert (e ∈ l1 ++ e1 :: e2 :: l2) as Hin by (by apply Hmem).
  apply elem_of_app in Hin as [Hin|Hin].
  - assert (key_le timestamp e e1) as Hl1 by (apply (Hcross e e1 Hin); left).
    unfold key_le in Hl1. lia.
  - apply elem_of_cons in Hin as [->|Hin]; [lia|].
    apply elem_of_cons in Hin as [->|Hin]; [lia|].
    specialize (He2 e Hin). unfold key_le in He2. lia.
Qed.

End Patterns.

(** X22 at the two protests in Country A. *)
Lemma X22_witness :
  lower (location Examples.unrest1) = lower (location Examples.unrest2)
  ∧ event_type Examples.unrest1 = event_type Examples.unrest2
  ∧ (6 # 10 <= Correlation._calculate_correlation Examples.unrest1 Examples.unrest2)%Q.
Proof.
  assert (lower (location Examples.unrest1) = lower (location Examples.unrest2)) as H1
    by reflexivity.
  assert (event_type Examples.unrest1 = event_type Examples.unrest2) as H2 by reflexivity.
  split; [exact H1|]. split; [exact H2|].
  exact (proj2 (proj2 (proj2 (proj2
           (X22_correlation_score_symmetric_and_bounded Examples.unrest1 Examples.unrest2))))
           H1 H2).
Defined.

(** X23 at the database of the two protests. *)
Lemma X23_witness :
  Examples.unrest1 ∈ Storage.events Examples.db_events
  ∧ Examples.unrest2 ∈ Storage.events Examples.db_events
  ∧ (Examples.unrest2
       ∈ (Correlation.find_correlated_events Examples.unrest1 30 Examples.db_events).1
     ↔ Examples.unrest1
       ∈ (Correlation.find_correlated_events Examples.unrest2 30 Examples.db_events).1).
Proof.
  assert (Examples.unrest1 ∈ Storage.events Examples.db_events) as H1
    by apply list_elem_of_here.
  assert (Examples.unrest2 ∈ Storage.events Examples.db_events) as H2
    by apply list_elem_of_further, list_elem_of_here.
  split; [exact H1|]. split; [exact H2|].
  exact (proj1 (X23_correlation_is_reported_both_ways Examples.db_events 30)
               Examples.unrest1 Examples.unrest2 H1 H2).
Defined.

(** The pattern found in a protest, a later protest and an armed
    conflict a day after that. *)
Example escalation_in_country_a :
  Correlation.detect_patterns
    [Examples.conflict_after_unrest; Examples.unrest1; Examples.unrest2]
  = [ {| Correlation.pattern_type := "escalation";
         Correlation.pattern_location := "Country A";
         Correlation.pattern_sequence := ["civil_unrest"; "armed_conflict"];
         Correlation.timeframe_days := 1;
         Correlation.pattern_events := ["ev2"; "ev3"] |} ].
Proof. reflexivity. Qed.

(** X24 at that pattern. *)
Lemma X24_witness :
  let p := {| Correlation.pattern_type := "escalation";
              Correlation.pattern_location := "Country A";
              Correlation.pattern_sequence := ["civil_unrest"; "armed_conflict"];
              Correlation.timeframe_days := 1;
              Correlation.pattern_events := ["ev2"; "ev3"] |} in
  let events := [Examples.conflict_after_unrest; Examples.unrest1; Examples.unrest2] in
  p ∈ Correlation.detect_patterns events
  ∧ ∃ e1 e2,
      e1 ∈ events ∧ e2 ∈ events
      ∧ location e1 = Correlation.pattern_location p
      ∧ location e2 = Correlation.pattern_location p
      ∧ event_type e1 = EventType.CIVIL_UNREST
      ∧ event_type e2 = EventType.ARMED_CONFLICT
      ∧ (timestamp e1 ≤ timestamp e2)%Z
      ∧ (timestamp e2 - timestamp e1 < days 30)%Z
      ∧ (∀ e, e ∈ events → location e = Correlation.pattern_location p →
           ¬ (timestamp e1 < timestamp e ∧ timestamp e < timestamp e2)%Z)
      ∧ Correlation.pattern_type p = "escalation"
      ∧ Correlation.pattern_events p = [event_id e1; event_id e2]
      ∧ Correlation.timeframe_days p
        = Correlation.timedelta_days (timestamp e2 - timestamp e1)%Z.
Proof.
  cbv zeta.
  assert ({| Correlation.pattern_type := "escalation";
             Correlation.pattern_location := "Country A";
             Correlation.pattern_sequence := ["civil_unrest"; "armed_conflict"];
             Correlation.timeframe_days := 1;
             Correlation.pattern_events := ["ev2"; "ev3"] |}
          ∈ Correlation.detect_patterns
              [Examples.conflict_after_unrest; Examples.unrest1; Examples.unrest2]) as H
    by (vm_compute; apply list_elem_of_here).
  split; [exact H|].
  exact (X24_patterns_are_escalations_between_neighbours _ _ H).
Defined.

(** ** The pipeline *)

Section PipelineProperties.

Variable isoformat : datetime → string.
Variable config : Config.t.
Variable sha256_hexdigest : string → string.
Variable urlparse_netloc : string → option string.






(** *** The scoring step *)

Lemma score_step_run (all_events : list Event) (countries : list string) :
  ∀ (clock : nat → datetime) (assessments_created : nat) (db : Storage.t),
    let r := Pipeline.score_step isoformat config clock all_events countries
               assessments_created db in
    r.1 = (assessments_created + length countries)%nat
    ∧ Storage.events r.2 = Storage.events db
    ∧ ∃ rows,
        Storage.historical_assessments r.2 = Storage.historical_assessments db ++ rows
        ∧ map Storage.row_target rows = countries
        ∧ map Storage.row_generated_at rows = map clock (seq 0 (length countries)).
Proof.
  induction countries as [|country countries IH]; intros clock n db; cbv zeta.
  - cbn. split; [lia|]. split; [done|]. exists []. by rewrite app_nil_r.
  - cbn [Pipeline.score_step]. unfold Storage.bind. rewrite score_country_run.
    set (a := (Scoring.calculate_assessment isoformat config (clock 0%nat) country _ db).1).
    destruct (IH (λ i, clock (S i)) (n + 1)%nat (Storage.save_assessment a db).2)
      as (H1 & H2 & rows & H3 & H4 & H5).
    split; [rewrite H1; cbn [length]; lia|]. split; [by rewrite H2|].
    exists (Storage.historical_row a :: rows). split; [|split].
    + rewrite H3. unfold Storage.save_assessment, Storage.execute.
      cbn [snd Storage.historical_assessments]. by rewrite <- app_assoc.
    + cbn [map Storage.historical_row Storage.row_target]. rewrite H4. f_equal.
      apply calculate_assessment_target.
    + cbn [map Storage.historical_row Storage.row_generated_at length seq]. rewrite H5.
      f_equal; [apply calculate_assessment_generated_at|].
      by rewrite <- seq_shift, map_map.
Qed.

(** X26. The scoring step of the pipeline counts one assessment for
    each monitored country and appends one snapshot for each, in the
    order of the countries, each bearing its country and the clock
    reading of its assessment; the stored events and the older
    snapshots stay as they were. *)
Theorem X26_scoring_step_appends_a_snapshot_per_country (clock : nat → datetime)
    (all_events : list Event) (countries : list string) (db : Storage.t) :
  let r := Pipeline.score_step isoformat config clock all_events countries 0 db in
  r.1 = length countries
  ∧ Storage.events r.2 = Storage.events db
  ∧ ∃ rows,
      Storage.historical_assessments r.2 = Storage.historical_assessments db ++ rows
      ∧ map Storage.row_target rows = countries
      ∧ map Storage.row_generated_at rows = map clock (seq 0 (length countries)).
Proof. apply (score_step_run all_events countries clock 0%nat db). Qed.

(** X27. When a country has been scored at a time later than its stored
    assessments, the assessment the pipeline returns for the country is
    the one just calculated. *)
Theorem X27_scored_country_has_its_assessment (now : datetime) (all_events : list Event)
    (country : string) (db : Storage.t) :
  (∀ b, b ∈ Storage.assessments db → target b = country → (generated_at b < now)%Z) →
  let r := Pipeline.score_country isoformat config now all_events country db in
  (Pipeline.get_assessment country r.2).1 = Some r.1.
Proof.
  intros Hnewer. cbv zeta. rewrite score_country_run. cbn [fst snd].
  set (a := (Scoring.calculate_assessment _ _ _ _ _ _).1).
  assert (target a = country) as Htarget by apply calculate_assessment_target.
  assert (generated_at a = now) as Hnow by apply calculate_assessment_generated_at.
  unfold Pipeline.get_assessment. rewrite <- Htarget.
  apply get_assessment_after_save. intros b Hb Htgt _. rewrite Hnow.
  apply Hnewer; [done|congruence].
Qed.

End PipelineProperties.

(** X25 at the batch of the repository's clustering test: three items,
    no event, and nothing raised. *)
Example pipeline_on_the_clustering_batch :
  (Pipeline.cluster_and_extract Examples.isoformat Examples.config Examples.sha256_hexdigest
     Examples.urlparse_netloc (λ _, Examples.now)
     [Examples.item1; Examples.item2; Examples.item3] Storage.empty).1
  = inr [].
Proof. reflexivity. Qed.

(** X27 at the database with an assessment of Country A a day old. *)
Lemma X27_witness :
  (∀ b, b ∈ Storage.assessments Examples.db_assessed → target b = "Country A" →
     (generated_at b < Examples.now)%Z)
  ∧ let r := Pipeline.score_country Examples.isoformat Examples.config Examples.now
               [Examples.unrest1] "Country A" Examples.db_assessed in
    (Pipeline.get_assessment "Country A" r.2).1 = Some r.1.
Proof.
  assert (∀ b, b ∈ Storage.assessments Examples.db_assessed → target b = "Country A" →
            (generated_at b < Examples.now)%Z) as H.
  { intros b Hb _. apply list_elem_of_singleton in Hb. subst b. by vm_compute. }
  split; [exact H|].
  exact (X27_scored_country_has_its_assessment Examples.isoformat Examples.config
           Examples.now [Examples.unrest1] "Country A" Examples.db_assessed H).
Defined.

(** ** Briefs *)

Section Citations.

Lemma dict_find_none {V} (d : list (string * V)) (k : string) :
  dict_find d k = None ↔ k ∉ map fst d.
Proof.
  induction d as [|[k' v] d IH]; cbn.
  - split; [intros _; apply not_elem_of_nil|done].
  - rewrite not_elem_of_cons. destruct (String.eqb_spec k' k) as [->|Hne].
    + split; [done|]. by intros [? _].
    + rewrite IH. split; [by split|by intros [_ ?]].
Qed.

Lemma collect_sources_collected (event_sources seen : list SourceCitation)
    (d : list (string * SourceCitation)) :
  Props.collected_from seen d →
  Props.collected_from (seen ++ event_sources) (Summarization.collect_sources event_sources d).
Proof.
  revert seen d. induction event_sources as [|c rest IH]; intros seen d Hd.
  - by rewrite app_nil_r.
  - cbn [Summarization.collect_sources].
    rewrite (assoc_L (++) seen [c] rest : seen ++ c :: rest = _).
    destruct Hd as (Hkeys & Hnodup & Hsub & Hfirst & Hcover).
    destruct (dict_find d (cit_url c)) as [k|] eqn:Hfind; apply IH.
    + split; [done|]. split; [done|]. split; [by apply sublist_inserts_r|]. split.
      * intros k' Hk'. destruct (Hfirst k' Hk') as (before & after & -> & Hb).
        exists before, (after ++ [c]). split; [by rewrite <- app_assoc|done].
      * intros x [Hx|Hx]%elem_of_app; [by apply Hcover|].
        apply list_elem_of_singleton in Hx as ->.
        apply dict_find_elem in Hfind. apply list_elem_of_fmap. by exists (cit_url c, k).
    + apply dict_find_none in Hfind. unfold Props.collected_from.
      rewrite !map_app. cbn [map fst snd]. split; [by rewrite Hkeys|]. split; [|split; [|split]].
      * apply NoDup_app. split; [done|]. split; [|apply NoDup_singleton].
        intros u Hu Hu'. apply list_elem_of_singleton in Hu'. by subst.
      * by apply sublist_app.
      * intros k' [Hk'|Hk']%elem_of_app.
        -- destruct (Hfirst k' Hk') as (before & after & -> & Hb).
           exists before, (after ++ [c]). split; [by rewrite <- app_assoc|done].
        -- apply list_elem_of_singleton in Hk' as ->. exists seen, []. split; [done|].
           intros b Hb Heq. apply Hfind. rewrite <- Heq. by apply Hcover.
      * intros x [Hx|Hx]%elem_of_app; apply elem_of_app.
        -- left. by apply Hcover.
        -- right. apply list_elem_of_singleton in Hx as ->. left.
Qed.

Lemma collect_events_collected (events : list Event) (seen : list SourceCitation)
    (d : list (string * SourceCitation)) :
  Props.collected_from seen d →
  Props.collected_from (seen ++ flat_map sources events) (Summarization.collect_events events d).
Proof.
  revert seen d. induction events as [|e events IH]; intros seen d Hd.
  - cbn. by rewrite app_nil_r.
  - cbn [Summarization.collect_events flat_map]. rewrite app_assoc.
    by apply IH, collect_sources_collected.
Qed.

(** X28. The citations of a brief are the first ten of the list that
    keeps, of the citations of the events in their order, the first one
    with each URL: no URL occurs twice in it and every URL cited by an
    event occurs in it. *)
Theorem X28_citations_are_unique_by_url (events : list Event) :
  let cited := flat_map sources events in
  ∃ kept,
    Summarization._collect_citations events = take 10 kept
    ∧ sublist kept cited
    ∧ NoDup (map cit_url kept)
    ∧ (∀ k, k ∈ kept → Props.first_with_url cited k)
    ∧ (∀ c, c ∈ cited → cit_url c ∈ map cit_url kept).
Proof.
  cbv zeta. unfold Summarization._collect_citations.
  destruct (collect_events_collected events [] [])
    as (Hkeys & Hnodup & Hsub & Hfirst & Hcover).
  { split; [done|]. split; [constructor|]. split; [constructor|].
    split; intros x Hx; by apply elem_of_nil in Hx. }
  cbn [app] in *.
  exists (map snd (Summarization.collect_events events [])).
  split; [done|]. split; [done|]. rewrite <- Hkeys. done.
Qed.

End Citations.

Section Briefs.

Variable strftime_date : datetime → string.
Variable isoformat : datetime → string.
Variable format_1f : float → string.
Variable format_signed_1f : float → string.

Lemma read_only_why_it_matters now assessment events brief_type :
  Storage.read_only
    (Summarization._generate_why_it_matters format_1f format_signed_1f now assessment events
       brief_type).
Proof.
  unfold Summarization._generate_why_it_matters.
  apply read_only_bind; [apply read_only_query|].
  intros historical. cbv zeta. destruct (if Qltb _ _ then _ else _). apply read_only_ret.
Qed.

Lemma what_to_watch_raises assessment (e : Event) (events : list Event) brief_type :
  Summarization._generate_what_to_watch format_1f assessment (e :: events) brief_type
  = inl Summarization.TypeError.
Proof.
  unfold Summarization._generate_what_to_watch. cbv zeta.
  destruct (remove_dups (map event_type (e :: events))) as [|k l] eqn:Heq; [|done].
  assert (event_type e ∈ remove_dups (map event_type (e :: events))) as Hin
    by (apply elem_of_remove_dups; left).
  rewrite Heq in Hin. by apply elem_of_nil in Hin.
Qed.

(** X29. Generating a brief never writes to the database. Without a
    stored assessment of the target the brief is the empty one. With an
    assessment and no stored event for the target the brief reports
    that no significant events were found, cites nothing and marks the
    overall assessment only. With an assessment and at least one stored
    event for the target no brief is produced: slicing the set of event
    types raises a [TypeError]. *)
Theorem X29_brief_fails_when_the_target_has_events (now : datetime) (tgt : string)
    (brief_type : string) (db : Storage.t) :
  let r := Summarization.generate_brief strftime_date isoformat format_1f format_signed_1f
             now tgt brief_type db in
  r.2 = db
  ∧ match (Storage.get_assessment tgt db).1,
          (Storage.get_events_by_location tgt 10 db).1 with
    | None, _ => r.1 = inr (Summarization._create_empty_brief isoformat now tgt brief_type)
    | Some assessment, [] =>
        ∃ brief,
          r.1 = inr brief
          ∧ brief_target brief = tgt
          ∧ what_changed brief = "No significant events reported in the recent period."
          ∧ brief_citations brief = []
          ∧ confidence_markers brief
            = [("overall_assessment",
                Summarization.marker_of (assessment_confidence assessment))]
    | Some _, _ :: _ => r.1 = inl Summarization.TypeError
    end.
Proof.
  cbv zeta. unfold Summarization.generate_brief.
  rewrite bind_read_only by apply read_only_query.
  destruct (Storage.get_assessment tgt db).1 as [assessment|]; [|done].
  rewrite bind_read_only by apply read_only_query.
  rewrite bind_read_only by apply read_only_why_it_matters.
  destruct (Storage.get_events_by_location tgt 10 db).1 as [|e events].
  - cbn [Summarization._generate_what_to_watch remove_dups map length Nat.ltb Nat.leb].
    split; [done|]. eexists. split; [done|]. done.
  - rewrite what_to_watch_raises. done.
Qed.

End Briefs.

(** A brief for Country A on a database that holds an assessment and
    two events of the country: a [TypeError]. *)
Example brief_for_country_a :
  (Summarization.generate_brief Examples.isoformat Examples.isoformat (λ _, "0.0")
     (λ _, "+0.0") Examples.now "Country A" "executive"
     (Storage.save_assessment
        (Examples.baseline_assessment "assess_Country A_2" Examples.now)
        Examples.db_events).2).1
  = inl Summarization.TypeError.
Proof. reflexivity. Qed.
